(** * deploy-setup: detector, config store, collector and generator

    A shallow embedding of [src/core/detector.ts], [src/core/types.ts],
    [src/utils/config-store.ts], [src/core/collector.ts],
    [src/core/generator.ts], [src/utils/template.ts], [src/utils/cache.ts]
    and of the commands [runInit] and [runPushAndVerify] of [src/cli.ts],
    followed by the properties of the specification that concern them and
    by further properties of the code.

    Modelling conventions.
    - Text is a [string] of 8-bit characters.  The string primitives of
      the JavaScript runtime ([includes], [toLowerCase], [trim], [split],
      [replace], regular expressions) are written out for ASCII text;
      characters outside ASCII are carried along unchanged and are never
      white space, letters or digits.
    - The project directory is a tree of files and directories; the order
      of the entries of a directory is the order in which [readdirSync]
      lists them.
    - File-system and parse exceptions are values of [result].
    - [JSON.parse] belongs to the runtime, not to the repository: it is a
      parameter of the detector.
    - A [Record<string, T>] is a finite map [gmap string T] over its own
      property keys, the ones the JSON file of the store holds.  An
      assignment [record[name] = v] is [ConfigStore.assign]: it sets the
      own property [name], except for the object-model name [__proto__]
      on a record that has no own property of that name, where it sets
      the prototype and creates no own property.  The order in which
      [Object.keys] lists the labels is outside the model (it decides
      the order of a menu only).
    - The store file [~/.deploy-setup/config.json] is absent, or cannot
      be read ([JSON.parse] or [readFileSync] throws), or holds [null],
      or holds an object in which each of the two maps is present or
      not; a value that is no object has neither map.  Nothing in the
      code validates it: the exceptions of [loadGlobalConfig] and of a
      property access on [null] or [undefined] go up to the caller.  A
      map that is present holds values of its declared type.
    - A placeholder is the text [{{KEY}}]; this is what the regular
      expression built by [replacePlaceholders] matches for a key
      without regular-expression syntax characters
      ([Template.plain_key]), as are all the keys of
      [buildTemplateVars].
    - The operator is a script of answers consumed by the prompts; the
      prompts follow the contract of inquirer: an empty entry stands for
      the default, and a rejected entry is asked for again.
    - The generator writes to the same tree; a call of [fs] that throws
      is [None], whatever its error code.  The template files of the
      installation, [JSON.stringify] and the replies of [gh] are
      parameters.  The reply of [gh run list --json] is taken to be a
      JSON array whenever it parses. *)

From Stdlib Require Import ZArith QArith List Ascii String DecimalString Sorted.
From stdpp Require Import gmap strings.

Set Warnings "-register-all".

Local Open Scope string_scope.
Local Open Scope Z_scope.

(* ===================================================================== *)
(** ** JavaScript string primitives *)
(* ===================================================================== *)

Module Js.

Definition ascii_code (c : ascii) : N := N_of_ascii c.

Definition between (lo hi : N) (c : ascii) : bool :=
  ((lo <=? ascii_code c) && (ascii_code c <=? hi))%N.

Definition is_upper : ascii -> bool := between 65 90.
Definition is_digit : ascii -> bool := between 48 57.

(** White space and line terminators of the ASCII range: TAB, LF, VT,
    FF, CR and SPACE ([\s] of a regular expression, and what [trim]
    strips). *)
Definition is_space (c : ascii) : bool :=
  between 9 13 c || (ascii_code c =? 32)%N.

Definition lower_char (c : ascii) : ascii :=
  if is_upper c then ascii_of_N (ascii_code c + 32) else c.

(** [s.toLowerCase()] *)
Fixpoint toLowerCase (s : string) : string :=
  match s with
  | EmptyString => EmptyString
  | String c s' => String (lower_char c) (toLowerCase s')
  end.

(** [s.startsWith(p)] *)
Fixpoint startsWith (p s : string) : bool :=
  match p, s with
  | EmptyString, _ => true
  | String a p', String b s' => Ascii.eqb a b && startsWith p' s'
  | String _ _, EmptyString => false
  end.

(** [s.includes(p)] *)
Fixpoint includes (p s : string) : bool :=
  startsWith p s ||
  match s with
  | EmptyString => false
  | String _ s' => includes p s'
  end.

Fixpoint drop (n : nat) (s : string) : string :=
  match n, s with
  | O, _ => s
  | S n', String _ s' => drop n' s'
  | S _, EmptyString => EmptyString
  end.

(** [s.replace(p, r)] with a string pattern: the first occurrence only
    (the replacement texts of the source hold no [$]). *)
Fixpoint replace (p r s : string) : string :=
  if startsWith p s then String.append r (drop (String.length p) s)
  else match s with
       | EmptyString => EmptyString
       | String c s' => String c (replace p r s')
       end.

(** [s.split(sep)] for a one-character separator: always at least one
    piece. *)
Fixpoint split (sep : ascii) (s : string) : list string :=
  match s with
  | EmptyString => [EmptyString]
  | String c s' =>
      if Ascii.eqb c sep then EmptyString :: split sep s'
      else match split sep s' with
           | [] => [String c EmptyString]
           | piece :: pieces => String c piece :: pieces
           end
  end.

Fixpoint trimStart (s : string) : string :=
  match s with
  | EmptyString => EmptyString
  | String c s' => if is_space c then trimStart s' else s
  end.

Fixpoint trimEnd (s : string) : string :=
  match s with
  | EmptyString => EmptyString
  | String c s' =>
      match trimEnd s' with
      | EmptyString => if is_space c then EmptyString else String c EmptyString
      | t => String c t
      end
  end.

(** [s.trim()] *)
Definition trim (s : string) : string := trimEnd (trimStart s).

(** Truthiness of a string: non-empty. *)
Definition truthy_string (s : string) : bool :=
  match s with EmptyString => false | _ => true end.

Definition digit_value (c : ascii) : Z := Z.of_N (ascii_code c) - 48.

Fixpoint parse_digits (acc : Z) (s : string) : Z :=
  match s with
  | EmptyString => acc
  | String c s' =>
      if is_digit c then parse_digits (10 * acc + digit_value c) s' else acc
  end.

(** [parseInt(s, 10)] on a text that starts with a digit (the only use
    in the source: a captured [\d{4,5}]). *)
Definition parseInt (s : string) : Z := parse_digits 0 s.

Fixpoint all (p : ascii -> bool) (s : string) : bool :=
  match s with
  | EmptyString => true
  | String c s' => p c && all p s'
  end.

(** [xs.includes(x)] on an array of strings. *)
Definition array_includes (x : string) (xs : list string) : bool :=
  existsb (String.eqb x) xs.

End Js.

(* ===================================================================== *)
(** ** Regular expressions of the port scan *)
(* ===================================================================== *)

Module Regex.

(** The constructs the three port patterns are made of.  A pattern is a
    sequence of atoms ending in its capture group. *)
Inductive atom : Type :=
| Lit (s : string)                       (* literal text *)
| Star (p : ascii -> bool)               (* [c*], greedy *)
| One (p : ascii -> bool)                (* one character of a class *)
| Opt (p : ascii -> bool)                (* [c?], greedy *)
| Group (lo hi : nat) (p : ascii -> bool) (* [(c{lo,hi})], greedy, captured *).

Record regex : Type := { atoms : list atom; ignoreCase : bool }.

Definition char_eq (ci : bool) (a b : ascii) : bool :=
  if ci then Ascii.eqb (Js.lower_char a) (Js.lower_char b) else Ascii.eqb a b.

Fixpoint lit_rest (ci : bool) (l s : string) : option string :=
  match l, s with
  | EmptyString, _ => Some s
  | String a l', String b s' => if char_eq ci a b then lit_rest ci l' s' else None
  | String _ _, EmptyString => None
  end.

(** The remainders left by [p{0,n}], longest first, each with the text
    consumed, keeping those of at least [lo] characters. *)
Fixpoint repeat_choices (p : ascii -> bool) (lo n : nat) (taken : string) (s : string)
  : list (string * string) :=
  let here := if (lo <=? String.length taken)%nat then [(taken, s)] else [] in
  match n, s with
  | S n', String c s' =>
      if p c then (repeat_choices p lo n' (String.append taken (String c EmptyString)) s' ++ here)%list
      else here
  | _, _ => here
  end.

(** The ways an atom can match at the start of [s], in the order the
    backtracking matcher tries them: the remaining input and the text
    captured by this atom, if it is the group. *)
Definition atom_choices (ci : bool) (a : atom) (s : string)
  : list (string * option string) :=
  match a with
  | Lit l => match lit_rest ci l s with Some r => [(r, None)] | None => [] end
  | Star p => map (fun tr => (snd tr, None)) (repeat_choices p 0 (String.length s) EmptyString s)
  | One p => match s with
             | String c s' => if p c then [(s', None)] else []
             | EmptyString => []
             end
  | Opt p => map (fun tr => (snd tr, None)) (repeat_choices p 0 1 EmptyString s)
  | Group lo hi p => map (fun tr => (snd tr, Some (fst tr))) (repeat_choices p lo hi EmptyString s)
  end.

Definition or_capture (now before : option string) : option string :=
  match now with Some _ => now | None => before end.

Fixpoint first_success {A B : Type} (f : A -> option B) (xs : list A) : option B :=
  match xs with
  | [] => None
  | x :: xs' => match f x with Some b => Some b | None => first_success f xs' end
  end.

(** Match the atoms at the start of [s], backtracking over the choices
    of each atom; the result is the text of capture group 1. *)
Fixpoint match_here (ci : bool) (pat : list atom) (s : string) (cap : option string)
  : option (option string) :=
  match pat with
  | [] => Some cap
  | a :: pat' =>
      first_success
        (fun rc => match_here ci pat' (fst rc) (or_capture (snd rc) cap))
        (atom_choices ci a s)
  end.

(** [s.match(re)] without the [g] flag: the leftmost match; the result
    is [match[1]]. *)
Fixpoint exec (re : regex) (s : string) : option string :=
  match match_here (ignoreCase re) (atoms re) s None with
  | Some (Some g) => Some g
  | Some None => Some EmptyString
  | None =>
      match s with
      | EmptyString => None
      | String _ s' => exec re s'
      end
  end.

(** [/port\s*[=:]\s*(\d{4,5})/i] *)
Definition port_assign : regex :=
  {| atoms := [Lit "port"; Star Js.is_space; One (fun c => Ascii.eqb c "=" || Ascii.eqb c ":");
               Star Js.is_space; Group 4 5 Js.is_digit];
     ignoreCase := true |}.

(** [/listen\s*\(\s*(\d{4,5})/i] *)
Definition listen_call : regex :=
  {| atoms := [Lit "listen"; Star Js.is_space; One (fun c => Ascii.eqb c "(");
               Star Js.is_space; Group 4 5 Js.is_digit];
     ignoreCase := true |}.

(** The third pattern, case-sensitive: PORT, white space, [=] or [:],
    white space, an optional double or single quote, then the captured
    four or five digits. *)
Definition PORT_assign : regex :=
  {| atoms := [Lit "PORT"; Star Js.is_space; One (fun c => Ascii.eqb c "=" || Ascii.eqb c ":");
               Star Js.is_space; Opt (fun c => Ascii.eqb c (ascii_of_N 34) || Ascii.eqb c "'");
               Group 4 5 Js.is_digit];
     ignoreCase := false |}.

End Regex.

(* ===================================================================== *)
(** ** Results and the file system *)
(* ===================================================================== *)

(** The exceptions a detection can end in: the [fs] error codes, and the
    errors of [JSON.parse] and of a property read on [null]. *)
Inductive error : Type :=
| ENOENT | EISDIR | ENOTDIR | SyntaxError | TypeError.

Inductive result (A : Type) : Type :=
| Ok (a : A)
| Err (e : error).
Arguments Ok {A} a.
Arguments Err {A} e.

Definition rbind {A B : Type} (r : result A) (k : A -> result B) : result B :=
  match r with
  | Ok a => k a
  | Err e => Err e
  end.

Notation "x <-! r ; k" := (rbind r (fun x => k))
  (at level 100, r at next level, right associativity).

Module Fs.

(** A node of the project tree.  The entries of a directory are in the
    order of its listing. *)
Inductive node : Type :=
| File (content : string)
| Dir (entries : list (string * node)).

Definition lookup_entry (name : string) (entries : list (string * node)) : option node :=
  option_map snd (find (fun e => String.eqb (fst e) name) entries).

Fixpoint resolve (n : node) (path : list string) : option node :=
  match path with
  | [] => Some n
  | name :: path' =>
      match n with
      | Dir entries =>
          match lookup_entry name entries with
          | Some n' => resolve n' path'
          | None => None
          end
      | File _ => None
      end
  end.

(** [path.join(rootDir, seg1, ..., segn)] relative to [rootDir]. *)
Definition join (segments : list string) : list string :=
  flat_map (Js.split "/") segments.

(** [fs.readdirSync(rootDir)] *)
Definition readdirSync (rootDir : node) : result (list string) :=
  match rootDir with
  | Dir entries => Ok (map fst entries)
  | File _ => Err ENOTDIR
  end.

(** [fs.existsSync(path.join(rootDir, ...segments))] *)
Definition existsSync (rootDir : node) (segments : list string) : bool :=
  match resolve rootDir (join segments) with
  | Some _ => true
  | None => false
  end.

(** [fs.readFileSync(path.join(rootDir, ...segments), 'utf-8')] *)
Definition readFileSync (rootDir : node) (segments : list string) : result string :=
  match resolve rootDir (join segments) with
  | Some (File content) => Ok content
  | Some (Dir _) => Err EISDIR
  | None => Err ENOENT
  end.

(** The tree with every top-level entry called [name] replaced by [n]. *)
Definition with_entry (name : string) (n : node) (rootDir : node) : node :=
  match rootDir with
  | Dir entries =>
      Dir (map (fun e => if String.eqb (fst e) name then (fst e, n) else e) entries)
  | File c => File c
  end.

End Fs.

(* ===================================================================== *)
(** ** JSON values *)
(* ===================================================================== *)

Module Json.

(** What [JSON.parse] returns.  A number is the rational value of the
    double; the properties of an object are in source order. *)
Inductive json : Type :=
| JNull
| JBool (b : bool)
| JNumber (q : Q)
| JString (s : string)
| JArray (items : list json)
| JObject (props : list (string * json)).

(** A property read [o[key]] over a property list in which a later
    entry overrides an earlier one; [None] is [undefined]. *)
Definition get (key : string) (props : list (string * json)) : option json :=
  option_map snd (find (fun e => String.eqb (fst e) key) (rev props)).

Definition truthy (v : option json) : bool :=
  match v with
  | None => false
  | Some JNull => false
  | Some (JBool b) => b
  | Some (JNumber q) => negb (Qnum q =? 0)
  | Some (JString s) => Js.truthy_string s
  | Some (JArray _) => true
  | Some (JObject _) => true
  end.

Definition index_key (i : nat) : string :=
  NilEmpty.string_of_uint (Nat.to_uint i).

Fixpoint indexed {A : Type} (f : A -> json) (i : nat) (xs : list A) : list (string * json) :=
  match xs with
  | [] => []
  | x :: xs' => (index_key i, f x) :: indexed f (S i) xs'
  end.

(** The own enumerable properties copied by a spread [{...v}]:
    those of an object, the indexed elements of an array or the
    indexed characters of a string, none for the other values. *)
Definition spread (v : option json) : list (string * json) :=
  match v with
  | Some (JObject props) => props
  | Some (JArray items) => indexed (fun x => x) 0 items
  | Some (JString s) => indexed (fun c => JString (String c EmptyString)) 0 (list_ascii_of_string s)
  | _ => []
  end.

(** [v.key]: a [TypeError] on [null], [undefined] where the value has
    no such property. *)
Definition member (key : string) (v : json) : result (option json) :=
  match v with
  | JNull => Err TypeError
  | JObject props => Ok (get key props)
  | _ => Ok None
  end.

End Json.

(* ===================================================================== *)
(** ** types.ts *)
(* ===================================================================== *)

Inductive ProjectType : Type :=
| flask | django | fastapi | nestjs | nextjs | nuxtjs | vue_spa | react_spa.

Inductive Language : Type := python | node.

Global Instance ProjectType_eq_dec : EqDecision ProjectType.
Proof. solve_decision. Defined.
Global Instance Language_eq_dec : EqDecision Language.
Proof. solve_decision. Defined.

Module DetectionResult.
Record t : Type := mk {
  type : option ProjectType;
  language : option Language;
  languageVersion : string;
  port : Z;
  buildCmd : string;
  startCmd : string;
  entryFile : string;
  envFile : option string;
  envKeys : list string;
  hasDocker : bool;
  hasCI : bool;
}.
End DetectionResult.

Module Defaults.
Record t : Type := mk {
  port : Z;
  buildCmd : string;
  startCmd : string;
  entryFile : string;
}.
End Defaults.

Definition PROJECT_DEFAULTS (t : ProjectType) : Defaults.t :=
  match t with
  | flask => Defaults.mk 5000 "" "gunicorn -w 4 -b 0.0.0.0:5000 app:app" "app.py"
  | django => Defaults.mk 8000 "python manage.py collectstatic --noinput"
                "gunicorn -w 4 -b 0.0.0.0:8000 config.wsgi:application" "manage.py"
  | fastapi => Defaults.mk 8000 "" "uvicorn main:app --host 0.0.0.0 --port 8000" "main.py"
  | nestjs => Defaults.mk 3000 "npm run build" "node dist/main" "src/main.ts"
  | nextjs => Defaults.mk 3000 "npm run build" "npm start" "pages/index.tsx"
  | nuxtjs => Defaults.mk 3000 "npm run build" "node .output/server/index.mjs" "nuxt.config.ts"
  | vue_spa => Defaults.mk 80 "npm run build" "" "src/main.ts"
  | react_spa => Defaults.mk 80 "npm run build" "" "src/index.tsx"
  end.

(* ===================================================================== *)
(** ** detector.ts *)
(* ===================================================================== *)

Module Detector.
Section WithJson.

(** [JSON.parse] of the runtime. *)
Variable JSON_parse : string -> result Json.json.

(** The predicate of [files.find] in the env-file discovery. *)
Definition is_env_file (f : string) : bool :=
  String.eqb f ".env" || String.eqb f ".env.example" || String.eqb f ".env.production".

Definition env_line (line : string) : bool :=
  Js.truthy_string (Js.trim line) && negb (Js.startsWith "#" line) && Js.includes "=" line.

Definition env_key (line : string) : string :=
  Js.trim (hd EmptyString (Js.split "=" line)).

Definition LF : ascii := ascii_of_N 10.

Definition parseEnvKeys (rootDir : Fs.node) (envFile : string) : result (list string) :=
  content <-! Fs.readFileSync rootDir [envFile];
  Ok (map env_key (filter env_line (Js.split LF content))).

Definition detectPythonFramework (rootDir : Fs.node) (files : list string)
  : result (option ProjectType) :=
  deps <-! (if Js.array_includes "requirements.txt" files then
              content <-! Fs.readFileSync rootDir ["requirements.txt"];
              Ok (Js.toLowerCase content)
            else if Js.array_includes "pyproject.toml" files then
              content <-! Fs.readFileSync rootDir ["pyproject.toml"];
              Ok (Js.toLowerCase content)
            else Ok EmptyString);
  if Js.includes "fastapi" deps then Ok (Some fastapi)
  else if Js.includes "django" deps then Ok (Some django)
  else if Js.includes "flask" deps then Ok (Some flask)
  else if Js.array_includes "manage.py" files then Ok (Some django)
  else if Js.array_includes "app.py" files then Ok (Some flask)
  else if Js.array_includes "main.py" files then Ok (Some fastapi)
  else Ok None.

(** [{ ...pkg.dependencies, ...pkg.devDependencies }] *)
Definition allDeps (pkg : Json.json) : result (list (string * Json.json)) :=
  dependencies <-! Json.member "dependencies" pkg;
  devDependencies <-! Json.member "devDependencies" pkg;
  Ok (Json.spread dependencies ++ Json.spread devDependencies)%list.

Definition has_dep (deps : list (string * Json.json)) (name : string) : bool :=
  Json.truthy (Json.get name deps).

Definition detectNodeFramework (rootDir : Fs.node) : result (option ProjectType) :=
  if negb (Fs.existsSync rootDir ["package.json"]) then Ok None
  else
    content <-! Fs.readFileSync rootDir ["package.json"];
    pkg <-! JSON_parse content;
    deps <-! allDeps pkg;
    if has_dep deps "@nestjs/core" then Ok (Some nestjs)
    else if has_dep deps "next" then Ok (Some nextjs)
    else if has_dep deps "nuxt" || has_dep deps "nuxt3" then Ok (Some nuxtjs)
    else if has_dep deps "vue" && negb (has_dep deps "nuxt") then Ok (Some vue_spa)
    else if has_dep deps "react" && negb (has_dep deps "next") then Ok (Some react_spa)
    else Ok None.

Definition portPatterns : list Regex.regex :=
  [Regex.port_assign; Regex.listen_call; Regex.PORT_assign].

Definition candidates (language : option Language) : list string :=
  match language with
  | Some python => ["app.py"; "main.py"; "manage.py"; "config.py"; "settings.py"]
  | Some node => ["src/main.ts"; "src/index.ts"; "server.js"; "index.js"; "app.js"]
  | None => []
  end.

(** The inner loop of [detectPort]: the first pattern that matches. *)
Fixpoint scan_patterns (patterns : list Regex.regex) (content : string) : option Z :=
  match patterns with
  | [] => None
  | pattern :: patterns' =>
      match Regex.exec pattern content with
      | Some group1 => Some (Js.parseInt group1)
      | None => scan_patterns patterns' content
      end
  end.

(** The outer loop of [detectPort]. *)
Fixpoint scan_files (rootDir : Fs.node) (files : list string) : result (option Z) :=
  match files with
  | [] => Ok None
  | file :: files' =>
      if negb (Fs.existsSync rootDir [file]) then scan_files rootDir files'
      else
        content <-! Fs.readFileSync rootDir [file];
        match scan_patterns portPatterns content with
        | Some p => Ok (Some p)
        | None => scan_files rootDir files'
        end
  end.

Definition detectPort (rootDir : Fs.node) (language : option Language) : result (option Z) :=
  scan_files rootDir (candidates language).

(** The language and archetype inference of [detectProject]. *)
Definition detectLanguage (rootDir : Fs.node) (files : list string)
  : result (option Language * string * option ProjectType) :=
  if Js.array_includes "requirements.txt" files
     || Js.array_includes "pyproject.toml" files
     || Js.array_includes "Pipfile" files
  then
    t <-! detectPythonFramework rootDir files;
    Ok (Some python, "3.11", t)
  else if Js.array_includes "package.json" files then
    t <-! detectNodeFramework rootDir;
    Ok (Some node, "20", t)
  else Ok (None, EmptyString, None).

(** The [if (result.type)] block of [detectProject]: the defaults of the
    archetype and the Flask factory refinement, over the initial
    values of a result without archetype. *)
Definition applyDefaults (rootDir : Fs.node) (type : option ProjectType)
  : result Defaults.t :=
  match type with
  | None => Ok (Defaults.mk 3000 EmptyString EmptyString EmptyString)
  | Some t =>
      let defaults := PROJECT_DEFAULTS t in
      if decide (t = flask) then
        if Fs.existsSync rootDir ["run.py"] then
          content <-! Fs.readFileSync rootDir ["run.py"];
          if Js.includes "create_app" content then
            Ok (Defaults.mk (Defaults.port defaults) (Defaults.buildCmd defaults)
                  (Js.replace "app:app" "run:app" (Defaults.startCmd defaults)) "run.py")
          else Ok defaults
        else Ok defaults
      else Ok defaults
  end.

Definition detectProject (rootDir : Fs.node) : result DetectionResult.t :=
  files <-! Fs.readdirSync rootDir;
  let hasDocker := Js.array_includes "Dockerfile" files in
  let hasCI := Fs.existsSync rootDir [".github"; "workflows"] in
  let envFile := find is_env_file files in
  envKeys <-! match envFile with
              | Some f => parseEnvKeys rootDir f
              | None => Ok []
              end;
  lang <-! detectLanguage rootDir files;
  let '(language, languageVersion, type) := lang in
  seeded <-! applyDefaults rootDir type;
  detectedPort <-! detectPort rootDir language;
  let port := match detectedPort with
              | Some p => if p =? 0 then Defaults.port seeded else p
              | None => Defaults.port seeded
              end in
  Ok (DetectionResult.mk type language languageVersion port
        (Defaults.buildCmd seeded) (Defaults.startCmd seeded) (Defaults.entryFile seeded)
        envFile envKeys hasDocker hasCI).

End WithJson.
End Detector.

Module ServerConfig.
Record t : Type := mk {
  host : string;
  user : string;
  sshKeyPath : string;
  deployDir : string;
}.
End ServerConfig.

Module DomainConfig.
Record t : Type := mk {
  enabled : bool;
  name : string;
  https : bool;
}.
End DomainConfig.

Module BranchConfig.
Record t : Type := mk {
  production : string;
  staging : option string;
}.
End BranchConfig.

Module ProjectConfig.
Record t : Type := mk {
  name : string;
  type : ProjectType;
  language : Language;
  port : Z;
  buildCmd : string;
  startCmd : string;
}.
End ProjectConfig.

Module CollectedConfig.
Record t : Type := mk {
  project : ProjectConfig.t;
  server : ServerConfig.t;
  domain : DomainConfig.t;
  secrets : list string;
  branches : BranchConfig.t;
  registry : string;
}.
End CollectedConfig.

Module ProjectRecord.
Record t : Type := mk {
  type : string;
  lastDeploy : option string;
}.
End ProjectRecord.

Module GlobalConfig.
Record t : Type := mk {
  servers : gmap string ServerConfig.t;
  projects : gmap string ProjectRecord.t;
}.
End GlobalConfig.

(* ===================================================================== *)
(** ** The operator, the process and the user-global store *)
(* ===================================================================== *)

(** What the operator does at a prompt: accept what the prompt proposes,
    or enter a value of the kind the prompt asks for. *)
Inductive answer : Type :=
| Accept
| Text (s : string)
| Choice (value : string)
| YesNo (b : bool)
| Number (n : Z)
| Checked (values : list string).

(** What [~/.deploy-setup/config.json] is to the program.  A file that
    [JSON.parse(fs.readFileSync(...))] throws on is [Unreadable] with
    the error thrown ([SyntaxError] for a text that is not JSON,
    [EISDIR] for a directory under that name).  A file that parses
    holds [null] or an object; a map of the object that is absent or
    [null] is [None]. *)
Module StoreFile.

Inductive value : Type :=
| Null
| Object (servers : option (gmap string ServerConfig.t))
         (projects : option (gmap string ProjectRecord.t)).

Inductive t : Type :=
| Unreadable (e : error)
| Holds (v : value).

(** The file of a well-formed store. *)
Definition file_of (config : GlobalConfig.t) : t :=
  Holds (Object (Some (GlobalConfig.servers config)) (Some (GlobalConfig.projects config))).

End StoreFile.

(** The world a command runs in: the answers the operator still has to
    give, and the content of [~/.deploy-setup/config.json] ([None] while
    the file does not exist). *)
Record World : Type := mkWorld {
  script : list answer;
  config_file : option StoreFile.t;
}.

(** How a computation ends: with a value, by [process.exit], by an
    exception, or waiting at a prompt the script has no answer for. *)
Inductive outcome (A : Type) : Type :=
| Returned (a : A)
| Exited (code : Z)
| Thrown (e : error)
| Blocked.
Arguments Returned {A} a.
Arguments Exited {A} code.
Arguments Thrown {A} e.
Arguments Blocked {A}.

Definition M (A : Type) : Type := World -> outcome A * World.

Definition ret {A : Type} (a : A) : M A := fun w => (Returned a, w).

Definition bind {A B : Type} (m : M A) (k : A -> M B) : M B :=
  fun w =>
    match m w with
    | (Returned a, w') => k a w'
    | (Exited code, w') => (Exited code, w')
    | (Thrown e, w') => (Thrown e, w')
    | (Blocked, w') => (Blocked, w')
    end.

Notation "x <- m ;; k" := (bind m (fun x => k))
  (at level 100, m at next level, right associativity).

Definition process_exit {A : Type} (code : Z) : M A := fun w => (Exited code, w).
Definition blocked {A : Type} : M A := fun w => (Blocked, w).

Definition lift {A : Type} (r : result A) : M A :=
  fun w => match r with Ok a => (Returned a, w) | Err e => (Thrown e, w) end.

Definition throw {A : Type} (e : error) : M A := fun w => (Thrown e, w).

(* ===================================================================== *)
(** ** config-store.ts *)
(* ===================================================================== *)

Module ConfigStore.

Definition empty : GlobalConfig.t := GlobalConfig.mk ∅ ∅.

(** The two maps the store holds: those of the file, empty for a map
    the file does not hold, for a file that cannot be read or holds
    [null], and while there is no file. *)
Definition stored (w : World) : GlobalConfig.t :=
  match config_file w with
  | Some (StoreFile.Holds (StoreFile.Object servers projects)) =>
      GlobalConfig.mk (default ∅ servers) (default ∅ projects)
  | _ => empty
  end.

(** [loadGlobalConfig] returns what [JSON.parse] gives, unvalidated. *)
Definition loadGlobalConfig : M StoreFile.value :=
  fun w =>
    match config_file w with
    | None => (Returned (StoreFile.Object (Some ∅) (Some ∅)), w)
    | Some (StoreFile.Holds v) => (Returned v, w)
    | Some (StoreFile.Unreadable e) => (Thrown e, w)
    end.

(** [saveGlobalConfig]: [writeFileSync] replaces a file, and throws on
    a directory.  The other failures of the file system (a directory
    that cannot be created, a file that cannot be written) are not
    part of the model. *)
Definition saveGlobalConfig (config : StoreFile.value) : M unit :=
  fun w =>
    match config_file w with
    | Some (StoreFile.Unreadable EISDIR) => (Thrown EISDIR, w)
    | _ => (Returned tt, mkWorld (script w) (Some (StoreFile.Holds config)))
    end.

(** [loadGlobalConfig().servers]: a [TypeError] on [null], [undefined]
    ([None]) when the object has no such map. *)
Definition getSavedServers : M (option (gmap string ServerConfig.t)) :=
  config <- loadGlobalConfig ;;
  match config with
  | StoreFile.Null => throw TypeError
  | StoreFile.Object servers _ => ret servers
  end.

(** The assignment [record[name] = v] of an object to a property of a
    plain object: the name [__proto__], unless it is an own property
    already (as [JSON.parse] can make it), is the prototype accessor,
    and the assignment then creates no own property. *)
Definition assign {A : Type} (name : string) (v : A) (record : gmap string A)
  : gmap string A :=
  match record !! name with
  | None => if String.eqb name "__proto__" then record else <[name := v]> record
  | Some _ => <[name := v]> record
  end.

Definition saveServer (name : string) (server : ServerConfig.t) : M unit :=
  config <- loadGlobalConfig ;;
  match config with
  | StoreFile.Object (Some servers) projects =>
      saveGlobalConfig (StoreFile.Object (Some (assign name server servers)) projects)
  | _ => throw TypeError
  end.

(** [now] is [new Date().toISOString()]. *)
Definition saveProjectRecord (now : string) (name : string) (type : string) : M unit :=
  config <- loadGlobalConfig ;;
  match config with
  | StoreFile.Object servers (Some projects) =>
      saveGlobalConfig
        (StoreFile.Object servers
           (Some (assign name (ProjectRecord.mk type (Some now)) projects)))
  | _ => throw TypeError
  end.

End ConfigStore.

(* ===================================================================== *)
(** ** The prompts of inquirer *)
(* ===================================================================== *)

Module Prompt.

(** An [input] question: an empty entry stands for the default; an
    entry the [validate] function rejects is asked for again. *)
Fixpoint input_from (default : string) (validate : string -> bool) (config : option StoreFile.t)
    (answers : list answer) : outcome string * World :=
  match answers with
  | [] => (Blocked, mkWorld [] config)
  | a :: answers' =>
      let entered :=
        match a with
        | Accept => Some default
        | Text s => Some (if Js.truthy_string s then s else default)
        | _ => None
        end in
      match entered with
      | Some v =>
          if validate v then (Returned v, mkWorld answers' config)
          else input_from default validate config answers'
      | None => (Blocked, mkWorld answers config)
      end
  end.

Definition input (default : string) (validate : string -> bool) : M string :=
  fun w => input_from default validate (config_file w) (script w).

Definition any (v : string) : bool := true.

(** One answer of the script, read by [read]. *)
Definition ask {A : Type} (read : answer -> option A) : M A :=
  fun w =>
    match script w with
    | [] => (Blocked, w)
    | a :: answers' =>
        match read a with
        | Some v => (Returned v, mkWorld answers' (config_file w))
        | None => (Blocked, w)
        end
    end.

(** A [list] question: one of the values of [choices]; accepting
    selects the default when it is a choice, else the first choice. *)
Definition select (choices : list string) (default : option string) : M string :=
  ask (fun a =>
         match a with
         | Accept =>
             match default with
             | Some d => if Js.array_includes d choices then Some d else head choices
             | None => head choices
             end
         | Choice v => if Js.array_includes v choices then Some v else None
         | _ => None
         end).

Definition confirm (default : bool) : M bool :=
  ask (fun a => match a with Accept => Some default | YesNo b => Some b | _ => None end).

Definition number (default : Z) : M Z :=
  ask (fun a => match a with Accept => Some default | Number n => Some n | _ => None end).

(** A [checkbox] question: the selected choices, in the order of
    [choices]; accepting keeps the pre-checked ones. *)
Definition checkbox (choices : list string) (checked : string -> bool) : M (list string) :=
  ask (fun a =>
         match a with
         | Accept => Some (filter checked choices)
         | Checked vs =>
             if forallb (fun v => Js.array_includes v choices) vs
             then Some (filter (fun c => Js.array_includes c vs) choices)
             else None
         | _ => None
         end).

End Prompt.

(* ===================================================================== *)
(** ** collector.ts *)
(* ===================================================================== *)

Module Collector.

Definition all_types : list ProjectType :=
  [flask; django; fastapi; nestjs; nextjs; nuxtjs; vue_spa; react_spa].

(** The string a [ProjectType] is in the source. *)
Definition type_value (t : ProjectType) : string :=
  match t with
  | flask => "flask" | django => "django" | fastapi => "fastapi"
  | nestjs => "nestjs" | nextjs => "nextjs" | nuxtjs => "nuxtjs"
  | vue_spa => "vue-spa" | react_spa => "react-spa"
  end.

Definition type_of_value (v : string) : option ProjectType :=
  find (fun t => String.eqb (type_value t) v) all_types.

(** [/^[a-z0-9-]+$/.test(v)] *)
Definition valid_name (v : string) : bool :=
  Js.truthy_string v
  && Js.all (fun c => Js.between 97 122 c || Js.is_digit c || Ascii.eqb c "-") v.

(** [v.trim().length > 0] *)
Definition not_blank (v : string) : bool := Js.truthy_string (Js.trim v).

Definition collectProjectConfig (detection : DetectionResult.t) (projectName : string)
  : M ProjectConfig.t :=
  name <- Prompt.input projectName valid_name ;;
  type <- Prompt.select (map type_value all_types)
            (option_map type_value (DetectionResult.type detection)) ;;
  port <- Prompt.number (DetectionResult.port detection) ;;
  buildCmd <- Prompt.input (DetectionResult.buildCmd detection) Prompt.any ;;
  startCmd <- Prompt.input (DetectionResult.startCmd detection) Prompt.any ;;
  match type_of_value type with
  | Some t =>
      let language :=
        if Js.array_includes type ["flask"; "django"; "fastapi"] then python else node in
      ret (ProjectConfig.mk name t language port buildCmd startCmd)
  | None => blocked
  end.

(** [Object.keys(saved)]; the order of the labels only decides the
    order of the menu. *)
Definition Object_keys (saved : gmap string ServerConfig.t) : list string :=
  map fst (map_to_list saved).

Definition with_deployDir (server : ServerConfig.t) (deployDir : string) : ServerConfig.t :=
  ServerConfig.mk (ServerConfig.host server) (ServerConfig.user server)
                  (ServerConfig.sshKeyPath server) deployDir.

(** The second half of [collectServerConfig]: a new profile is entered
    and saved under the label the operator gives it. *)
Definition addNewServer : M ServerConfig.t :=
  host <- Prompt.input EmptyString not_blank ;;
  user <- Prompt.input "root" Prompt.any ;;
  sshKeyPath <- Prompt.input "~/.ssh/id_rsa" Prompt.any ;;
  deployDir <- Prompt.input "/opt/apps" Prompt.any ;;
  let answers := ServerConfig.mk host user sshKeyPath deployDir in
  saveName <- Prompt.input host Prompt.any ;;
  _ <- ConfigStore.saveServer saveName answers ;;
  ret answers.

(** [collectServerConfig] once [getSavedServers] has returned the map
    [saved]. *)
Definition chooseServer (saved : gmap string ServerConfig.t) : M ServerConfig.t :=
  let serverNames := Object_keys saved in
  if (0 <? length serverNames)%nat then
    choice <- Prompt.select (serverNames ++ ["__new__"]) None ;;
    if negb (String.eqb choice "__new__") then
      match saved !! choice with
      | Some server =>
          deployDir <- Prompt.input (ServerConfig.deployDir server) Prompt.any ;;
          ret (with_deployDir server deployDir)
      | None => blocked
      end
    else addNewServer
  else addNewServer.

(** [Object.keys(saved)] throws a [TypeError] on [undefined]. *)
Definition collectServerConfig : M ServerConfig.t :=
  saved <- ConfigStore.getSavedServers ;;
  match saved with
  | Some saved => chooseServer saved
  | None => throw TypeError
  end.

Definition collectDomainConfig : M DomainConfig.t :=
  enabled <- Prompt.confirm false ;;
  if negb enabled then ret (DomainConfig.mk false EmptyString false)
  else
    name <- Prompt.input EmptyString not_blank ;;
    https <- Prompt.confirm true ;;
    ret (DomainConfig.mk enabled name https).

(** [/secret|password|key|token|api/i.test(k)] *)
Definition sensitive (k : string) : bool :=
  let l := Js.toLowerCase k in
  Js.includes "secret" l || Js.includes "password" l || Js.includes "key" l
  || Js.includes "token" l || Js.includes "api" l.

Definition collectSecrets (envKeys : list string) : M (list string) :=
  if (length envKeys =? 0)%nat then ret []
  else Prompt.checkbox envKeys sensitive.

Definition collectBranchConfig : M BranchConfig.t :=
  production <- Prompt.input "main" Prompt.any ;;
  hasStaging <- Prompt.confirm false ;;
  staging <- (if hasStaging then
                s <- Prompt.input "develop" Prompt.any ;; ret (Some s)
              else ret None) ;;
  ret (BranchConfig.mk production staging).

Definition with_project (config : CollectedConfig.t) (p : ProjectConfig.t) : CollectedConfig.t :=
  CollectedConfig.mk p (CollectedConfig.server config) (CollectedConfig.domain config)
    (CollectedConfig.secrets config) (CollectedConfig.branches config)
    (CollectedConfig.registry config).

Definition with_server (config : CollectedConfig.t) (s : ServerConfig.t) : CollectedConfig.t :=
  CollectedConfig.mk (CollectedConfig.project config) s (CollectedConfig.domain config)
    (CollectedConfig.secrets config) (CollectedConfig.branches config)
    (CollectedConfig.registry config).

Definition with_domain (config : CollectedConfig.t) (d : DomainConfig.t) : CollectedConfig.t :=
  CollectedConfig.mk (CollectedConfig.project config) (CollectedConfig.server config) d
    (CollectedConfig.secrets config) (CollectedConfig.branches config)
    (CollectedConfig.registry config).

Definition review_actions : list string :=
  ["confirm"; "project"; "server"; "domain"; "cancel"].

(** One turn of the [while (true)] of [reviewLoop]: the action asked
    for, then the edit; [again] is the next turn. *)
Definition review_turn (again : CollectedConfig.t -> M CollectedConfig.t)
    (config : CollectedConfig.t) (detection : DetectionResult.t) : M CollectedConfig.t :=
  action <- Prompt.select review_actions None ;;
  if String.eqb action "confirm" then ret config
  else if String.eqb action "cancel" then process_exit 0
  else if String.eqb action "project" then
    p <- collectProjectConfig detection (ProjectConfig.name (CollectedConfig.project config)) ;;
    again (with_project config p)
  else if String.eqb action "server" then
    s <- collectServerConfig ;;
    again (with_server config s)
  else if String.eqb action "domain" then
    d <- collectDomainConfig ;;
    again (with_domain config d)
  else again config.

(** The loop, unrolled at most [turns] times. *)
Fixpoint review_turns (turns : nat) (detection : DetectionResult.t)
    (config : CollectedConfig.t) : M CollectedConfig.t :=
  match turns with
  | O => blocked
  | S turns' => review_turn (review_turns turns' detection) config detection
  end.

(** [reviewLoop]: every turn takes at least one answer, so the loop
    runs for at most as many turns as the script has answers. *)
Definition reviewLoop (config : CollectedConfig.t) (detection : DetectionResult.t)
  : M CollectedConfig.t :=
  fun w => review_turns (S (length (script w))) detection config w.

Definition collectConfig (detection : DetectionResult.t) (projectName : string)
  : M CollectedConfig.t :=
  project <- collectProjectConfig detection projectName ;;
  server <- collectServerConfig ;;
  domain <- collectDomainConfig ;;
  secrets <- collectSecrets (DetectionResult.envKeys detection) ;;
  branches <- collectBranchConfig ;;
  reviewLoop (CollectedConfig.mk project server domain secrets branches "ghcr.io") detection.

End Collector.

(* ===================================================================== *)
(** ** generator.ts and the interactive [init] of cli.ts *)
(* ===================================================================== *)

Module GeneratedFile.
Record t : Type := mk {
  path : string;
  backedUp : bool;
}.
End GeneratedFile.

Module Cli.
Section WithJson.

Variable JSON_parse : string -> result Json.json.

(** The result of [writeTemplate]; the file it writes is not part of
    the model. *)
Definition writeTemplate (relativePath : string) (outputDir : Fs.node) : GeneratedFile.t :=
  GeneratedFile.mk relativePath (Fs.existsSync outputDir [relativePath]).

(** The list [generateFiles] returns: the fixed artifacts, with the
    reverse-proxy configuration for the two single-page archetypes. *)
Definition generateFiles (config : CollectedConfig.t) (outputDir : Fs.node)
  : list GeneratedFile.t :=
  let type := Collector.type_value (ProjectConfig.type (CollectedConfig.project config)) in
  ([writeTemplate "Dockerfile" outputDir;
    writeTemplate ".dockerignore" outputDir;
    writeTemplate "docker-compose.yml" outputDir;
    writeTemplate ".github/workflows/deploy.yml" outputDir]
   ++ (if Js.array_includes type ["vue-spa"; "react-spa"]
       then [writeTemplate "nginx.conf" outputDir] else [])
   ++ [writeTemplate "server-init.sh" outputDir])%list.

(** The [init] command without [--config]: detection, collection,
    generation, then the project record.  [now] is the clock read by
    [saveProjectRecord]. *)
Definition init (projectDir : Fs.node) (projectName : string) (now : string)
  : M (CollectedConfig.t * list GeneratedFile.t) :=
  detection <- lift (Detector.detectProject JSON_parse projectDir) ;;
  config <- Collector.collectConfig detection projectName ;;
  let files := generateFiles config projectDir in
  _ <- ConfigStore.saveProjectRecord now
         (ProjectConfig.name (CollectedConfig.project config))
         (Collector.type_value (ProjectConfig.type (CollectedConfig.project config))) ;;
  ret (config, files).

End WithJson.
End Cli.

(* ===================================================================== *)
(** ** Definitions used by the statements, and sample inputs *)
(* ===================================================================== *)

Module Spec.

(** The env-file selection in the words of the specification: the
    first of [.env], [.env.example], [.env.production] that the
    directory has, in that priority order. *)
Definition env_by_priority (files : list string) : option string :=
  if Js.array_includes ".env" files then Some ".env"
  else if Js.array_includes ".env.example" files then Some ".env.example"
  else if Js.array_includes ".env.production" files then Some ".env.production"
  else None.

(** A listing in ascending order of names, as a sorted directory
    listing gives it. *)
Definition ascending (files : list string) : Prop :=
  StronglySorted (fun a b => String.ltb a b = true) files.

(** A project directory whose top-level entries are all regular
    files. *)
Definition all_files (d : Fs.node) : bool :=
  match d with
  | Fs.Dir entries =>
      forallb (fun e => match snd e with Fs.File _ => true | Fs.Dir _ => false end) entries
  | Fs.File _ => false
  end.

(** The listing holds a Python marker. *)
Definition python_marked (files : list string) : bool :=
  Js.array_includes "requirements.txt" files
  || Js.array_includes "pyproject.toml" files
  || Js.array_includes "Pipfile" files.

(** The values a detection starts from: those of an archetype, or the
    initial ones of [detectProject] when there is none. *)
Definition seed (type : option ProjectType) : Defaults.t :=
  match type with
  | Some t => PROJECT_DEFAULTS t
  | None => Defaults.mk 3000 EmptyString EmptyString EmptyString
  end.

(** [run.py] exists and its content holds [create_app]. *)
Definition factory_found (d : Fs.node) : Prop :=
  Fs.existsSync d ["run.py"] = true
  /\ exists content, Fs.readFileSync d ["run.py"] = Ok content
                     /\ Js.includes "create_app" content = true.

(** The result carries the rewritten start command and entry file. *)
Definition refined (r : DetectionResult.t) : Prop :=
  DetectionResult.startCmd r = "gunicorn -w 4 -b 0.0.0.0:5000 run:app"
  /\ DetectionResult.entryFile r = "run.py".

(** A candidate of the port scan that does not exist, or in which no
    pattern matches, is passed over. *)
Definition passed_over (d : Fs.node) (f : string) : Prop :=
  Fs.existsSync d [f] = false
  \/ exists content, Fs.readFileSync d [f] = Ok content
                     /\ Detector.scan_patterns Detector.portPatterns content = None.

(** An atom that is a character class rejecting the character [x]. *)
Definition blind (x : ascii) (a : Regex.atom) : Prop :=
  match a with
  | Regex.Lit _ => False
  | Regex.Star p | Regex.One p | Regex.Opt p | Regex.Group _ _ p => p x = false
  end.

(** A computation that never adds to the script of answers. *)
Definition shrinks {A : Type} (m : M A) : Prop :=
  forall w, (length (script (snd (m w))) <= length (script w))%nat.

(** A computation that leaves the user-global store as it is. *)
Definition keeps_store {A : Type} (m : M A) : Prop :=
  forall w, config_file (snd (m w)) = config_file w.

(** What the operator enters in collect-server to add a new profile:
    with saved profiles on offer, the choice to add one; then host,
    user, key path and deploy directory, and the label to save it
    under. *)
Definition entering_new (saved : gmap string ServerConfig.t) (host user key dir label : string)
  : list answer :=
  (if (0 <? length (Collector.Object_keys saved))%nat then [Choice "__new__"] else [])
  ++ [Text host; Text user; Text key; Text dir; Text label].

(** The store file once [saveServer] has saved [profile] under
    [label]. *)
Definition with_saved (label : string) (profile : ServerConfig.t) (w : World)
  : option StoreFile.t :=
  config_file (snd (ConfigStore.saveServer label profile w)).

(** The store has its map of servers: there is no file, or the file
    holds an object with that map. *)
Definition has_servers (w : World) : bool :=
  match config_file w with
  | None => true
  | Some (StoreFile.Holds (StoreFile.Object (Some _) _)) => true
  | _ => false
  end.

(** The store has its map of projects. *)
Definition has_projects (w : World) : bool :=
  match config_file w with
  | None => true
  | Some (StoreFile.Holds (StoreFile.Object _ (Some _))) => true
  | _ => false
  end.

Definition python_types : list ProjectType := [flask; django; fastapi].
Definition node_types : list ProjectType := [nestjs; nextjs; nuxtjs; vue_spa; react_spa].

(** The marker of a Python archetype: the dependency manifest names
    the framework. *)
Definition names (deps : string) (t : ProjectType) : bool :=
  Js.includes (Collector.type_value t) deps.

(** The marker of a Node archetype: a dependency of [package.json]. *)
Definition marker_deps (t : ProjectType) : list string :=
  match t with
  | nestjs => ["@nestjs/core"]
  | nextjs => ["next"]
  | nuxtjs => ["nuxt"; "nuxt3"]
  | vue_spa => ["vue"]
  | react_spa => ["react"]
  | _ => []
  end.

Definition marks (deps : list (string * Json.json)) (t : ProjectType) : bool :=
  existsb (Detector.has_dep deps) (marker_deps t).

(** The markers found are those of [t] and of no other archetype. *)
Definition only (found : ProjectType -> bool) (among : list ProjectType) (t : ProjectType) : bool :=
  forallb (fun u => Bool.eqb (found u) (bool_decide (u = t))) among.

(** A directory that holds the canonical marker file of archetype [t]
    and nothing else: for a Python archetype a dependency manifest
    that names its framework and no other, for a Node archetype a
    [package.json] whose dependencies hold its marker and no other
    archetype's.  [JSON_parse] is the parser of the runtime. *)
Inductive canonical (JSON_parse : string -> result Json.json) : ProjectType -> Fs.node -> Prop :=
| canonical_python (t : ProjectType) (manifest content : string) :
    In t python_types ->
    In manifest ["requirements.txt"; "pyproject.toml"] ->
    only (names (Js.toLowerCase content)) python_types t = true ->
    canonical JSON_parse t (Fs.Dir [(manifest, Fs.File content)])
| canonical_node (t : ProjectType) (content : string) (pkg : Json.json)
                 (deps : list (string * Json.json)) :
    In t node_types ->
    JSON_parse content = Ok pkg ->
    Detector.allDeps pkg = Ok deps ->
    only (marks deps) node_types t = true ->
    canonical JSON_parse t (Fs.Dir [("package.json", Fs.File content)]).

Definition language_of (t : ProjectType) : Language :=
  match t with
  | flask | django | fastapi => python
  | _ => node
  end.

Definition version_of (l : Language) : string :=
  match l with python => "3.11" | node => "20" end.

(** The detection result made of the static defaults of [t] alone. *)
Definition static_defaults (t : ProjectType) : DetectionResult.t :=
  let d := PROJECT_DEFAULTS t in
  DetectionResult.mk (Some t) (Some (language_of t)) (version_of (language_of t))
    (Defaults.port d) (Defaults.buildCmd d) (Defaults.startCmd d) (Defaults.entryFile d)
    None [] false false.

End Spec.

Module Samples.

Definition quote : string := String (ascii_of_N 34) EmptyString.
Definition newline : string := String Detector.LF EmptyString.

(** The text [PORT = "4500"]. *)
Definition PORT_4500 : string :=
  String.append "PORT = " (String.append quote (String.append "4500" quote)).

Definition nest_package : string := "{ dependencies: @nestjs/core ^10.0.0 }".
Definition next_package : string := "{ dependencies: next ^14.0.0 }".
Definition nuxt_package : string := "{ devDependencies: nuxt ^3.8.0 }".
Definition vue_package : string := "{ dependencies: vue ^3.3.0 }".
Definition react_package : string := "{ dependencies: react ^18.2.0 }".

Definition one_dependency (section name version : string) : Json.json :=
  Json.JObject [(section, Json.JObject [(name, Json.JString version)])].

(** A stand-in for [JSON.parse] that knows five manifests. *)
Definition parse (text : string) : result Json.json :=
  if String.eqb text nest_package then Ok (one_dependency "dependencies" "@nestjs/core" "^10.0.0")
  else if String.eqb text next_package then Ok (one_dependency "dependencies" "next" "^14.0.0")
  else if String.eqb text nuxt_package then Ok (one_dependency "devDependencies" "nuxt" "^3.8.0")
  else if String.eqb text vue_package then Ok (one_dependency "dependencies" "vue" "^3.3.0")
  else if String.eqb text react_package then Ok (one_dependency "dependencies" "react" "^18.2.0")
  else Err SyntaxError.

(** [.env.example] listed before [.env]. *)
Definition env_dir : Fs.node :=
  Fs.Dir [(".env.example", Fs.File (String.append "# sample" (String.append newline "API_KEY=abc")));
          (".env", Fs.File "DB_URL = postgres://db")].

Definition flask_dir : Fs.node := Fs.Dir [("requirements.txt", Fs.File "Flask==2.3")].
Definition django_dir : Fs.node := Fs.Dir [("requirements.txt", Fs.File "Django>=4.2")].
Definition fastapi_dir : Fs.node := Fs.Dir [("pyproject.toml", Fs.File "fastapi = 0.110")].
Definition package_dir (package : string) : Fs.node :=
  Fs.Dir [("package.json", Fs.File package)].
Definition next_dir : Fs.node := package_dir next_package.

(** A project with both a Python and a Node manifest. *)
Definition mixed_dir : Fs.node :=
  Fs.Dir [("package.json", Fs.File next_package);
          ("requirements.txt", Fs.File "Django>=4.2");
          ("manage.py", Fs.File "import django")].

(** A manifest that names both Flask and FastAPI, and no [app.py]. *)
Definition two_frameworks : string :=
  String.append "flask==2.3" (String.append newline "fastapi==0.110").
Definition two_frameworks_dir : Fs.node :=
  Fs.Dir [("requirements.txt", Fs.File two_frameworks)].

(** A manifest that names no framework, beside [manage.py]. *)
Definition manage_dir : Fs.node :=
  Fs.Dir [("manage.py", Fs.File "import os"); ("requirements.txt", Fs.File "requests==2.31")].

(** A Flask project with an application factory in [run.py]. *)
Definition factory_dir : Fs.node :=
  Fs.Dir [("requirements.txt", Fs.File "Flask==2.3");
          ("run.py", Fs.File "app = create_app()")].

(** The same with a [run.py] that has no factory. *)
Definition plain_run_dir : Fs.node :=
  Fs.Dir [("requirements.txt", Fs.File "Flask==2.3");
          ("run.py", Fs.File "print(1)")].

(** A Flask project whose [app.py] holds the text [PORT = "4500"]
    after a comment line. *)
Definition port_dir : Fs.node :=
  Fs.Dir [("requirements.txt", Fs.File "Flask==2.3");
          ("app.py", Fs.File (String.append "# settings" (String.append newline PORT_4500)))].

(** The same text after an assignment that the first pattern matches. *)
Definition two_ports : string :=
  String.append "port = 8080" (String.append newline PORT_4500).
Definition two_ports_dir : Fs.node :=
  Fs.Dir [("requirements.txt", Fs.File "Flask==2.3"); ("app.py", Fs.File two_ports)].

Definition old_profile : ServerConfig.t :=
  ServerConfig.mk "10.0.0.5" "deploy" "~/.ssh/id_ed25519" "/opt/apps".
Definition new_profile : ServerConfig.t :=
  ServerConfig.mk "203.0.113.7" "root" "~/.ssh/id_rsa" "/srv/apps".

(** A store with one saved profile, labelled [prod]. *)
Definition one_server : StoreFile.t :=
  StoreFile.file_of (GlobalConfig.mk {[ "prod" := old_profile ]} ∅).

(** A store whose one saved profile is labelled [__new__], and an
    operator who selects it and enters a directory, then accepts what
    is proposed. *)
Definition labelled_new : StoreFile.t :=
  StoreFile.file_of (GlobalConfig.mk {[ "__new__" := old_profile ]} ∅).
Definition selecting_new : list answer :=
  [Choice "__new__"; Text "/srv/blue"; Accept; Accept; Accept; Accept].

Definition some_config : CollectedConfig.t :=
  CollectedConfig.mk
    (ProjectConfig.mk "demo" flask python 5000 EmptyString "gunicorn -w 4 -b 0.0.0.0:5000 app:app")
    old_profile
    (DomainConfig.mk false EmptyString false)
    ["API_KEY"]
    (BranchConfig.mk "main" None)
    "ghcr.io".

(** An operator who accepts the detected project, enters a new
    server, declines the domain and the staging branch, and cancels at
    the review. *)
Definition cancelling : list answer :=
  [Accept; Accept; Accept; Accept; Accept;
   Text "203.0.113.7"; Text "root"; Text "~/.ssh/id_rsa"; Text "/srv/apps"; Text "edge";
   Accept;
   Accept; Accept;
   Choice "cancel"].

(** The same operator, naming the new server [__proto__]. *)
Definition cancelling_proto : list answer :=
  [Accept; Accept; Accept; Accept; Accept;
   Text "203.0.113.7"; Text "root"; Text "~/.ssh/id_rsa"; Text "/srv/apps"; Text "__proto__";
   Accept;
   Accept; Accept;
   Choice "cancel"].

End Samples.

(* ===================================================================== *)
(** ** Further definitions used by the statements *)
(* ===================================================================== *)

Module Cover.

(** The listing holds no marker of either language. *)
Definition unmarked (files : list string) : bool :=
  negb (Spec.python_marked files) && negb (Js.array_includes "package.json" files).

(** The first archetype, in the order of the tests of
    [detectNodeFramework], whose marker is among the dependencies. *)
Definition first_marked (deps : list (string * Json.json)) : option ProjectType :=
  find (Spec.marks deps) Spec.node_types.

(** A value of [package.json] that is neither an object nor [null]. *)
Definition plain_value (v : Json.json) : bool :=
  match v with
  | Json.JBool _ | Json.JNumber _ | Json.JString _ | Json.JArray _ => true
  | Json.JNull | Json.JObject _ => false
  end.

End Cover.

Module Cases.

(** A directory without any marker, whose [app.py] names a port. *)
Definition scripts_dir : Fs.node :=
  Fs.Dir [("Dockerfile", Fs.File "FROM alpine");
          ("app.py", Fs.File "port = 8080");
          (".env", Fs.File "TOKEN=1")].

(** [next] in both dependency sections, switched off in the second. *)
Definition overridden : Json.json :=
  Json.JObject [("dependencies", Json.JObject [("next", Json.JString "^14.0.0");
                                               ("react", Json.JString "^18.2.0")]);
                ("devDependencies", Json.JObject [("next", Json.JBool false)])].

(** A stand-in for [JSON.parse] with three more texts. *)
Definition parse (text : string) : result Json.json :=
  if String.eqb text "null" then Ok Json.JNull
  else if String.eqb text "[]" then Ok (Json.JArray [])
  else if String.eqb text "overridden" then Ok overridden
  else Samples.parse text.

(** A Python project with a second manifest and a [Pipfile]. *)
Definition manifests_dir : Fs.node :=
  Fs.Dir [("Pipfile", Fs.File "flask");
          ("pyproject.toml", Fs.File "fastapi");
          ("requirements.txt", Fs.File "Django>=4.2")].

End Cases.

Module Bounds.

(** A captured port: digits only, five at most. *)
Definition port_group (g : string) : Prop :=
  Js.all Js.is_digit g = true /\ (String.length g <= 5)%nat.

(** An atom whose capture, if it has one, is a port group. *)
Definition digits_atom (a : Regex.atom) : Prop :=
  match a with
  | Regex.Group _ hi p => (hi <= 5)%nat /\ forall c, p c = true -> Js.is_digit c = true
  | _ => True
  end.

(** No character of the text is [c]. *)
Definition without (c : ascii) (s : string) : bool :=
  Js.all (fun x => negb (Ascii.eqb x c)) s.

(** A text that is empty or starts with a character that is no white
    space. *)
Definition starts_clean (s : string) : Prop :=
  match s with
  | EmptyString => True
  | String c _ => Js.is_space c = false
  end.

End Bounds.

Module Orchestrator.

(** [c] replaced by a hyphen unless it is a lower-case letter, a digit
    or a hyphen: one step of [.replace(/[^a-z0-9-]/g, '-')]. *)
Definition sanitize (c : ascii) : ascii :=
  if Js.between 97 122 c || Js.is_digit c || Ascii.eqb c "-" then c else "-"%char.

Fixpoint map_chars (f : ascii -> ascii) (s : string) : string :=
  match s with
  | EmptyString => EmptyString
  | String c s' => String (f c) (map_chars f s')
  end.

(** The project name [runInit] proposes, from the base name of the
    project directory:
    [basename.toLowerCase().replace(/[^a-z0-9-]/g, '-')]. *)
Definition projectName (basename : string) : string :=
  map_chars sanitize (Js.toLowerCase basename).

End Orchestrator.

Module Run.

(** What stops collect-server on the store of [w]: the error of a file
    that cannot be read, or a [TypeError] for a file that holds [null]
    or an object without a map of servers. *)
Definition fault (w : World) : option error :=
  match config_file w with
  | Some (StoreFile.Unreadable e) => Some e
  | Some (StoreFile.Holds StoreFile.Null) => Some TypeError
  | Some (StoreFile.Holds (StoreFile.Object None _)) => Some TypeError
  | _ => None
  end.

(** A run of [m] from [w] that exits with no other code than 0, throws
    nothing but the fault of the store, keeps that fault, neither adds
    nor removes the map of projects, and leaves a store with a fault
    as it is. *)
Definition calm_at {A : Type} (m : M A) (w : World) : Prop :=
  fault (snd (m w)) = fault w
  /\ Spec.has_projects (snd (m w)) = Spec.has_projects w
  /\ (fault w <> None -> config_file (snd (m w)) = config_file w)
  /\ match fst (m w) with
     | Thrown e => fault w = Some e
     | Exited code => code = 0
     | Returned _ | Blocked => True
     end.

Definition calm {A : Type} (m : M A) : Prop := forall w, calm_at m w.

(** The store [after] has every label of the store [before], and the
    same project history. *)
Definition extends (before after : World) : Prop :=
  (forall label, is_Some (GlobalConfig.servers (ConfigStore.stored before) !! label) ->
                 is_Some (GlobalConfig.servers (ConfigStore.stored after) !! label))
  /\ GlobalConfig.projects (ConfigStore.stored after)
     = GlobalConfig.projects (ConfigStore.stored before).

(** A computation that deletes no saved profile and leaves the project
    history alone. *)
Definition keeps_labels {A : Type} (m : M A) : Prop :=
  forall w, extends w (snd (m w)).

(** What every section of a collected configuration satisfies; the
    server section, which may come from the store as it is, apart. *)
Definition wellformed (envKeys : list string) (config : CollectedConfig.t) : Prop :=
  let project := CollectedConfig.project config in
  let domain := CollectedConfig.domain config in
  let branches := CollectedConfig.branches config in
  Collector.valid_name (ProjectConfig.name project) = true
  /\ ProjectConfig.language project = Spec.language_of (ProjectConfig.type project)
  /\ (domain = DomainConfig.mk false EmptyString false
      \/ (DomainConfig.enabled domain = true
          /\ Collector.not_blank (DomainConfig.name domain) = true))
  /\ (forall k, In k (CollectedConfig.secrets config) -> In k envKeys)
  /\ BranchConfig.production branches <> EmptyString
  /\ BranchConfig.staging branches <> Some EmptyString
  /\ CollectedConfig.registry config = "ghcr.io".

(** The two origins of a server section: a profile of the store under
    another deployment directory, or a profile entered and assigned to
    [label] in the servers of the store. *)
Definition from_store (before after : World) (server : ServerConfig.t) : Prop :=
  exists label profile,
    GlobalConfig.servers (ConfigStore.stored before) !! label = Some profile
    /\ server = Collector.with_deployDir profile (ServerConfig.deployDir server)
    /\ config_file after = config_file before.

Definition entered (before after : World) (server : ServerConfig.t) : Prop :=
  Collector.not_blank (ServerConfig.host server) = true
  /\ ServerConfig.user server <> EmptyString
  /\ ServerConfig.sshKeyPath server <> EmptyString
  /\ ServerConfig.deployDir server <> EmptyString
  /\ exists label,
       label <> EmptyString
       /\ GlobalConfig.servers (ConfigStore.stored after)
          = ConfigStore.assign label server (GlobalConfig.servers (ConfigStore.stored before))
       /\ GlobalConfig.projects (ConfigStore.stored after)
          = GlobalConfig.projects (ConfigStore.stored before).


(** The continuation [again], for the worlds that have fewer answers
    left than [w]; it waits on the others. *)
Definition later {A B : Type} (again : A -> M B) (w : World) : A -> M B :=
  fun a w' =>
    if (length (script w') <? length (script w))%nat then again a w' else blocked w'.


(** The project section that accepting every proposal gives: the
    detected values under [name], with the first archetype of the menu
    when none was detected. *)
Definition proposed (detection : DetectionResult.t) (name : string) : ProjectConfig.t :=
  let type := default flask (DetectionResult.type detection) in
  ProjectConfig.mk name type (Spec.language_of type) (DetectionResult.port detection)
    (DetectionResult.buildCmd detection) (DetectionResult.startCmd detection).

End Run.

(* ===================================================================== *)
(** ** template.ts *)
(* ===================================================================== *)

Module Template.

(** The replacement text of [String.prototype.replace] for a match
    without capture groups: [$$] is a dollar sign, [$&] the matched
    text, [$`] the text before the match and [$'] the text after it;
    any other [$] stands for itself. *)
Fixpoint GetSubstitution (matched before after replacement : string) : string :=
  match replacement with
  | EmptyString => EmptyString
  | String a rest =>
      if Ascii.eqb a "$" then
        match rest with
        | String c rest' =>
            if Ascii.eqb c "$" then String "$" (GetSubstitution matched before after rest')
            else if Ascii.eqb c "&" then
              String.append matched (GetSubstitution matched before after rest')
            else if Ascii.eqb c "`" then
              String.append before (GetSubstitution matched before after rest')
            else if Ascii.eqb c "'" then
              String.append after (GetSubstitution matched before after rest')
            else String a (GetSubstitution matched before after rest)
        | EmptyString => String a EmptyString
        end
      else String a (GetSubstitution matched before after rest)
  end.

(** [s.replace(/p/g, value)] for a pattern that matches the text [p]
    only, [p] not empty: the matches are taken from left to right and
    do not overlap.  [before] is the text already passed, [skip] the
    number of characters left of the match being passed. *)
Fixpoint replace_from (p value before : string) (skip : nat) (s : string) : string :=
  match s with
  | EmptyString => EmptyString
  | String c s' =>
      let before' := String.append before (String c EmptyString) in
      match skip with
      | S skip' => replace_from p value before' skip' s'
      | O =>
          if Js.startsWith p s then
            String.append
              (GetSubstitution p before (Js.drop (String.length p) s) value)
              (replace_from p value before' (String.length p - 1) s')
          else String c (replace_from p value before' 0 s')
      end
  end.

Definition replace_all (p value s : string) : string :=
  replace_from p value EmptyString 0 s.

(** The syntax characters of a regular expression: a character of a
    pattern that is none of them matches itself. *)
Definition syntax_character (c : ascii) : bool :=
  Js.includes (String c EmptyString) "^$\.*+?()[]{}|".

(** A key in which [new RegExp] finds no syntax: every key that
    [buildTemplateVars] gives is one. *)
Definition plain_key (key : string) : bool :=
  Js.all (fun c => negb (syntax_character c)) key.

Definition plain_keys (vars : list (string * string)) : bool :=
  forallb (fun kv => plain_key (fst kv)) vars.

(** The only text that [new RegExp(`\\{\\{${key}\\}\\}`, 'g')] matches
    when [key] is a plain key: two braces, the key, two braces.  For
    a key that holds a syntax character the pattern is another one,
    which this text does not describe. *)
Definition placeholder (key : string) : string :=
  String.append "{{" (String.append key "}}").

(** [vars] is [Object.entries(vars)], in insertion order; the keys
    are plain keys. *)
Definition replacePlaceholders (template : string) (vars : list (string * string)) : string :=
  fold_left (fun result kv => replace_all (placeholder (fst kv)) (snd kv) result) vars template.

End Template.

(* ===================================================================== *)
(** ** Writes to the project tree *)
(* ===================================================================== *)

Module Disk.

(** The entry [name] set to [n]: in place when the directory has it,
    else as a new entry. *)
Fixpoint put (name : string) (n : Fs.node) (entries : list (string * Fs.node))
  : list (string * Fs.node) :=
  match entries with
  | [] => [(name, n)]
  | e :: entries' =>
      if String.eqb (fst e) name then (name, n) :: entries'
      else e :: put name n entries'
  end.

(** The tree with [n] at [path], under directories that exist. *)
Fixpoint store (root : Fs.node) (path : list string) (n : Fs.node) : option Fs.node :=
  match path with
  | [] => Some n
  | name :: path' =>
      match root with
      | Fs.Dir entries =>
          match path' with
          | [] => Some (Fs.Dir (put name n entries))
          | _ :: _ =>
              match Fs.lookup_entry name entries with
              | Some child =>
                  match store child path' n with
                  | Some child' => Some (Fs.Dir (put name child' entries))
                  | None => None
                  end
              | None => None
              end
          end
      | Fs.File _ => None
      end
  end.

(** [fs.mkdirSync(path, { recursive: true })]: the directories that
    are missing are created; [None] (an exception) when a file is in
    the way. *)
Fixpoint mkdirSync (root : Fs.node) (path : list string) : option Fs.node :=
  match root with
  | Fs.File _ => None
  | Fs.Dir entries =>
      match path with
      | [] => Some root
      | name :: path' =>
          match mkdirSync (default (Fs.Dir []) (Fs.lookup_entry name entries)) path' with
          | Some child' => Some (Fs.Dir (put name child' entries))
          | None => None
          end
      end
  end.

(** [fs.writeFileSync(path, content)]: the file is created or
    replaced; [None] (an exception) on a directory, or under a
    directory that does not exist. *)
Definition writeFileSync (root : Fs.node) (path : list string) (content : string)
  : option Fs.node :=
  match Fs.resolve root path with
  | Some (Fs.Dir _) => None
  | _ => store root path (Fs.File content)
  end.

(** [fs.copyFileSync(src, dest)]: [src] is a file, [dest] is created
    or replaced. *)
Definition copyFileSync (root : Fs.node) (src dest : list string) : option Fs.node :=
  match Fs.resolve root src with
  | Some (Fs.File content) => writeFileSync root dest content
  | _ => None
  end.

(** [path.dirname] *)
Definition dirname (path : list string) : list string := removelast path.

(** The two paths part at some segment: neither is inside the other. *)
Fixpoint apart (p q : list string) : bool :=
  match p, q with
  | a :: p', b :: q' => if String.eqb a b then apart p' q' else true
  | _, _ => false
  end.

(** [q] is [p] or an ancestor of [p]. *)
Fixpoint above (q p : list string) : bool :=
  match q, p with
  | [], _ => true
  | a :: q', b :: p' => String.eqb a b && above q' p'
  | _ :: _, [] => false
  end.

(** The paths that [ok] accepts lead to the same node in both trees. *)
Definition same_where (ok : list string -> bool) (d d' : Fs.node) : Prop :=
  forall q, ok q = true -> Fs.resolve d' q = Fs.resolve d q.

End Disk.

(* ===================================================================== *)
(** ** generator.ts *)
(* ===================================================================== *)

Module Generator.

(** A generation step: it returns or throws ([None]), and leaves the
    tree with what it has written until then. *)
Definition Gen (A : Type) : Type := Fs.node -> option A * Fs.node.

Definition gret {A : Type} (a : A) : Gen A := fun d => (Some a, d).

Definition gbind {A B : Type} (m : Gen A) (k : A -> Gen B) : Gen B :=
  fun d => match m d with
           | (Some a, d') => k a d'
           | (None, d') => (None, d')
           end.

Notation "x <~ m ; k" := (gbind m (fun x => k))
  (at level 100, m at next level, right associativity).

(** A call of [fs] that changes the tree. *)
Definition fs_call (change : Fs.node -> option Fs.node) : Gen unit :=
  fun d => match change d with
           | Some d' => (Some tt, d')
           | None => (None, d)
           end.

Definition dquote : ascii := "034"%char.

(** [s.split(/\s+/)]: [in_gap] holds while a run of white space is
    being passed. *)
Fixpoint split_spaces (in_gap : bool) (s : string) : list string :=
  match s with
  | EmptyString => [EmptyString]
  | String c s' =>
      if Js.is_space c then
        if in_gap then split_spaces true s' else EmptyString :: split_spaces true s'
      else match split_spaces false s' with
           | piece :: pieces => String c piece :: pieces
           | [] => [String c EmptyString]
           end
  end.

(** [String(n)] for an integer, [String(b)] for a boolean. *)
Definition String_of_number (n : Z) : string := NilZero.string_of_int (Z.to_int n).

Definition String_of_boolean (b : bool) : string := if b then "true" else "false".

Definition buildTemplateVars (config : CollectedConfig.t) : list (string * string) :=
  let project := CollectedConfig.project config in
  let server := CollectedConfig.server config in
  let domain := CollectedConfig.domain config in
  let startParts := split_spaces false (ProjectConfig.startCmd project) in
  let dockerCmd :=
    String.concat ", "
      (map (fun p => String dquote (String.append p (String dquote EmptyString))) startParts) in
  [("APP_NAME", ProjectConfig.name project);
   ("APP_PORT", String_of_number (ProjectConfig.port project));
   ("BUILD_CMD", ProjectConfig.buildCmd project);
   ("START_CMD", ProjectConfig.startCmd project);
   ("START_CMD_DOCKER", dockerCmd);
   ("PYTHON_VERSION", "3.11");
   ("NODE_VERSION", "20");
   ("REGISTRY", CollectedConfig.registry config);
   ("GITHUB_USER", "${GITHUB_USER}");
   ("DEPLOY_DIR", ServerConfig.deployDir server);
   ("SERVER_HOST", ServerConfig.host server);
   ("SERVER_USER", ServerConfig.user server);
   ("BRANCH_PRODUCTION", BranchConfig.production (CollectedConfig.branches config));
   ("DOMAIN_NAME",
    if Js.truthy_string (DomainConfig.name domain) then DomainConfig.name domain
    else "localhost");
   ("DOMAIN_ENABLED", String_of_boolean (DomainConfig.enabled domain));
   ("HTTPS_ENABLED", String_of_boolean (DomainConfig.https domain))].

Section WithTemplates.

(** The template files of the installation: [templates category name]
    is the content of [src/templates/<category>/<name>], [None] when
    there is no such file. *)
Variable templates : string -> string -> option string.

(** [readTemplate] throws when the file is missing. *)
Definition readTemplate (category name : string) : Gen string :=
  fun d => (templates category name, d).

(** The name of the template [getDockerfileTemplate] reads. *)
Definition dockerfile_name (type : string) : string :=
  if Js.array_includes type ["flask"; "django"; "fastapi"] then "python.Dockerfile"
  else if Js.array_includes type ["vue-spa"; "react-spa"] then "spa.Dockerfile"
  else "node.Dockerfile".

Definition getDockerfileTemplate (type : string) : Gen string :=
  readTemplate "dockerfile" (dockerfile_name type).

Definition backup_of (relativePath : string) : list string :=
  Fs.join [String.append relativePath ".backup"].

Definition writeTemplate (template relativePath : string) (vars : list (string * string))
  : Gen GeneratedFile.t :=
  let content := Template.replacePlaceholders template vars in
  let fullPath := Fs.join [relativePath] in
  fun outputDir =>
    let backedUp := Fs.existsSync outputDir [relativePath] in
    (_ <~ (if backedUp
           then fs_call (fun d => Disk.copyFileSync d fullPath (backup_of relativePath))
           else gret tt) ;
     _ <~ fs_call (fun d => Disk.mkdirSync d (Disk.dirname fullPath)) ;
     _ <~ fs_call (fun d => Disk.writeFileSync d fullPath content) ;
     gret (GeneratedFile.mk relativePath backedUp)) outputDir.

Definition ignoreCategory (config : CollectedConfig.t) : string :=
  match ProjectConfig.language (CollectedConfig.project config) with
  | python => "python"
  | node => "node"
  end.

Definition generateFiles (config : CollectedConfig.t) : Gen (list GeneratedFile.t) :=
  let vars := buildTemplateVars config in
  let type := Collector.type_value (ProjectConfig.type (CollectedConfig.project config)) in
  template <~ getDockerfileTemplate type ;
  dockerfile <~ writeTemplate template "Dockerfile" vars ;
  template <~ readTemplate "dockerignore" (String.append (ignoreCategory config) ".dockerignore") ;
  dockerignore <~ writeTemplate template ".dockerignore" vars ;
  template <~ readTemplate "compose" "default.yml" ;
  compose <~ writeTemplate template "docker-compose.yml" vars ;
  _ <~ fs_call (fun d => Disk.mkdirSync d (Fs.join [".github"; "workflows"])) ;
  template <~ readTemplate "workflows" "github-deploy.yml" ;
  workflow <~ writeTemplate template ".github/workflows/deploy.yml" vars ;
  nginx <~ (if Js.array_includes type ["vue-spa"; "react-spa"]
            then (template <~ readTemplate "nginx" "default.conf" ;
                  file <~ writeTemplate template "nginx.conf" vars ;
                  gret [file])
            else gret []) ;
  template <~ readTemplate "scripts" "server-init.sh" ;
  script <~ writeTemplate template "server-init.sh" vars ;
  gret ([dockerfile; dockerignore; compose; workflow] ++ nginx ++ [script])%list.

End WithTemplates.

(** The relative paths [generateFiles] can write to. *)
Definition outputs : list string :=
  ["Dockerfile"; ".dockerignore"; "docker-compose.yml"; ".github/workflows/deploy.yml";
   "nginx.conf"; "server-init.sh"].

(** The path is apart from [relativePath] and from its backup. *)
Definition clear_of (relativePath : string) (q : list string) : bool :=
  Disk.apart (Fs.join [relativePath]) q && Disk.apart (backup_of relativePath) q.

(** The path is apart from every output and from every backup. *)
Definition clear (q : list string) : bool :=
  forallb (fun relativePath => clear_of relativePath q) outputs.

(** The category and the name of the template an output is made
    from. *)
Definition source_of (config : CollectedConfig.t) (relativePath : string) : string * string :=
  if String.eqb relativePath "Dockerfile" then
    ("dockerfile",
     dockerfile_name (Collector.type_value (ProjectConfig.type (CollectedConfig.project config))))
  else if String.eqb relativePath ".dockerignore" then
    ("dockerignore", String.append (ignoreCategory config) ".dockerignore")
  else if String.eqb relativePath "docker-compose.yml" then ("compose", "default.yml")
  else if String.eqb relativePath ".github/workflows/deploy.yml" then
    ("workflows", "github-deploy.yml")
  else if String.eqb relativePath "nginx.conf" then ("nginx", "default.conf")
  else ("scripts", "server-init.sh").

(** What [generateFiles] has done for a file of its list: the file
    holds the template of its path with the placeholders replaced; if
    it is marked as backed up, a file was there before and its content
    is in the backup; if not, nothing was there before. *)
Definition made (templates : string -> string -> option string) (config : CollectedConfig.t)
    (before after : Fs.node) (f : GeneratedFile.t) : Prop :=
  let relativePath := GeneratedFile.path f in
  In relativePath outputs
  /\ (exists template,
        templates (fst (source_of config relativePath)) (snd (source_of config relativePath))
        = Some template
        /\ Fs.resolve after (Fs.join [relativePath])
           = Some (Fs.File (Template.replacePlaceholders template (buildTemplateVars config))))
  /\ (if GeneratedFile.backedUp f
      then exists content,
          Fs.resolve before (Fs.join [relativePath]) = Some (Fs.File content)
          /\ Fs.resolve after (backup_of relativePath) = Some (Fs.File content)
      else Fs.resolve before (Fs.join [relativePath]) = None).

(** The conditions under which a generation goes through. *)

Definition is_dir (d : Fs.node) (q : list string) : bool :=
  match Fs.resolve d q with Some (Fs.Dir _) => true | _ => false end.

Definition free_or_file (d : Fs.node) (q : list string) : bool :=
  match Fs.resolve d q with Some (Fs.Dir _) => false | _ => true end.

Definition free_or_dir (d : Fs.node) (q : list string) : bool :=
  match Fs.resolve d q with Some (Fs.File _) => false | _ => true end.

(** Nothing or a file is at the path, and in the second case nothing
    or a file is at the path of the backup. *)
Definition writable (d : Fs.node) (relativePath : string) : bool :=
  free_or_file d (Fs.join [relativePath])
  && (negb (Fs.existsSync d [relativePath]) || free_or_file d (backup_of relativePath)).

(** The relative paths a generation for [config] writes to. *)
Definition targets (config : CollectedConfig.t) : list string :=
  (["Dockerfile"; ".dockerignore"; "docker-compose.yml"; ".github/workflows/deploy.yml"]
   ++ (if Js.array_includes
            (Collector.type_value (ProjectConfig.type (CollectedConfig.project config)))
            ["vue-spa"; "react-spa"]
       then ["nginx.conf"] else [])
   ++ ["server-init.sh"])%list.

(** The output directory is a directory in which every target can be
    written and the workflow directory can be made. *)
Definition ready (config : CollectedConfig.t) (d : Fs.node) : bool :=
  is_dir d []
  && forallb (writable d) (targets config)
  && free_or_dir d [".github"]
  && free_or_dir d [".github"; "workflows"].

(** The installation has the template of every target. *)
Definition supplied (templates : string -> string -> option string)
    (config : CollectedConfig.t) : bool :=
  forallb (fun relativePath =>
             match templates (fst (source_of config relativePath))
                             (snd (source_of config relativePath)) with
             | Some _ => true
             | None => false
             end)
          (targets config).

End Generator.

(* ===================================================================== *)
(** ** cache.ts and the commands of cli.ts *)
(* ===================================================================== *)

Module Cache.

Definition CACHE_FILE : string := ".deploy-setup-cache.json".

Section WithJson.

(** [JSON.parse], and [JSON.stringify(config, null, 2)] on a
    configuration. *)
Variable JSON_parse : string -> result Json.json.
Variable JSON_stringify : CollectedConfig.t -> string.

(** [saveCache]: [None] when [writeFileSync] throws. *)
Definition saveCache (dir : Fs.node) (config : CollectedConfig.t) : option Fs.node :=
  Disk.writeFileSync dir (Fs.join [CACHE_FILE]) (JSON_stringify config).

(** How [loadCache] ends: with the parsed cache, with the error it
    throws itself when there is no cache, or with an error of [fs] or
    of [JSON.parse]. *)
Inductive loaded : Type :=
| Parsed (v : Json.json)
| NoCache
| Failed (e : error).

Definition loadCache (dir : Fs.node) : loaded :=
  if negb (Fs.existsSync dir [CACHE_FILE]) then NoCache
  else match (content <-! Fs.readFileSync dir [CACHE_FILE] ; JSON_parse content) with
       | Ok v => Parsed v
       | Err e => Failed e
       end.

End WithJson.

End Cache.

Module Commands.

(** How [runInit] ends. *)
Inductive ended : Type :=
| Done (config : CollectedConfig.t)
| DetectionFailed (e : error)
| CollectionFailed (e : error)
| Cancelled (code : Z)
| Waiting
| GenerationFailed
| RecordFailed (e : error)
| CacheFailed.

Section WithRuntime.

Variable JSON_parse : string -> result Json.json.
Variable JSON_stringify : CollectedConfig.t -> string.
Variable templates : string -> string -> option string.

(** [runInit] without [--config], on the project directory whose base
    name is [basename]; [now] is the clock read by
    [saveProjectRecord], which asks the operator nothing: it returns
    or throws.  The result is how the command ends, the operator and
    the store after it, and the project directory after it. *)
Definition runInit (projectDir : Fs.node) (basename now : string) (w : World)
  : ended * World * Fs.node :=
  let projectName := Orchestrator.projectName basename in
  match Detector.detectProject JSON_parse projectDir with
  | Err e => (DetectionFailed e, w, projectDir)
  | Ok detection =>
      match Collector.collectConfig detection projectName w with
      | (Returned config, w1) =>
          match Generator.generateFiles templates config projectDir with
          | (Some _, d1) =>
              match ConfigStore.saveProjectRecord now
                      (ProjectConfig.name (CollectedConfig.project config))
                      (Collector.type_value (ProjectConfig.type (CollectedConfig.project config)))
                      w1 with
              | (Returned _, w2) =>
                  match Cache.saveCache JSON_stringify d1 config with
                  | Some d2 => (Done config, w2, d2)
                  | None => (CacheFailed, w2, d1)
                  end
              | (Thrown e, w2) => (RecordFailed e, w2, d1)
              | (_, w2) => (Waiting, w2, d1)
              end
          | (None, d1) => (GenerationFailed, w1, d1)
          end
      | (Exited code, w1) => (Cancelled code, w1, projectDir)
      | (Thrown e, w1) => (CollectionFailed e, w1, projectDir)
      | (Blocked, w1) => (Waiting, w1, projectDir)
      end
  end.

End WithRuntime.

(** *** The wait for the workflow run in [runPushAndVerify] *)

(** What a query [gh run list --limit 1 --json status,conclusion,name]
    gives: the command or the parse of its output fails, or the output
    is a JSON array. *)
Inductive reply : Type :=
| Unavailable
| Runs (runs : list Json.json).

Inductive verdict : Type :=
| Succeeded
| RunFailed
| Unverified
| TimedOut.

Definition is_text (text : string) (v : option Json.json) : bool :=
  match v with
  | Some (Json.JString s) => String.eqb s text
  | _ => false
  end.

(** The body of the [try] for one reply: the verdict that ends the
    wait, or [None] to wait and ask again. *)
Definition check (r : reply) : option verdict :=
  match r with
  | Unavailable => Some Unverified
  | Runs [] => None
  | Runs (run :: _) =>
      match Json.member "status" run with
      | Err _ => Some Unverified
      | Ok status =>
          if is_text "completed" status then
            match Json.member "conclusion" run with
            | Ok conclusion =>
                if is_text "success" conclusion then Some Succeeded else Some RunFailed
            | Err _ => Some Unverified
            end
          else None
      end
  end.

(** The loop [for (let i = 0; i < 30; i++)], from the query [i] with
    [left] queries left; [gh i] is the reply to the query [i] and
    [waited] the milliseconds slept so far. *)
Fixpoint poll (gh : nat -> reply) (left i : nat) (waited : Z) : verdict * nat * Z :=
  match left with
  | O => (TimedOut, i, waited)
  | S left' =>
      match check (gh i) with
      | Some v => (v, S i, waited)
      | None => poll gh left' (S i) (waited + 10000)
      end
  end.

(** The wait of [runPushAndVerify] after the push: the verdict, the
    number of queries made and the milliseconds slept. *)
Definition verify (gh : nat -> reply) : verdict * nat * Z := poll gh 30 0 5000.

End Commands.

(* ===================================================================== *)
(** * Properties *)
(* ===================================================================== *)

(** ** Substrings *)

Lemma append_String (c : ascii) (u v : string) :
  String.append (String c u) v = String c (String.append u v).
Proof. reflexivity. Qed.

Lemma startsWith_spec (p s : string) :
  Js.startsWith p s = true <-> exists post, s = String.append p post.
Proof.
  revert s. induction p as [|a p IH]; intros s; cbn [Js.startsWith].
  - split; [intros _; now exists s | reflexivity].
  - destruct s as [|b s].
    + split; [discriminate | intros [post H]; discriminate].
    + rewrite andb_true_iff, IH. split.
      * intros [Hab [post ->]]. apply Ascii.eqb_eq in Hab as ->. now exists post.
      * intros [post H]. rewrite append_String in H. injection H as -> ->.
        split; [apply Ascii.eqb_refl | now exists post].
Qed.

(** [s.includes(p)] holds exactly when [p] occurs in [s]. *)
Lemma includes_spec (p s : string) :
  Js.includes p s = true
  <-> exists pre post, s = String.append pre (String.append p post).
Proof.
  induction s as [|c s IH]; cbn [Js.includes]; rewrite orb_true_iff, startsWith_spec.
  - split.
    + intros [[post H] | H]; [exists EmptyString, post; exact H | discriminate].
    + intros (pre & post & H). left. destruct pre as [|a pre]; [now exists post | discriminate].
  - rewrite IH. split.
    + intros [[post H] | (pre & post & ->)]; [exists EmptyString, post; exact H |].
      exists (String c pre), post. reflexivity.
    + intros (pre & post & H). destruct pre as [|a pre].
      * left. now exists post.
      * right. rewrite append_String in H. injection H as -> ->. now exists pre, post.
Qed.

(** ** Results *)

Lemma rbind_Ok {A B : Type} (r : result A) (k : A -> result B) (b : B) :
  rbind r k = Ok b -> exists a, r = Ok a /\ k a = Ok b.
Proof. destruct r as [a|e]; simpl; [eauto | discriminate]. Qed.

Lemma array_includes_In (x : string) (xs : list string) :
  Js.array_includes x xs = true <-> In x xs.
Proof.
  unfold Js.array_includes. rewrite existsb_exists. split.
  - intros (y & Hy & Heq). apply String.eqb_eq in Heq. now subst.
  - intros H. exists x. split; [assumption | apply String.eqb_refl].
Qed.

Lemma array_includes_not_In (x : string) (xs : list string) :
  Js.array_includes x xs = false <-> ~ In x xs.
Proof.
  rewrite <- array_includes_In. destruct (Js.array_includes x xs); split; congruence.
Qed.

(** ** The shape of a successful detection *)

Lemma detectProject_inv P (d : Fs.node) (r : DetectionResult.t) :
  Detector.detectProject P d = Ok r ->
  exists files envKeys language version type seeded detectedPort,
    Fs.readdirSync d = Ok files
    /\ match find Detector.is_env_file files with
       | Some f => Detector.parseEnvKeys d f
       | None => Ok []
       end = Ok envKeys
    /\ Detector.detectLanguage P d files = Ok (language, version, type)
    /\ Detector.applyDefaults d type = Ok seeded
    /\ Detector.detectPort d language = Ok detectedPort
    /\ r = DetectionResult.mk type language version
             (match detectedPort with
              | Some p => if p =? 0 then Defaults.port seeded else p
              | None => Defaults.port seeded
              end)
             (Defaults.buildCmd seeded) (Defaults.startCmd seeded) (Defaults.entryFile seeded)
             (find Detector.is_env_file files) envKeys
             (Js.array_includes "Dockerfile" files)
             (Fs.existsSync d [".github"; "workflows"]).
Proof.
  unfold Detector.detectProject. intros H.
  apply rbind_Ok in H as (files & Hfiles & H).
  apply rbind_Ok in H as (envKeys & HenvKeys & H).
  apply rbind_Ok in H as ([[language version] type] & Hlang & H).
  apply rbind_Ok in H as (seeded & Hseed & H).
  apply rbind_Ok in H as (detectedPort & Hport & H).
  injection H as <-.
  exists files, envKeys, language, version, type, seeded, detectedPort.
  repeat split; assumption.
Qed.

(** ** Env-file discovery *)

Lemma find_first_sorted (p : string -> bool) (files : list string) (x y : string) :
  Spec.ascending files -> find p files = Some x -> In y files -> p y = true ->
  y = x \/ String.ltb x y = true.
Proof.
  unfold Spec.ascending. induction 1 as [|a l Hsorted IH Hall]; simpl; [discriminate |].
  intros Hfind Hin Hy. destruct (p a) eqn:Hpa.
  - injection Hfind as <-. destruct Hin as [->|Hin]; [now left | right].
    rewrite List.Forall_forall in Hall. now apply Hall.
  - destruct Hin as [->|Hin]; [congruence | now apply IH].
Qed.

Lemma find_none_env (files : list string) (x : string) :
  find Detector.is_env_file files = None -> Detector.is_env_file x = true ->
  Js.array_includes x files = false.
Proof.
  intros Hfind Hx. apply array_includes_not_In. intros Hin.
  apply (find_none _ _ Hfind) in Hin. congruence.
Qed.

Lemma is_env_file_cases (f : string) :
  Detector.is_env_file f = true -> f = ".env" \/ f = ".env.example" \/ f = ".env.production".
Proof.
  unfold Detector.is_env_file. intros H.
  apply orb_true_iff in H as [H|H]; [apply orb_true_iff in H as [H|H] |];
    apply String.eqb_eq in H; auto.
Qed.

Lemma env_priority_of_sorted (files : list string) :
  Spec.ascending files -> find Detector.is_env_file files = Spec.env_by_priority files.
Proof.
  intros Hsorted. unfold Spec.env_by_priority.
  destruct (find Detector.is_env_file files) as [x|] eqn:Hfind.
  - pose proof (find_some _ _ Hfind) as [Hin Hx].
    assert (Hlater : forall y, Detector.is_env_file y = true -> String.ltb x y = false ->
                               y <> x -> Js.array_includes y files = false).
    { intros y Hy Hlt Hne. apply array_includes_not_In. intros Hiny.
      destruct (find_first_sorted _ _ _ _ Hsorted Hfind Hiny Hy); congruence. }
    apply array_includes_In in Hin.
    destruct (is_env_file_cases _ Hx) as [->| [->| ->]].
    + now rewrite Hin.
    + rewrite (Hlater ".env"), Hin; [reflexivity | reflexivity | reflexivity | discriminate].
    + rewrite (Hlater ".env"), (Hlater ".env.example"), Hin;
        solve [reflexivity | discriminate].
  - now rewrite !(find_none_env _ _ Hfind).
Qed.

(** C1, as amended.  [detectProject] selects the first entry of the
    directory listing, in the order of the listing, that is one of
    [.env], [.env.example], [.env.production]; when the listing is in
    ascending order of names this is the first of the three in the
    priority order [.env], [.env.example], [.env.production].  The keys
    are those of the selected file: of each line that is not blank, does
    not start with [#] and holds an [=], the trimmed text before the
    first [=]; they are empty when there is no env file. *)
Theorem env_file_first_in_listing P (d : Fs.node) (files : list string) (r : DetectionResult.t) :
  Fs.readdirSync d = Ok files ->
  Detector.detectProject P d = Ok r ->
  DetectionResult.envFile r = find Detector.is_env_file files
  /\ (Spec.ascending files -> DetectionResult.envFile r = Spec.env_by_priority files)
  /\ match DetectionResult.envFile r with
     | Some f =>
         exists content,
           Fs.readFileSync d [f] = Ok content
           /\ DetectionResult.envKeys r
              = map Detector.env_key (filter Detector.env_line (Js.split Detector.LF content))
     | None => DetectionResult.envKeys r = []
     end.
Proof.
  intros Hfiles H.
  apply detectProject_inv in H
    as (files' & envKeys & language & version & type & seeded & dp
        & Hfiles' & Henv & _ & _ & _ & ->).
  rewrite Hfiles in Hfiles'. injection Hfiles' as <-. simpl.
  split; [reflexivity |]. split; [apply env_priority_of_sorted |].
  destruct (find Detector.is_env_file files) as [f|].
  - unfold Detector.parseEnvKeys in Henv.
    apply rbind_Ok in Henv as (content & Hread & Hkeys).
    injection Hkeys as <-. now exists content.
  - now injection Henv as <-.
Qed.

Lemma env_file_first_in_listing_witness :
  exists r,
    Detector.detectProject Samples.parse Samples.env_dir = Ok r
    /\ DetectionResult.envFile r = Some ".env.example"
    /\ DetectionResult.envKeys r = ["API_KEY"].
Proof.
  destruct (Detector.detectProject Samples.parse Samples.env_dir) as [r|e] eqn:Hrun;
    [| vm_compute in Hrun; discriminate].
  exists r. split; [reflexivity |].
  destruct (env_file_first_in_listing Samples.parse Samples.env_dir
              [".env.example"; ".env"] r eq_refl Hrun) as (Hfile & _ & Hkeys).
  rewrite Hfile in *. simpl in *. split; [reflexivity |].
  destruct Hkeys as (content & Hread & ->).
  vm_compute in Hread. injection Hread as <-. reflexivity.
Defined.

(** C1 as stated fails: in a directory that lists [.env.example] before
    [.env], the file selected is [.env.example], not the [.env] that the
    priority order asks for. *)
Lemma env_file_priority_counterexample :
  exists r,
    Detector.detectProject Samples.parse Samples.env_dir = Ok r
    /\ Spec.env_by_priority [".env.example"; ".env"] = Some ".env"
    /\ DetectionResult.envFile r = Some ".env.example"
    /\ DetectionResult.envFile r <> Spec.env_by_priority [".env.example"; ".env"].
Proof.
  eexists. split; [vm_compute; reflexivity |].
  split; [reflexivity |]. split; [reflexivity |]. discriminate.
Qed.

(** ** Detection from the canonical markers *)

Lemma only_spec (found : ProjectType -> bool) (among : list ProjectType) (t u : ProjectType) :
  Spec.only found among t = true -> In u among -> found u = bool_decide (u = t).
Proof.
  unfold Spec.only. rewrite forallb_forall. intros H Hu.
  apply Bool.eqb_prop. now apply H.
Qed.

Lemma detectPort_nothing (d : Fs.node) (language : option Language) :
  (forall f, In f (Detector.candidates language) -> Fs.existsSync d [f] = false) ->
  Detector.detectPort d language = Ok None.
Proof.
  unfold Detector.detectPort. induction (Detector.candidates language) as [|f fs IH]; simpl.
  - reflexivity.
  - intros H. rewrite (H f) by now left. simpl. apply IH. intros g Hg. apply H. now right.
Qed.

Lemma canonical_python_detected P (t : ProjectType) (manifest content : string) :
  In t Spec.python_types ->
  In manifest ["requirements.txt"; "pyproject.toml"] ->
  Spec.only (Spec.names (Js.toLowerCase content)) Spec.python_types t = true ->
  Detector.detectProject P (Fs.Dir [(manifest, Fs.File content)]) = Ok (Spec.static_defaults t).
Proof.
  intros Ht Hm Honly.
  pose proof (only_spec _ _ _ fastapi Honly) as Hfastapi.
  pose proof (only_spec _ _ _ django Honly) as Hdjango.
  pose proof (only_spec _ _ _ flask Honly) as Hflask.
  unfold Spec.names in *. simpl in Hfastapi, Hdjango, Hflask.
  specialize (Hfastapi ltac:(simpl; tauto)).
  specialize (Hdjango ltac:(simpl; tauto)).
  specialize (Hflask ltac:(simpl; tauto)).
  assert (Hlang : Detector.detectLanguage P (Fs.Dir [(manifest, Fs.File content)]) [manifest]
                  = Ok (Some python, "3.11", Some t)).
  { unfold Detector.detectLanguage, Detector.detectPythonFramework.
    destruct Hm as [<-|[<-|[]]]; cbn -[Js.includes Js.toLowerCase];
      rewrite Hfastapi, Hdjango, Hflask;
      destruct Ht as [<-|[<-|[<-|[]]]]; reflexivity. }
  unfold Detector.detectProject.
  change (Fs.readdirSync (Fs.Dir [(manifest, Fs.File content)])) with (Ok (A := list string) [manifest]).
  cbn [rbind]. rewrite Hlang.
  assert (Hfind : find Detector.is_env_file [manifest] = None)
    by (destruct Hm as [<-|[<-|[]]]; reflexivity).
  rewrite Hfind. cbn [rbind].
  assert (Hseed : Detector.applyDefaults (Fs.Dir [(manifest, Fs.File content)]) (Some t)
                  = Ok (PROJECT_DEFAULTS t)).
  { destruct Hm as [<-|[<-|[]]]; destruct Ht as [<-|[<-|[<-|[]]]]; reflexivity. }
  rewrite Hseed. cbn [rbind].
  rewrite detectPort_nothing.
  - destruct Hm as [<-|[<-|[]]]; destruct Ht as [<-|[<-|[<-|[]]]]; reflexivity.
  - intros f Hf. simpl in Hf.
    destruct Hm as [<-|[<-|[]]]; repeat (destruct Hf as [<-|Hf]; [reflexivity |]); destruct Hf.
Qed.

Lemma canonical_node_framework P (t : ProjectType) (content : string) (pkg : Json.json)
    (deps : list (string * Json.json)) :
  In t Spec.node_types ->
  P content = Ok pkg ->
  Detector.allDeps pkg = Ok deps ->
  Spec.only (Spec.marks deps) Spec.node_types t = true ->
  Detector.detectNodeFramework P (Fs.Dir [("package.json", Fs.File content)]) = Ok (Some t).
Proof.
  intros Ht Hparse Hdeps Honly.
  pose proof (only_spec _ _ _ nestjs Honly ltac:(simpl; tauto)) as Hnest.
  pose proof (only_spec _ _ _ nextjs Honly ltac:(simpl; tauto)) as Hnext.
  pose proof (only_spec _ _ _ nuxtjs Honly ltac:(simpl; tauto)) as Hnuxt.
  pose proof (only_spec _ _ _ vue_spa Honly ltac:(simpl; tauto)) as Hvue.
  pose proof (only_spec _ _ _ react_spa Honly ltac:(simpl; tauto)) as Hreact.
  unfold Spec.marks in *. cbn [Spec.marker_deps existsb] in *.
  rewrite !orb_false_r in *.
  unfold Detector.detectNodeFramework.
  change (Fs.existsSync (Fs.Dir [("package.json", Fs.File content)]) ["package.json"]) with true.
  change (Fs.readFileSync (Fs.Dir [("package.json", Fs.File content)]) ["package.json"])
    with (Ok content).
  cbn [negb rbind]. rewrite Hparse. cbn [rbind]. rewrite Hdeps. cbn [rbind].
  rewrite Hnest, Hnext, Hnuxt.
  destruct Ht as [<-|[<-|[<-|[<-|[<-|[]]]]]]; cbn in *; try reflexivity.
  - apply orb_false_iff in Hnuxt as [Hn _]. now rewrite Hvue, Hn.
  - apply orb_false_iff in Hnuxt as [Hn _]. now rewrite Hvue, Hreact.
Qed.

Lemma canonical_node_detected P (t : ProjectType) (content : string) (pkg : Json.json)
    (deps : list (string * Json.json)) :
  In t Spec.node_types ->
  P content = Ok pkg ->
  Detector.allDeps pkg = Ok deps ->
  Spec.only (Spec.marks deps) Spec.node_types t = true ->
  Detector.detectProject P (Fs.Dir [("package.json", Fs.File content)]) = Ok (Spec.static_defaults t).
Proof.
  intros Ht Hparse Hdeps Honly.
  pose proof (canonical_node_framework P t content pkg deps Ht Hparse Hdeps Honly) as Hfw.
  unfold Detector.detectProject.
  change (Fs.readdirSync (Fs.Dir [("package.json", Fs.File content)]))
    with (Ok (A := list string) ["package.json"]).
  cbn [rbind find Detector.is_env_file String.eqb Ascii.eqb Bool.eqb orb].
  unfold Detector.detectLanguage.
  cbn [Js.array_includes existsb String.eqb Ascii.eqb Bool.eqb orb].
  rewrite Hfw. cbn [rbind].
  assert (Hseed : Detector.applyDefaults (Fs.Dir [("package.json", Fs.File content)]) (Some t)
                  = Ok (PROJECT_DEFAULTS t))
    by (destruct Ht as [<-|[<-|[<-|[<-|[<-|[]]]]]]; reflexivity).
  rewrite Hseed. cbn [rbind].
  rewrite detectPort_nothing.
  - destruct Ht as [<-|[<-|[<-|[<-|[<-|[]]]]]]; reflexivity.
  - intros f Hf. simpl in Hf.
    repeat (destruct Hf as [<-|Hf]; [reflexivity |]); destruct Hf.
Qed.

(** C2.  For each of the eight archetypes, [detectProject] on a
    directory that holds only the canonical marker file of the archetype
    returns exactly that archetype with the port, build command, start
    command and entry file of [PROJECT_DEFAULTS]: nothing else
    is detected, and no refinement or port override applies. *)
Theorem canonical_markers_give_defaults P (t : ProjectType) (d : Fs.node) :
  Spec.canonical P t d ->
  Detector.detectProject P d = Ok (Spec.static_defaults t)
  /\ In t Collector.all_types.
Proof.
  intros H. split.
  - destruct H as [t manifest content Ht Hm Honly | t content pkg deps Ht Hparse Hdeps Honly].
    + now apply canonical_python_detected.
    + now apply (canonical_node_detected P t content pkg deps).
  - destruct t; simpl; tauto.
Qed.

Lemma canonical_markers_give_defaults_witness :
  (exists r, Detector.detectProject Samples.parse Samples.flask_dir = Ok r
             /\ DetectionResult.type r = Some flask
             /\ DetectionResult.port r = 5000
             /\ DetectionResult.startCmd r = "gunicorn -w 4 -b 0.0.0.0:5000 app:app")
  /\ Detector.detectProject Samples.parse Samples.django_dir = Ok (Spec.static_defaults django)
  /\ Detector.detectProject Samples.parse Samples.fastapi_dir = Ok (Spec.static_defaults fastapi)
  /\ Detector.detectProject Samples.parse (Samples.package_dir Samples.nest_package)
     = Ok (Spec.static_defaults nestjs)
  /\ Detector.detectProject Samples.parse Samples.next_dir = Ok (Spec.static_defaults nextjs)
  /\ Detector.detectProject Samples.parse (Samples.package_dir Samples.nuxt_package)
     = Ok (Spec.static_defaults nuxtjs)
  /\ Detector.detectProject Samples.parse (Samples.package_dir Samples.vue_package)
     = Ok (Spec.static_defaults vue_spa)
  /\ Detector.detectProject Samples.parse (Samples.package_dir Samples.react_package)
     = Ok (Spec.static_defaults react_spa).
Proof.
  assert (Hpython : forall t manifest content,
             Spec.only (Spec.names (Js.toLowerCase content)) Spec.python_types t = true ->
             In t Spec.python_types ->
             In manifest ["requirements.txt"; "pyproject.toml"] ->
             Detector.detectProject Samples.parse (Fs.Dir [(manifest, Fs.File content)])
             = Ok (Spec.static_defaults t)).
  { intros t manifest content Honly Ht Hm.
    apply (proj1 (canonical_markers_give_defaults Samples.parse t _
                    (Spec.canonical_python Samples.parse t manifest content Ht Hm Honly))). }
  assert (Hnode : forall t package pkg deps,
             Samples.parse package = Ok pkg -> Detector.allDeps pkg = Ok deps ->
             Spec.only (Spec.marks deps) Spec.node_types t = true ->
             In t Spec.node_types ->
             Detector.detectProject Samples.parse (Samples.package_dir package)
             = Ok (Spec.static_defaults t)).
  { intros t package pkg deps Hparse Hdeps Honly Ht.
    apply (proj1 (canonical_markers_give_defaults Samples.parse t _
                    (Spec.canonical_node Samples.parse t package pkg deps
                       Ht Hparse Hdeps Honly))). }
  split; [| split; [| split; [| split; [| split; [| split; [| split]]]]]].
  - exists (Spec.static_defaults flask). split; [| repeat split].
    apply Hpython; [reflexivity | simpl; tauto | simpl; tauto].
  - apply Hpython; [reflexivity | simpl; tauto | simpl; tauto].
  - apply Hpython; [reflexivity | simpl; tauto | simpl; tauto].
  - eapply Hnode; [reflexivity | reflexivity | reflexivity | simpl; tauto].
  - eapply Hnode; [reflexivity | reflexivity | reflexivity | simpl; tauto].
  - eapply Hnode; [reflexivity | reflexivity | reflexivity | simpl; tauto].
  - eapply Hnode; [reflexivity | reflexivity | reflexivity | simpl; tauto].
  - eapply Hnode; [reflexivity | reflexivity | reflexivity | simpl; tauto].
Defined.

(** ** Reads that do not depend on an entry *)

Lemma lookup_entry_with_entry (name : string) (n : Fs.node) (first : string)
    (entries : list (string * Fs.node)) :
  first <> name ->
  Fs.lookup_entry first (map (fun e => if String.eqb (fst e) name then (fst e, n) else e) entries)
  = Fs.lookup_entry first entries.
Proof.
  intros Hne. unfold Fs.lookup_entry. induction entries as [|[k v] entries IH]; simpl.
  - reflexivity.
  - destruct (String.eqb_spec k name) as [->|Hk]; simpl.
    + apply String.eqb_neq in Hne. rewrite String.eqb_sym in Hne. now rewrite Hne.
    + destruct (String.eqb k first); [reflexivity | exact IH].
Qed.

Lemma resolve_with_entry (name : string) (n d : Fs.node) (first : string) (rest : list string) :
  first <> name ->
  Fs.resolve (Fs.with_entry name n d) (first :: rest) = Fs.resolve d (first :: rest).
Proof.
  intros Hne. destruct d as [c|entries]; simpl; [reflexivity |].
  now rewrite lookup_entry_with_entry.
Qed.

Lemma existsSync_with_entry (name : string) (n d : Fs.node) (segments : list string)
    (first : string) (rest : list string) :
  Fs.join segments = first :: rest -> first <> name ->
  Fs.existsSync (Fs.with_entry name n d) segments = Fs.existsSync d segments.
Proof.
  intros Hjoin Hne. unfold Fs.existsSync. now rewrite Hjoin, resolve_with_entry.
Qed.

Lemma readFileSync_with_entry (name : string) (n d : Fs.node) (segments : list string)
    (first : string) (rest : list string) :
  Fs.join segments = first :: rest -> first <> name ->
  Fs.readFileSync (Fs.with_entry name n d) segments = Fs.readFileSync d segments.
Proof.
  intros Hjoin Hne. unfold Fs.readFileSync. now rewrite Hjoin, resolve_with_entry.
Qed.

Lemma readdirSync_with_entry (name : string) (n d : Fs.node) :
  Fs.readdirSync (Fs.with_entry name n d) = Fs.readdirSync d.
Proof.
  destruct d as [c|entries]; simpl; [reflexivity |].
  f_equal. rewrite map_map. apply map_ext. intros [k v]. simpl.
  now destruct (String.eqb k name).
Qed.

(** Rewrites every read of a path whose first component is a literal
    other than the replaced entry. *)
Ltac same_read :=
  unfold Fs.existsSync, Fs.readFileSync;
  repeat match goal with
         | |- context [Fs.join ?segments] =>
             let path := eval vm_compute in (Fs.join segments) in
             change (Fs.join segments) with path
         end;
  rewrite ?resolve_with_entry by discriminate.

Lemma parseEnvKeys_with_entry (n d : Fs.node) (f : string) :
  Detector.is_env_file f = true ->
  Detector.parseEnvKeys (Fs.with_entry "package.json" n d) f = Detector.parseEnvKeys d f.
Proof.
  intros Hf. unfold Detector.parseEnvKeys.
  destruct (is_env_file_cases _ Hf) as [->| [->| ->]]; now same_read.
Qed.

Lemma detectPythonFramework_with_entry (n d : Fs.node) (files : list string) :
  Detector.detectPythonFramework (Fs.with_entry "package.json" n d) files
  = Detector.detectPythonFramework d files.
Proof. unfold Detector.detectPythonFramework. now same_read. Qed.

Lemma applyDefaults_with_entry (n d : Fs.node) (type : option ProjectType) :
  Detector.applyDefaults (Fs.with_entry "package.json" n d) type = Detector.applyDefaults d type.
Proof. unfold Detector.applyDefaults. now same_read. Qed.

Lemma detectPort_python_with_entry (n d : Fs.node) :
  Detector.detectPort (Fs.with_entry "package.json" n d) (Some python)
  = Detector.detectPort d (Some python).
Proof.
  unfold Detector.detectPort. cbn [Detector.candidates Detector.scan_files].
  now same_read.
Qed.

Lemma detectLanguage_python P (d : Fs.node) (files : list string) :
  Spec.python_marked files = true ->
  Detector.detectLanguage P d files
  = (t <-! Detector.detectPythonFramework d files; Ok (Some python, "3.11", t)).
Proof. unfold Spec.python_marked, Detector.detectLanguage. now intros ->. Qed.

Lemma python_branch_ignores_package_json P P' (n d : Fs.node) (files : list string) :
  Fs.readdirSync d = Ok files ->
  Spec.python_marked files = true ->
  Detector.detectProject P' (Fs.with_entry "package.json" n d) = Detector.detectProject P d.
Proof.
  intros Hfiles Hpy. unfold Detector.detectProject.
  rewrite readdirSync_with_entry, Hfiles. cbn [rbind].
  rewrite !(detectLanguage_python _ _ _ Hpy), detectPythonFramework_with_entry.
  rewrite (existsSync_with_entry "package.json" n d [".github"; "workflows"]
             ".github" ["workflows"] eq_refl) by discriminate.
  assert (Henv : match find Detector.is_env_file files with
                 | Some f => Detector.parseEnvKeys (Fs.with_entry "package.json" n d) f
                 | None => Ok []
                 end
                 = match find Detector.is_env_file files with
                   | Some f => Detector.parseEnvKeys d f
                   | None => Ok []
                   end).
  { destruct (find Detector.is_env_file files) as [f|] eqn:Hfind; [| reflexivity].
    apply parseEnvKeys_with_entry. now apply find_some in Hfind. }
  rewrite Henv.
  destruct (match find Detector.is_env_file files with
            | Some f => Detector.parseEnvKeys d f
            | None => Ok []
            end) as [envKeys|e]; [| reflexivity].
  cbn [rbind].
  destruct (Detector.detectPythonFramework d files) as [type|e]; [| reflexivity].
  cbn [rbind]. rewrite applyDefaults_with_entry, detectPort_python_with_entry.
  reflexivity.
Qed.

(** ** A directory of regular files is detected without exception *)

Lemma lookup_entry_In (name : string) (entries : list (string * Fs.node)) :
  In name (map fst entries) -> exists n, Fs.lookup_entry name entries = Some n.
Proof.
  unfold Fs.lookup_entry. induction entries as [|[k v] entries IH]; simpl; [intros [] |].
  intros [->|Hin].
  - rewrite String.eqb_refl. now exists v.
  - destruct (String.eqb k name); [now exists v | now apply IH].
Qed.

Lemma lookup_entry_file (name : string) (entries : list (string * Fs.node)) (n : Fs.node) :
  forallb (fun e => match snd e with Fs.File _ => true | Fs.Dir _ => false end) entries = true ->
  Fs.lookup_entry name entries = Some n -> exists c, n = Fs.File c.
Proof.
  unfold Fs.lookup_entry. induction entries as [|[k v] entries IH]; simpl; [discriminate |].
  intros Hall. apply andb_true_iff in Hall as [Hv Hall].
  destruct (String.eqb k name); simpl.
  - intros [= <-]. destruct v as [c|]; [now exists c | discriminate].
  - now apply IH.
Qed.

Lemma read_regular (d : Fs.node) (segment name : string) :
  Spec.all_files d = true -> Fs.join [segment] = [name] ->
  Fs.existsSync d [segment] = true -> exists c, Fs.readFileSync d [segment] = Ok c.
Proof.
  unfold Fs.existsSync, Fs.readFileSync. intros Hall ->.
  destruct d as [c|entries]; [discriminate |]. simpl.
  destruct (Fs.lookup_entry name entries) as [n|] eqn:Hn; [| discriminate].
  destruct (lookup_entry_file _ _ _ Hall Hn) as [c ->]. intros _. now exists c.
Qed.

Lemma listed_exists (d : Fs.node) (files : list string) (name : string) :
  Fs.readdirSync d = Ok files -> Fs.join [name] = [name] -> In name files ->
  Fs.existsSync d [name] = true.
Proof.
  unfold Fs.existsSync. intros Hfiles -> Hin.
  destruct d as [c|entries]; [discriminate |]. injection Hfiles as <-.
  destruct (lookup_entry_In _ _ Hin) as [n Hn]. simpl. now rewrite Hn.
Qed.

Lemma scan_files_total (d : Fs.node) (files : list string) :
  (forall f, In f files -> Fs.existsSync d [f] = true -> exists c, Fs.readFileSync d [f] = Ok c) ->
  exists p, Detector.scan_files d files = Ok p.
Proof.
  induction files as [|f files IH]; cbn [Detector.scan_files]; intros H; [now exists None |].
  destruct (Fs.existsSync d [f]) eqn:Hex; cbn [negb].
  - destruct (H f (or_introl eq_refl) Hex) as [c ->]. cbn [rbind].
    destruct (Detector.scan_patterns Detector.portPatterns c) as [p|]; [now exists (Some p) |].
    apply IH. intros g Hg. apply H. now right.
  - apply IH. intros g Hg. apply H. now right.
Qed.

Lemma detectPort_python_total (d : Fs.node) :
  Spec.all_files d = true -> exists p, Detector.detectPort d (Some python) = Ok p.
Proof.
  intros Hall. apply scan_files_total. intros f Hf. simpl in Hf.
  repeat (destruct Hf as [<-|Hf];
          [intros Hex; eapply read_regular; [exact Hall | reflexivity | exact Hex] |]).
  destruct Hf.
Qed.

Lemma applyDefaults_total (d : Fs.node) (type : option ProjectType) :
  Spec.all_files d = true -> exists seeded, Detector.applyDefaults d type = Ok seeded.
Proof.
  intros Hall. unfold Detector.applyDefaults. destruct type as [t|]; [| eauto].
  destruct (decide (t = flask)); [| eauto].
  destruct (Fs.existsSync d ["run.py"]) eqn:Hex; [| eauto].
  destruct (read_regular d "run.py" "run.py" Hall eq_refl Hex) as [c ->]. simpl.
  destruct (Js.includes "create_app" c); eauto.
Qed.

Lemma detectPythonFramework_total (d : Fs.node) (files : list string) :
  Fs.readdirSync d = Ok files -> Spec.all_files d = true ->
  exists type, Detector.detectPythonFramework d files = Ok type.
Proof.
  intros Hfiles Hall. unfold Detector.detectPythonFramework.
  assert (Hread : forall name, Fs.join [name] = [name] -> Js.array_includes name files = true ->
                               exists c, Fs.readFileSync d [name] = Ok c).
  { intros name Hjoin Hin. apply (read_regular d name name Hall Hjoin).
    apply (listed_exists d files name Hfiles Hjoin). now apply array_includes_In. }
  assert (Hcascade : forall deps, exists type,
    (if Js.includes "fastapi" deps then Ok (Some fastapi)
     else if Js.includes "django" deps then Ok (Some django)
     else if Js.includes "flask" deps then Ok (Some flask)
     else if Js.array_includes "manage.py" files then Ok (Some django)
     else if Js.array_includes "app.py" files then Ok (Some flask)
     else if Js.array_includes "main.py" files then Ok (Some fastapi)
     else Ok None) = Ok type).
  { intros deps.
    repeat match goal with |- context [if ?b then _ else _] => destruct b; eauto end. }
  destruct (Js.array_includes "requirements.txt" files) eqn:Hreq.
  - destruct (Hread "requirements.txt" eq_refl Hreq) as [c ->]. apply Hcascade.
  - destruct (Js.array_includes "pyproject.toml" files) eqn:Hpy.
    + destruct (Hread "pyproject.toml" eq_refl Hpy) as [c ->]. apply Hcascade.
    + apply Hcascade.
Qed.

Lemma python_branch_total P (d : Fs.node) (files : list string) :
  Fs.readdirSync d = Ok files -> Spec.all_files d = true -> Spec.python_marked files = true ->
  exists r, Detector.detectProject P d = Ok r.
Proof.
  intros Hfiles Hall Hpy. unfold Detector.detectProject. rewrite Hfiles. cbn [rbind].
  assert (Henv : exists envKeys,
             match find Detector.is_env_file files with
             | Some f => Detector.parseEnvKeys d f
             | None => Ok []
             end = Ok envKeys).
  { destruct (find Detector.is_env_file files) as [f|] eqn:Hfind; [| eauto].
    apply find_some in Hfind as [Hin Hf]. unfold Detector.parseEnvKeys.
    assert (Hjoin : Fs.join [f] = [f])
      by (destruct (is_env_file_cases _ Hf) as [->| [->| ->]]; reflexivity).
    destruct (read_regular d f f Hall Hjoin (listed_exists d files f Hfiles Hjoin Hin)) as [c ->].
    simpl. eauto. }
  destruct Henv as [envKeys ->]. cbn [rbind].
  rewrite (detectLanguage_python _ _ _ Hpy).
  destruct (detectPythonFramework_total d files Hfiles Hall) as [type ->]. cbn [rbind].
  destruct (applyDefaults_total d type Hall) as [seeded ->]. cbn [rbind].
  destruct (detectPort_python_total d Hall) as [p ->]. cbn [rbind]. eauto.
Qed.

(** C3.  In a directory whose listing holds a Python marker
    ([requirements.txt], [pyproject.toml] or [Pipfile]) and
    [package.json], a detection that returns has language python and
    the archetype given by the Python rules: the Python markers are
    tested first and the Node branch is the [else] of that test.
    [package.json] is never consulted: the outcome, exceptions
    included, is the same whatever the parser and whatever stands under
    the name [package.json]; and when the top-level entries are regular
    files the detection does return. *)
Theorem python_markers_checked_first P (d : Fs.node) (files : list string) (marker : string) :
  Fs.readdirSync d = Ok files ->
  In marker ["requirements.txt"; "pyproject.toml"; "Pipfile"] ->
  Js.array_includes marker files = true ->
  Js.array_includes "package.json" files = true ->
  (forall r, Detector.detectProject P d = Ok r ->
             DetectionResult.language r = Some python
             /\ DetectionResult.languageVersion r = "3.11"
             /\ Detector.detectPythonFramework d files = Ok (DetectionResult.type r))
  /\ (forall P' n,
        Detector.detectProject P' (Fs.with_entry "package.json" n d) = Detector.detectProject P d)
  /\ (Spec.all_files d = true -> exists r, Detector.detectProject P d = Ok r).
Proof.
  intros Hfiles Hmarker Hreq Hpkg.
  assert (Hpy : Spec.python_marked files = true).
  { unfold Spec.python_marked.
    destruct Hmarker as [<-|[<-|[<-|[]]]]; rewrite Hreq; now rewrite ?orb_true_r. }
  split; [| split].
  - intros r Hr.
    apply detectProject_inv in Hr
      as (files' & envKeys & language & version & type & seeded & dp
          & Hfiles' & _ & Hlang & _ & _ & ->).
    rewrite Hfiles in Hfiles'. injection Hfiles' as <-.
    rewrite (detectLanguage_python _ _ _ Hpy) in Hlang.
    apply rbind_Ok in Hlang as (t & Ht & Heq). injection Heq as <- <- <-.
    simpl. auto.
  - intros P' n. now apply python_branch_ignores_package_json with (files := files).
  - intros Hall. now apply python_branch_total with (files := files).
Qed.

Lemma python_markers_checked_first_witness :
  exists r,
    Detector.detectProject Samples.parse Samples.mixed_dir = Ok r
    /\ DetectionResult.language r = Some python
    /\ DetectionResult.type r = Some django.
Proof.
  destruct (python_markers_checked_first Samples.parse Samples.mixed_dir
              ["package.json"; "requirements.txt"; "manage.py"] "requirements.txt"
              eq_refl (or_introl eq_refl) eq_refl eq_refl)
    as (Hbranch & _ & Htotal).
  destruct (Htotal eq_refl) as [r Hr]. exists r.
  destruct (Hbranch r Hr) as (Hlang & _ & Htype).
  split; [exact Hr |]. split; [exact Hlang |].
  assert (Hrules : Detector.detectPythonFramework Samples.mixed_dir
                     ["package.json"; "requirements.txt"; "manage.py"] = Ok (Some django))
    by reflexivity.
  rewrite Hrules in Htype. now injection Htype as <-.
Defined.

(** ** Manifest content before file names *)

Lemma detectProject_python_type P (d : Fs.node) (files : list string) (r : DetectionResult.t)
    (type : option ProjectType) :
  Fs.readdirSync d = Ok files ->
  Spec.python_marked files = true ->
  Detector.detectPythonFramework d files = Ok type ->
  Detector.detectProject P d = Ok r ->
  DetectionResult.type r = type.
Proof.
  intros Hfiles Hpy Htype Hr.
  apply detectProject_inv in Hr
    as (files' & envKeys & language & version & type' & seeded & dp
        & Hfiles' & _ & Hlang & _ & _ & ->).
  rewrite Hfiles in Hfiles'. injection Hfiles' as <-.
  rewrite (detectLanguage_python _ _ _ Hpy), Htype in Hlang.
  now injection Hlang as <- <- <-.
Qed.

(** C4, as amended.  When [requirements.txt], lower-cased, holds
    [flask] and neither [fastapi] nor [django], the archetype is flask
    whether or not [app.py] is listed; when it holds none of [fastapi],
    [django], [flask] and the listing holds [manage.py], the archetype
    is django. *)
Theorem manifest_before_file_names P (d : Fs.node) (files : list string) (content : string) :
  Fs.readdirSync d = Ok files ->
  Js.array_includes "requirements.txt" files = true ->
  Fs.readFileSync d ["requirements.txt"] = Ok content ->
  Js.includes "fastapi" (Js.toLowerCase content) = false ->
  Js.includes "django" (Js.toLowerCase content) = false ->
  (Js.includes "flask" (Js.toLowerCase content) = true ->
   Detector.detectPythonFramework d files = Ok (Some flask)
   /\ forall r, Detector.detectProject P d = Ok r -> DetectionResult.type r = Some flask)
  /\ (Js.includes "flask" (Js.toLowerCase content) = false ->
      Js.array_includes "manage.py" files = true ->
      Detector.detectPythonFramework d files = Ok (Some django)
      /\ forall r, Detector.detectProject P d = Ok r -> DetectionResult.type r = Some django).
Proof.
  intros Hfiles Hreq Hread Hfastapi Hdjango.
  assert (Hpy : Spec.python_marked files = true) by (unfold Spec.python_marked; now rewrite Hreq).
  split.
  - intros Hflask.
    assert (Hfw : Detector.detectPythonFramework d files = Ok (Some flask)).
    { unfold Detector.detectPythonFramework. rewrite Hreq, Hread. cbn [rbind].
      now rewrite Hfastapi, Hdjango, Hflask. }
    split; [exact Hfw |]. intros r. now apply detectProject_python_type with (files := files).
  - intros Hflask Hmanage.
    assert (Hfw : Detector.detectPythonFramework d files = Ok (Some django)).
    { unfold Detector.detectPythonFramework. rewrite Hreq, Hread. cbn [rbind].
      now rewrite Hfastapi, Hdjango, Hflask, Hmanage. }
    split; [exact Hfw |]. intros r. now apply detectProject_python_type with (files := files).
Qed.

Lemma manifest_before_file_names_witness :
  (Js.array_includes "app.py" ["requirements.txt"] = false
   /\ Detector.detectPythonFramework Samples.flask_dir ["requirements.txt"] = Ok (Some flask))
  /\ Detector.detectPythonFramework Samples.manage_dir ["manage.py"; "requirements.txt"]
     = Ok (Some django).
Proof.
  split; [split; [reflexivity |] |].
  - apply (proj1 (manifest_before_file_names Samples.parse Samples.flask_dir
                    ["requirements.txt"] "Flask==2.3" eq_refl eq_refl eq_refl eq_refl eq_refl)).
    reflexivity.
  - apply (proj2 (manifest_before_file_names Samples.parse Samples.manage_dir
                    ["manage.py"; "requirements.txt"] "requests==2.31"
                    eq_refl eq_refl eq_refl eq_refl eq_refl)); reflexivity.
Defined.

(** C4 as stated fails: a [requirements.txt] that holds [flask] and also
    [fastapi] is detected as fastapi, not flask. *)
Lemma flask_manifest_counterexample :
  Fs.readFileSync Samples.two_frameworks_dir ["requirements.txt"] = Ok Samples.two_frameworks
  /\ Js.includes "flask" (Js.toLowerCase Samples.two_frameworks) = true
  /\ Detector.detectPythonFramework Samples.two_frameworks_dir ["requirements.txt"]
     = Ok (Some fastapi)
  /\ exists r, Detector.detectProject Samples.parse Samples.two_frameworks_dir = Ok r
               /\ DetectionResult.type r = Some fastapi
               /\ DetectionResult.type r <> Some flask.
Proof.
  repeat split; try reflexivity.
  eexists. split; [vm_compute; reflexivity |]. split; [reflexivity | discriminate].
Qed.

(** ** The Flask application factory *)

(** C5.  In a detection that returns, the start command is rewritten to
    [... run:app] and the entry file to [run.py] if and only if the
    archetype is flask, [run.py] exists and its content holds
    [create_app]; otherwise the start command and the entry file are
    those the detection started from, untouched. *)
Theorem flask_factory_refinement P (d : Fs.node) (r : DetectionResult.t) :
  Detector.detectProject P d = Ok r ->
  (Spec.refined r <-> DetectionResult.type r = Some flask /\ Spec.factory_found d)
  /\ (~ (DetectionResult.type r = Some flask /\ Spec.factory_found d) ->
      DetectionResult.startCmd r = Defaults.startCmd (Spec.seed (DetectionResult.type r))
      /\ DetectionResult.entryFile r = Defaults.entryFile (Spec.seed (DetectionResult.type r))).
Proof.
  intros Hr.
  apply detectProject_inv in Hr
    as (files & envKeys & language & version & type & seeded & dp & _ & _ & _ & Hseed & _ & ->).
  unfold Spec.refined, Spec.factory_found. cbn [DetectionResult.startCmd DetectionResult.entryFile
                                                DetectionResult.type].
  unfold Detector.applyDefaults in Hseed.
  destruct type as [t|]; [| injection Hseed as <-; simpl; split; [split |]; intros; intuition discriminate].
  destruct (decide (t = flask)) as [->|Hne].
  - destruct (Fs.existsSync d ["run.py"]) eqn:Hex.
    + apply rbind_Ok in Hseed as (content & Hread & Hseed).
      destruct (Js.includes "create_app" content) eqn:Hinc; injection Hseed as <-; simpl.
      * split; [split; [intros _ | intros _; split; reflexivity] |].
        -- split; [reflexivity |]. split; [reflexivity |]. now exists content.
        -- intros Hnot. exfalso. apply Hnot. split; [reflexivity |].
           split; [reflexivity |]. now exists content.
      * split; [split |]; [intros [Hcmd _]; discriminate | | intros _; split; reflexivity].
        intros (_ & _ & content' & Hread' & Hinc'). congruence.
    + injection Hseed as <-. simpl.
      split; [split |]; [intros [Hcmd _]; discriminate | | intros _; split; reflexivity].
      intros (_ & Hex' & _). discriminate.
  - injection Hseed as <-.
    split; [split |]; [| intros [Ht _]; congruence | intros _; split; reflexivity].
    intros [_ Hentry]. destruct t; discriminate.
Qed.

Lemma flask_factory_refinement_witness :
  (exists r, Detector.detectProject Samples.parse Samples.factory_dir = Ok r /\ Spec.refined r)
  /\ (exists r, Detector.detectProject Samples.parse Samples.plain_run_dir = Ok r
                /\ DetectionResult.startCmd r = "gunicorn -w 4 -b 0.0.0.0:5000 app:app"
                /\ DetectionResult.entryFile r = "app.py").
Proof.
  split.
  - destruct (Detector.detectProject Samples.parse Samples.factory_dir) as [r|e] eqn:Hrun;
      [| vm_compute in Hrun; discriminate].
    exists r. split; [reflexivity |].
    apply (proj1 (flask_factory_refinement Samples.parse Samples.factory_dir r Hrun)).
    vm_compute in Hrun. injection Hrun as <-.
    split; [reflexivity |]. split; [reflexivity |].
    exists "app = create_app()". split; reflexivity.
  - destruct (Detector.detectProject Samples.parse Samples.plain_run_dir) as [r|e] eqn:Hrun;
      [| vm_compute in Hrun; discriminate].
    exists r. split; [reflexivity |].
    destruct (proj2 (flask_factory_refinement Samples.parse Samples.plain_run_dir r Hrun))
      as [Hcmd Hentry].
    + intros (_ & _ & content & Hread & Hinc). vm_compute in Hread.
      injection Hread as <-. discriminate.
    + vm_compute in Hrun. injection Hrun as <-. split; reflexivity.
Defined.

(** ** The port scan *)

Section Boundary.

(** The text after the boundary starts with a character [x] that no
    class of the pattern accepts. *)
Variable x : ascii.
Variable t : string.

Lemma repeat_choices_boundary (p : ascii -> bool) (lo n : nat) (taken u : string) :
  p x = false ->
  Regex.repeat_choices p lo n taken (String.append u (String x t))
  = map (fun tr => (fst tr, String.append (snd tr) (String x t))) (Regex.repeat_choices p lo n taken u).
Proof.
  intros Hx. revert taken u. induction n as [|n IH]; intros taken u.
  - simpl. destruct (lo <=? String.length taken)%nat; reflexivity.
  - destruct u as [|c u]; simpl.
    + rewrite Hx. destruct (lo <=? String.length taken)%nat; reflexivity.
    + destruct (p c).
      * rewrite IH, map_app.
        destruct (lo <=? String.length taken)%nat; reflexivity.
      * destruct (lo <=? String.length taken)%nat; reflexivity.
Qed.

Lemma repeat_choices_enough (p : ascii -> bool) (lo n : nat) (taken s : string) :
  (String.length s <= n)%nat ->
  Regex.repeat_choices p lo n taken s
  = Regex.repeat_choices p lo (String.length s) taken s.
Proof.
  revert n taken. induction s as [|c s IH]; intros n taken Hn.
  - destruct n; reflexivity.
  - destruct n as [|n]; [simpl in Hn; lia |]. simpl.
    destruct (p c); [| reflexivity]. rewrite IH by (simpl in Hn; lia). reflexivity.
Qed.

Lemma length_append (u v : string) :
  String.length (String.append u v) = (String.length u + String.length v)%nat.
Proof. induction u as [|c u IH]; simpl; [reflexivity | now rewrite IH]. Qed.

Lemma atom_choices_boundary (ci : bool) (a : Regex.atom) (u : string) :
  Spec.blind x a ->
  Regex.atom_choices ci a (String.append u (String x t))
  = map (fun rc => (String.append (fst rc) (String x t), snd rc)) (Regex.atom_choices ci a u).
Proof.
  destruct a as [l|p|p|p|lo hi p]; cbn [Spec.blind Regex.atom_choices]; intros Hx;
    [destruct Hx | | | |].
  - rewrite repeat_choices_boundary by assumption.
    rewrite (repeat_choices_enough p 0 (String.length (String.append u (String x t))))
      by (rewrite length_append; lia).
    rewrite !map_map. reflexivity.
  - destruct u as [|c u]; simpl; [now rewrite Hx |]. now destruct (p c).
  - rewrite repeat_choices_boundary by assumption. rewrite !map_map. reflexivity.
  - rewrite repeat_choices_boundary by assumption. rewrite !map_map. reflexivity.
Qed.

Lemma first_success_map {A B C : Type} (g : A -> B) (f : B -> option C) (xs : list A) :
  Regex.first_success f (map g xs) = Regex.first_success (fun a => f (g a)) xs.
Proof. induction xs as [|a xs IH]; simpl; [reflexivity | now rewrite IH]. Qed.

Lemma first_success_ext {A B : Type} (f g : A -> option B) (xs : list A) :
  (forall a, f a = g a) -> Regex.first_success f xs = Regex.first_success g xs.
Proof. intros H. induction xs as [|a xs IH]; simpl; [reflexivity | now rewrite H, IH]. Qed.

(** A sequence of classes that reject [x] matches the same way whether
    or not [(String x t)] follows. *)
Lemma match_here_boundary (ci : bool) (pat : list Regex.atom) (u : string) (cap : option string) :
  Forall (Spec.blind x) pat ->
  Regex.match_here ci pat (String.append u (String x t)) cap = Regex.match_here ci pat u cap.
Proof.
  intros Hpat. revert u cap. induction Hpat as [|a pat Ha Hpat IH]; intros u cap.
  - reflexivity.
  - cbn [Regex.match_here]. rewrite atom_choices_boundary by assumption.
    rewrite first_success_map. apply first_success_ext. intros [r c]. apply IH.
Qed.

End Boundary.

(** The literal [PORT] cannot straddle a boundary followed by [P]. *)
Lemma lit_PORT_boundary (u t : string) :
  u <> EmptyString ->
  Regex.lit_rest false "PORT" (String.append u (String "P" t))
  = option_map (fun r => String.append r (String "P" t)) (Regex.lit_rest false "PORT" u).
Proof.
  intros Hu.
  destruct u as [|a1 [|a2 [|a3 [|a4 u]]]]; [congruence | | | |];
    cbv [String.append]; cbn [Regex.lit_rest Regex.char_eq option_map];
    repeat match goal with
           | |- context [Ascii.eqb ?a ?b] =>
               destruct (Ascii.eqb_spec a b); try discriminate;
               cbn [Regex.lit_rest Regex.char_eq option_map]
           end;
    reflexivity.
Qed.

Lemma match_here_lit (ci : bool) (l : string) (pat : list Regex.atom) (s : string)
    (cap : option string) :
  Regex.match_here ci (Regex.Lit l :: pat) s cap
  = match Regex.lit_rest ci l s with
    | Some r => Regex.match_here ci pat r cap
    | None => None
    end.
Proof.
  cbn [Regex.match_here Regex.atom_choices].
  destruct (Regex.lit_rest ci l s) as [r|]; cbn [Regex.first_success fst snd Regex.or_capture];
    [| reflexivity].
  now destruct (Regex.match_here ci pat r cap).
Qed.

Lemma match_PORT_boundary (u t : string) :
  u <> EmptyString ->
  Regex.match_here false (Regex.atoms Regex.PORT_assign) (String.append u (String "P" t)) None
  = Regex.match_here false (Regex.atoms Regex.PORT_assign) u None.
Proof.
  intros Hu.
  change (Regex.atoms Regex.PORT_assign)
    with (Regex.Lit "PORT" :: tl (Regex.atoms Regex.PORT_assign)).
  rewrite !match_here_lit, lit_PORT_boundary by assumption.
  destruct (Regex.lit_rest false "PORT" u) as [r|]; [| reflexivity].
  cbn [option_map]. apply match_here_boundary.
  repeat constructor.
Qed.

Lemma exec_None_inv (re : Regex.regex) (c : ascii) (s : string) :
  Regex.exec re (String c s) = None ->
  Regex.match_here (Regex.ignoreCase re) (Regex.atoms re) (String c s) None = None
  /\ Regex.exec re s = None.
Proof.
  cbn [Regex.exec].
  destruct (Regex.match_here (Regex.ignoreCase re) (Regex.atoms re) (String c s) None)
    as [[g|]|]; [discriminate | discriminate | auto].
Qed.

(** Where the third pattern has no match in [pre], its leftmost match
    in [pre] followed by a text that starts with [P] is the one of that
    text. *)
Lemma exec_PORT_boundary (pre t : string) :
  Regex.exec Regex.PORT_assign pre = None ->
  Regex.exec Regex.PORT_assign (String.append pre (String "P" t))
  = Regex.exec Regex.PORT_assign (String "P" t).
Proof.
  induction pre as [|c pre IH]; intros Hpre; [reflexivity |].
  apply exec_None_inv in Hpre as [Hhere Hpre].
  change (String.append (String c pre) (String "P" t))
    with (String c (String.append pre (String "P" t))).
  cbn [Regex.exec].
  change (String c (String.append pre (String "P" t)))
    with (String.append (String c pre) (String "P" t)).
  change (Regex.ignoreCase Regex.PORT_assign) with false in *.
  rewrite match_PORT_boundary by discriminate. rewrite Hhere.
  now apply IH.
Qed.

Lemma exec_PORT_4500 (pre post : string) :
  Regex.exec Regex.PORT_assign pre = None ->
  Regex.exec Regex.PORT_assign (String.append pre (String.append Samples.PORT_4500 post))
  = Some "4500".
Proof.
  intros Hpre.
  change (String.append Samples.PORT_4500 post)
    with (String "P" (String.append (Js.drop 1 Samples.PORT_4500) post)).
  rewrite exec_PORT_boundary by assumption.
  vm_compute. reflexivity.
Qed.

Lemma scan_files_passed_over (d : Fs.node) (before rest : list string) :
  (forall f, In f before -> Spec.passed_over d f) ->
  Detector.scan_files d (before ++ rest) = Detector.scan_files d rest.
Proof.
  induction before as [|f before IH]; intros H; [reflexivity |].
  cbn [app Detector.scan_files].
  destruct (H f (or_introl eq_refl)) as [Hex | (content & Hread & Hscan)].
  - rewrite Hex. cbn [negb]. apply IH. intros g Hg. apply H. now right.
  - destruct (Fs.existsSync d [f]); cbn [negb].
    + rewrite Hread. cbn [rbind]. rewrite Hscan. apply IH. intros g Hg. apply H. now right.
    + apply IH. intros g Hg. apply H. now right.
Qed.

Lemma readFileSync_exists (d : Fs.node) (segments : list string) (content : string) :
  Fs.readFileSync d segments = Ok content -> Fs.existsSync d segments = true.
Proof.
  unfold Fs.readFileSync, Fs.existsSync.
  destruct (Fs.resolve d (Fs.join segments)); [reflexivity | discriminate].
Qed.

(** The scan stops at the first candidate, in the listed order, that
    exists and has a match. *)
Lemma scan_files_first_match (d : Fs.node) (before after : list string) (file content : string)
    (p : Z) :
  (forall f, In f before -> Spec.passed_over d f) ->
  Fs.readFileSync d [file] = Ok content ->
  Detector.scan_patterns Detector.portPatterns content = Some p ->
  Detector.scan_files d (before ++ file :: after) = Ok (Some p).
Proof.
  intros Hbefore Hread Hscan. rewrite scan_files_passed_over by assumption.
  cbn [Detector.scan_files]. rewrite (readFileSync_exists _ _ _ Hread), Hread.
  cbn [negb rbind]. now rewrite Hscan.
Qed.

(** C6, as amended.  When a candidate source file of the detected
    language holds the text [PORT = "4500"], every candidate listed
    before it is absent or has no match, the first two patterns match
    nowhere in the file and the third matches nowhere before that text,
    [detectProject] returns port 4500 in place of the default: the
    candidates are scanned in the listed order, the three patterns are
    tried in their fixed order on the whole file, and the first match
    decides. *)
Theorem port_text_first_match P (d : Fs.node) (r : DetectionResult.t)
    (before after : list string) (file pre post : string) :
  let content := String.append pre (String.append Samples.PORT_4500 post) in
  Detector.detectProject P d = Ok r ->
  Detector.candidates (DetectionResult.language r) = (before ++ file :: after)%list ->
  (forall f, In f before -> Spec.passed_over d f) ->
  Fs.readFileSync d [file] = Ok content ->
  Regex.exec Regex.port_assign content = None ->
  Regex.exec Regex.listen_call content = None ->
  Regex.exec Regex.PORT_assign pre = None ->
  DetectionResult.port r = 4500
  /\ Detector.detectPort d (DetectionResult.language r) = Ok (Some 4500).
Proof.
  intros content Hr Hcand Hbefore Hread Hfirst Hsecond Hpre.
  assert (Hscan : Detector.scan_patterns Detector.portPatterns content = Some 4500).
  { cbn [Detector.scan_patterns Detector.portPatterns]. rewrite Hfirst, Hsecond.
    unfold content. now rewrite exec_PORT_4500. }
  assert (Hport : Detector.detectPort d (DetectionResult.language r) = Ok (Some 4500)).
  { unfold Detector.detectPort. rewrite Hcand.
    now apply scan_files_first_match with (content := content). }
  split; [| exact Hport].
  apply detectProject_inv in Hr
    as (files & envKeys & language & version & type & seeded & dp & _ & _ & _ & _ & Hdp & ->).
  cbn [DetectionResult.language DetectionResult.port] in *.
  rewrite Hport in Hdp. now injection Hdp as <-.
Qed.

Lemma port_text_first_match_witness :
  exists r,
    Detector.detectProject Samples.parse Samples.port_dir = Ok r
    /\ DetectionResult.type r = Some flask
    /\ DetectionResult.port r = 4500.
Proof.
  destruct (Detector.detectProject Samples.parse Samples.port_dir) as [r|e] eqn:Hrun;
    [| vm_compute in Hrun; discriminate].
  exists r. split; [reflexivity |].
  assert (Hlang : DetectionResult.language r = Some python /\ DetectionResult.type r = Some flask)
    by (vm_compute in Hrun; injection Hrun as <-; split; reflexivity).
  destruct Hlang as [Hlang Htype]. split; [exact Htype |].
  apply (port_text_first_match Samples.parse Samples.port_dir r
           [] ["main.py"; "manage.py"; "config.py"; "settings.py"] "app.py"
           (String.append "# settings" Samples.newline) EmptyString Hrun).
  - now rewrite Hlang.
  - intros f [].
  - reflexivity.
  - reflexivity.
  - reflexivity.
  - reflexivity.
Defined.

(** C6 as stated fails: [app.py], the first candidate scanned for a
    Python project, holds the text [PORT = "4500"], and the port
    returned is the 8080 that the first pattern finds elsewhere in the
    file. *)
Lemma port_text_counterexample :
  Fs.readFileSync Samples.two_ports_dir ["app.py"]
  = Ok (String.append (String.append "port = 8080" Samples.newline)
          (String.append Samples.PORT_4500 EmptyString))
  /\ exists r,
       Detector.detectProject Samples.parse Samples.two_ports_dir = Ok r
       /\ DetectionResult.language r = Some python
       /\ hd_error (Detector.candidates (DetectionResult.language r)) = Some "app.py"
       /\ DetectionResult.port r = 8080
       /\ DetectionResult.port r <> 4500.
Proof.
  split; [reflexivity |].
  eexists. split; [vm_compute; reflexivity |].
  repeat split; try reflexivity. discriminate.
Qed.

(** ** The user-global store *)

Lemma assign_lookup_same {A : Type} (name : string) (v : A) (record : gmap string A) :
  name <> "__proto__" -> ConfigStore.assign name v record !! name = Some v.
Proof.
  intros Hname. unfold ConfigStore.assign.
  destruct (record !! name); [apply lookup_insert_eq |].
  apply String.eqb_neq in Hname. rewrite Hname. apply lookup_insert_eq.
Qed.

Lemma assign_lookup_other {A : Type} (name other : string) (v : A) (record : gmap string A) :
  other <> name -> ConfigStore.assign name v record !! other = record !! other.
Proof.
  intros Hne. unfold ConfigStore.assign.
  destruct (record !! name); [now apply lookup_insert_ne |].
  destruct (name =? "__proto__")%string; [reflexivity | now apply lookup_insert_ne].
Qed.

Lemma assign_proto {A : Type} (v : A) (record : gmap string A) :
  record !! "__proto__" = None -> ConfigStore.assign "__proto__" v record = record.
Proof. intros H. unfold ConfigStore.assign. now rewrite H. Qed.

Lemma assign_keeps {A : Type} (name label : string) (v : A) (record : gmap string A) :
  is_Some (record !! label) -> is_Some (ConfigStore.assign name v record !! label).
Proof.
  intros Hl. destruct (decide (label = name)) as [->|Hne].
  - unfold ConfigStore.assign. destruct Hl as [x Hx]. rewrite Hx, lookup_insert_eq. eauto.
  - now rewrite assign_lookup_other.
Qed.

(** What [saveServer] does on a store that has its map of servers. *)
Lemma saveServer_run (name : string) (server : ServerConfig.t) (w : World) :
  Spec.has_servers w = true ->
  exists w',
    ConfigStore.saveServer name server w = (Returned tt, w')
    /\ script w' = script w
    /\ config_file w' = Spec.with_saved name server w
    /\ GlobalConfig.servers (ConfigStore.stored w')
       = ConfigStore.assign name server (GlobalConfig.servers (ConfigStore.stored w))
    /\ GlobalConfig.projects (ConfigStore.stored w')
       = GlobalConfig.projects (ConfigStore.stored w)
    /\ Spec.has_servers w' = true.
Proof.
  unfold Spec.has_servers, Spec.with_saved, ConfigStore.saveServer, ConfigStore.stored, bind,
    ConfigStore.loadGlobalConfig, ConfigStore.saveGlobalConfig.
  destruct w as [answers [[e|[|[servers|] projects]]|]]; cbn [config_file script];
    try discriminate; intros _; eexists; repeat split.
Qed.

(** On a store without its map of servers, [saveServer] throws and
    writes nothing. *)
Lemma saveServer_throws (name : string) (server : ServerConfig.t) (w : World) :
  Spec.has_servers w = false ->
  exists e, ConfigStore.saveServer name server w = (Thrown e, w).
Proof.
  unfold Spec.has_servers, ConfigStore.saveServer, bind, ConfigStore.loadGlobalConfig, throw.
  destruct w as [answers [[e|[|[servers|] projects]]|]]; cbn [config_file script];
    try discriminate; intros _; eauto.
Qed.

(** C9, as amended.  On a store that has its map of servers (there is no store
    file yet, or the file holds an object with that map), [saveServer]
    maps a label other than [__proto__] to the given profile, replacing
    a profile saved under the same label before, and leaves the profile
    of every other label and the project history as they were; it
    returns, and takes no answer from the operator. *)
Theorem saveServer_overwrites (name : string) (server : ServerConfig.t) (w : World) :
  Spec.has_servers w = true ->
  name <> "__proto__" ->
  exists w',
    ConfigStore.saveServer name server w = (Returned tt, w')
    /\ script w' = script w
    /\ GlobalConfig.servers (ConfigStore.stored w') !! name = Some server
    /\ (forall other, other <> name ->
          GlobalConfig.servers (ConfigStore.stored w') !! other
          = GlobalConfig.servers (ConfigStore.stored w) !! other)
    /\ GlobalConfig.projects (ConfigStore.stored w')
       = GlobalConfig.projects (ConfigStore.stored w).
Proof.
  intros Hservers Hname.
  destruct (saveServer_run name server w Hservers)
    as (w' & Hrun & Hscript & _ & Hsaved & Hprojects & _).
  exists w'. split; [exact Hrun |]. split; [exact Hscript |]. rewrite Hsaved.
  split; [now apply assign_lookup_same |]. split; [| exact Hprojects].
  intros other Hne. now apply assign_lookup_other.
Qed.

Lemma saveServer_overwrites_witness :
  exists w',
    ConfigStore.saveServer "prod" Samples.new_profile (mkWorld [] (Some Samples.one_server))
    = (Returned tt, w')
    /\ GlobalConfig.servers (ConfigStore.stored (mkWorld [] (Some Samples.one_server))) !! "prod"
       = Some Samples.old_profile
    /\ GlobalConfig.servers (ConfigStore.stored w') !! "prod" = Some Samples.new_profile
    /\ GlobalConfig.servers (ConfigStore.stored w') !! "staging" = None.
Proof.
  destruct (saveServer_overwrites "prod" Samples.new_profile
              (mkWorld [] (Some Samples.one_server)) eq_refl ltac:(discriminate))
    as (w' & Hrun & _ & Hnew & Hother & _).
  exists w'. split; [exact Hrun |]. split; [reflexivity |]. split; [exact Hnew |].
  rewrite (Hother "staging") by discriminate. reflexivity.
Defined.

(** C9 as stated fails on a store file that cannot be read as a store:
    on a file that is not JSON [saveServer] throws the [SyntaxError] of
    [JSON.parse], and on a file whose object has no map of servers it
    throws a [TypeError]; in both cases nothing is written and the
    label is not mapped to the profile. *)
Lemma saveServer_counterexample :
  ConfigStore.saveServer "prod" Samples.new_profile
    (mkWorld [] (Some (StoreFile.Unreadable SyntaxError)))
  = (Thrown SyntaxError, mkWorld [] (Some (StoreFile.Unreadable SyntaxError)))
  /\ GlobalConfig.servers
       (ConfigStore.stored (mkWorld [] (Some (StoreFile.Unreadable SyntaxError)))) !! "prod"
     = None
  /\ ConfigStore.saveServer "prod" Samples.new_profile
       (mkWorld [] (Some (StoreFile.Holds (StoreFile.Object None (Some ∅)))))
     = (Thrown TypeError, mkWorld [] (Some (StoreFile.Holds (StoreFile.Object None (Some ∅)))))
  /\ ~ (forall (w : World) (name : string) (server : ServerConfig.t),
          exists w', ConfigStore.saveServer name server w = (Returned tt, w')
                     /\ GlobalConfig.servers (ConfigStore.stored w') !! name = Some server).
Proof.
  split; [reflexivity |]. split; [reflexivity |]. split; [reflexivity |].
  intros H.
  destruct (H (mkWorld [] (Some (StoreFile.Unreadable SyntaxError))) "prod" Samples.new_profile)
    as (w' & Hrun & _).
  discriminate Hrun.
Qed.

(** ** Computations over the world *)

Lemma bind_Returned_inv {A B : Type} (m : M A) (k : A -> M B) (w w' : World) (b : B) :
  bind m k w = (Returned b, w') ->
  exists a w1, m w = (Returned a, w1) /\ k a w1 = (Returned b, w').
Proof.
  unfold bind. destruct (m w) as [[a|code|e|] w1]; try discriminate. eauto.
Qed.

Lemma bind_Returned {A B : Type} (m : M A) (k : A -> M B) (w w1 : World) (a : A) :
  m w = (Returned a, w1) -> bind m k w = k a w1.
Proof. unfold bind. now intros ->. Qed.

(** Two continuations that agree wherever the first computation can
    return give the same computation. *)
Lemma bind_ext_at {A B : Type} (m : M A) (k1 k2 : A -> M B) (w : World) :
  (forall a w1, m w = (Returned a, w1) -> k1 a w1 = k2 a w1) ->
  bind m k1 w = bind m k2 w.
Proof.
  unfold bind. intros H. destruct (m w) as [[a|code|e|] w1]; try reflexivity. now apply H.
Qed.

Lemma shrinks_ret {A : Type} (a : A) : Spec.shrinks (ret a).
Proof. intros w. reflexivity. Qed.

Lemma shrinks_blocked {A : Type} : Spec.shrinks (@blocked A).
Proof. intros w. reflexivity. Qed.

Lemma shrinks_bind {A B : Type} (m : M A) (k : A -> M B) :
  Spec.shrinks m -> (forall a, Spec.shrinks (k a)) -> Spec.shrinks (bind m k).
Proof.
  intros Hm Hk w. unfold bind. specialize (Hm w).
  destruct (m w) as [[a|code|e|] w1]; simpl in *; try assumption.
  specialize (Hk a w1). lia.
Qed.

Lemma keeps_ret {A : Type} (a : A) : Spec.keeps_store (ret a).
Proof. intros w. reflexivity. Qed.

Lemma keeps_blocked {A : Type} : Spec.keeps_store (@blocked A).
Proof. intros w. reflexivity. Qed.

Lemma keeps_bind {A B : Type} (m : M A) (k : A -> M B) :
  Spec.keeps_store m -> (forall a, Spec.keeps_store (k a)) -> Spec.keeps_store (bind m k).
Proof.
  intros Hm Hk w. unfold bind. specialize (Hm w).
  destruct (m w) as [[a|code|e|] w1]; simpl in *; try assumption.
  specialize (Hk a w1). congruence.
Qed.

(** *** The prompts *)

Lemma input_from_spec (default : string) (validate : string -> bool)
    (config : option StoreFile.t) (answers : list answer) :
  config_file (snd (Prompt.input_from default validate config answers)) = config
  /\ (length (script (snd (Prompt.input_from default validate config answers)))
      <= length answers)%nat
  /\ forall v w', Prompt.input_from default validate config answers = (Returned v, w') ->
                  (length (script w') < length answers)%nat /\ validate v = true.
Proof.
  induction answers as [|a answers IH]; cbn [Prompt.input_from].
  - split; [reflexivity |]. split; [reflexivity |]. intros v w' H. discriminate.
  - destruct IH as (IH1 & IH2 & IH3).
    destruct (match a with
              | Accept => Some default
              | Text s => Some (if Js.truthy_string s then s else default)
              | _ => None
              end) as [v|].
    + destruct (validate v) eqn:Hv.
      * split; [reflexivity |]. split; [simpl; lia |].
        intros v' w' [= <- <-]. split; [simpl; lia | assumption].
      * split; [exact IH1 |]. split; [simpl; lia |].
        intros v' w' H. destruct (IH3 v' w' H). split; [simpl; lia | assumption].
    + split; [reflexivity |]. split; [reflexivity |]. intros v w' H. discriminate.
Qed.

Lemma shrinks_input (default : string) (validate : string -> bool) :
  Spec.shrinks (Prompt.input default validate).
Proof. intros w. apply input_from_spec. Qed.

Lemma keeps_input (default : string) (validate : string -> bool) :
  Spec.keeps_store (Prompt.input default validate).
Proof. intros w. apply input_from_spec. Qed.

(** An entry that is not empty and that the validation accepts is the
    value of an [input] question. *)
Lemma input_Text (default : string) (validate : string -> bool) (s : string)
    (rest : list answer) (config : option StoreFile.t) :
  s <> EmptyString -> validate s = true ->
  Prompt.input default validate (mkWorld (Text s :: rest) config)
  = (Returned s, mkWorld rest config).
Proof.
  intros Hs Hv. unfold Prompt.input. cbn [script config_file Prompt.input_from].
  destruct s as [|c s]; [congruence |]. cbn [Js.truthy_string]. now rewrite Hv.
Qed.

Lemma ask_Returned_inv {A : Type} (read : answer -> option A) (w w' : World) (v : A) :
  Prompt.ask read w = (Returned v, w') ->
  exists a, script w = a :: script w' /\ read a = Some v /\ config_file w' = config_file w.
Proof.
  unfold Prompt.ask. destruct (script w) as [|a answers] eqn:Hs; [discriminate |].
  destruct (read a) as [v'|] eqn:Hread; [| discriminate].
  intros [= <- <-]. exists a. auto.
Qed.

Lemma shrinks_ask {A : Type} (read : answer -> option A) : Spec.shrinks (Prompt.ask read).
Proof.
  intros w. unfold Prompt.ask.
  destruct (script w) as [|a answers] eqn:Hs; [simpl; rewrite Hs; simpl; lia |].
  destruct (read a); simpl; rewrite ?Hs; simpl; lia.
Qed.

Lemma keeps_ask {A : Type} (read : answer -> option A) : Spec.keeps_store (Prompt.ask read).
Proof.
  intros w. unfold Prompt.ask. destruct (script w) as [|a answers]; [reflexivity |].
  now destruct (read a).
Qed.

Lemma select_Choice (choices : list string) (default : option string) (v : string)
    (rest : list answer) (config : option StoreFile.t) :
  In v choices ->
  Prompt.select choices default (mkWorld (Choice v :: rest) config)
  = (Returned v, mkWorld rest config).
Proof.
  intros Hin. unfold Prompt.select, Prompt.ask. cbn [script config_file].
  apply array_includes_In in Hin. now rewrite Hin.
Qed.

(** *** The collectors *)

Lemma shrinks_loadGlobalConfig : Spec.shrinks ConfigStore.loadGlobalConfig.
Proof.
  intros w. unfold ConfigStore.loadGlobalConfig.
  destruct (config_file w) as [[e|v]|]; cbn [snd script]; lia.
Qed.

Lemma shrinks_saveGlobalConfig (config : StoreFile.value) :
  Spec.shrinks (ConfigStore.saveGlobalConfig config).
Proof.
  intros w. unfold ConfigStore.saveGlobalConfig.
  destruct (config_file w) as [[[]|v]|]; cbn [snd script]; lia.
Qed.

Lemma shrinks_throw {A : Type} (e : error) : Spec.shrinks (@throw A e).
Proof. intros w. reflexivity. Qed.

Lemma keeps_throw {A : Type} (e : error) : Spec.keeps_store (@throw A e).
Proof. intros w. reflexivity. Qed.

Lemma keeps_loadGlobalConfig : Spec.keeps_store ConfigStore.loadGlobalConfig.
Proof.
  intros [answers [[e|v]|]]; reflexivity.
Qed.

Lemma shrinks_process_exit {A : Type} (code : Z) : Spec.shrinks (@process_exit A code).
Proof. intros w. reflexivity. Qed.

Ltac step_shrinks :=
  first
    [ apply shrinks_bind; [| intros ?]
    | apply shrinks_ret
    | apply shrinks_blocked
    | apply shrinks_process_exit
    | apply shrinks_throw
    | apply shrinks_input
    | apply shrinks_ask
    | apply shrinks_loadGlobalConfig
    | apply shrinks_saveGlobalConfig
    | match goal with
      | |- Spec.shrinks (if ?b then _ else _) => destruct b
      | |- Spec.shrinks (match ?x with _ => _ end) => destruct x
      end ].

Ltac step_keeps :=
  first
    [ apply keeps_bind; [| intros ?]
    | apply keeps_ret
    | apply keeps_blocked
    | apply keeps_throw
    | apply keeps_loadGlobalConfig
    | apply keeps_input
    | apply keeps_ask
    | match goal with
      | |- Spec.keeps_store (if ?b then _ else _) => destruct b
      | |- Spec.keeps_store (match ?x with _ => _ end) => destruct x
      end ].

Lemma shrinks_collectProjectConfig (detection : DetectionResult.t) (projectName : string) :
  Spec.shrinks (Collector.collectProjectConfig detection projectName).
Proof.
  unfold Collector.collectProjectConfig, Prompt.select, Prompt.number. repeat step_shrinks.
Qed.

Lemma shrinks_addNewServer : Spec.shrinks Collector.addNewServer.
Proof. unfold Collector.addNewServer, ConfigStore.saveServer. repeat step_shrinks. Qed.

Lemma shrinks_collectServerConfig : Spec.shrinks Collector.collectServerConfig.
Proof.
  unfold Collector.collectServerConfig, ConfigStore.getSavedServers.
  apply shrinks_bind; [repeat step_shrinks |]. intros [saved|]; [| apply shrinks_throw].
  unfold Collector.chooseServer, Prompt.select.
  destruct (0 <? length (Collector.Object_keys saved))%nat; [| apply shrinks_addNewServer].
  apply shrinks_bind; [apply shrinks_ask |]. intros choice.
  destruct (negb (choice =? "__new__")%string); [| apply shrinks_addNewServer].
  repeat step_shrinks.
Qed.

Lemma shrinks_collectDomainConfig : Spec.shrinks Collector.collectDomainConfig.
Proof. unfold Collector.collectDomainConfig, Prompt.confirm. repeat step_shrinks. Qed.

Lemma keeps_collectProjectConfig (detection : DetectionResult.t) (projectName : string) :
  Spec.keeps_store (Collector.collectProjectConfig detection projectName).
Proof.
  unfold Collector.collectProjectConfig, Prompt.select, Prompt.number. repeat step_keeps.
Qed.

Lemma keeps_collectDomainConfig : Spec.keeps_store Collector.collectDomainConfig.
Proof. unfold Collector.collectDomainConfig, Prompt.confirm. repeat step_keeps. Qed.

Lemma keeps_collectSecrets (envKeys : list string) :
  Spec.keeps_store (Collector.collectSecrets envKeys).
Proof. unfold Collector.collectSecrets, Prompt.checkbox. repeat step_keeps. Qed.

Lemma keeps_collectBranchConfig : Spec.keeps_store Collector.collectBranchConfig.
Proof. unfold Collector.collectBranchConfig, Prompt.confirm. repeat step_keeps. Qed.

(** *** Collecting the server *)

Lemma Object_keys_In (saved : gmap string ServerConfig.t) (label : string)
    (profile : ServerConfig.t) :
  saved !! label = Some profile -> In label (Collector.Object_keys saved).
Proof.
  intros Hlookup. unfold Collector.Object_keys. apply in_map_iff.
  exists (label, profile). split; [reflexivity |].
  apply list_elem_of_In. now apply elem_of_map_to_list.
Qed.

(** C10, as amended.  When the operator selects a saved profile whose
    label is not [__new__] and enters another deploy directory, the
    server section returned is that profile with the directory
    entered, and the store is left as it was: the label still maps to
    the profile with its original deploy directory. *)
Theorem existing_profile_override_not_saved (w : World) (label dir : string)
    (profile : ServerConfig.t) (rest : list answer) :
  GlobalConfig.servers (ConfigStore.stored w) !! label = Some profile ->
  label <> "__new__" ->
  script w = Choice label :: Text dir :: rest ->
  dir <> EmptyString ->
  exists w',
    Collector.collectServerConfig w = (Returned (Collector.with_deployDir profile dir), w')
    /\ ServerConfig.deployDir (Collector.with_deployDir profile dir) = dir
    /\ script w' = rest
    /\ config_file w' = config_file w
    /\ GlobalConfig.servers (ConfigStore.stored w') !! label = Some profile.
Proof.
  intros Hsaved Hlabel Hscript Hdir.
  exists (mkWorld rest (config_file w)).
  split; [| repeat split; assumption].
  destruct w as [answers config]. cbn [script config_file] in *. subst answers.
  set (w := mkWorld (Choice label :: Text dir :: rest) config) in *.
  set (saved := GlobalConfig.servers (ConfigStore.stored w)) in *.
  pose proof (Object_keys_In _ _ _ Hsaved) as Hin.
  assert (Hget : ConfigStore.getSavedServers w = (Returned (Some saved), w)).
  { subst saved w. destruct config as [[e | [| [servers |] projects]] |];
      first [reflexivity | exfalso; revert Hsaved; vm_compute; discriminate]. }
  assert (Hpos : (0 <? length (Collector.Object_keys saved))%nat = true)
    by (destruct (Collector.Object_keys saved); [destruct Hin | reflexivity]).
  assert (Hsel : Prompt.select (Collector.Object_keys saved ++ ["__new__"]) None w
                 = (Returned label, mkWorld (Text dir :: rest) config))
    by (apply select_Choice, in_or_app; now left).
  unfold Collector.collectServerConfig.
  rewrite (bind_Returned _ _ _ _ _ Hget). unfold Collector.chooseServer.
  cbv zeta. rewrite Hpos.
  rewrite (bind_Returned _ _ _ _ _ Hsel).
  apply String.eqb_neq in Hlabel. rewrite Hlabel. cbn [negb].
  rewrite Hsaved.
  rewrite (bind_Returned _ _ _ _ _ (input_Text _ Prompt.any dir rest config Hdir eq_refl)).
  reflexivity.
Qed.

Lemma existing_profile_override_not_saved_witness :
  exists w',
    Collector.collectServerConfig
      (mkWorld [Choice "prod"; Text "/srv/blue"; Choice "confirm"] (Some Samples.one_server))
    = (Returned (ServerConfig.mk "10.0.0.5" "deploy" "~/.ssh/id_ed25519" "/srv/blue"), w')
    /\ config_file w' = Some Samples.one_server
    /\ GlobalConfig.servers (ConfigStore.stored w') !! "prod" = Some Samples.old_profile.
Proof.
  destruct (existing_profile_override_not_saved
              (mkWorld [Choice "prod"; Text "/srv/blue"; Choice "confirm"]
                 (Some Samples.one_server))
              "prod" "/srv/blue" Samples.old_profile [Choice "confirm"])
    as (w' & Hrun & _ & _ & Hfile & Hkept).
  - reflexivity.
  - discriminate.
  - reflexivity.
  - discriminate.
  - exists w'. split; [exact Hrun |]. split; [exact Hfile | exact Hkept].
Defined.

(** C10 as stated fails for a saved profile labelled [__new__], the
    value by which the menu of collect-server stands for adding a
    server: selecting that profile takes the path of a new server.
    The next answers are read as the host, user, key path, directory
    and label of a new profile, which is returned in place of the one
    selected, and which [saveServer] writes to the store. *)
Lemma profile_labelled_new_counterexample :
  GlobalConfig.servers
    (ConfigStore.stored (mkWorld Samples.selecting_new (Some Samples.labelled_new)))
  !! "__new__" = Some Samples.old_profile
  /\ Collector.collectServerConfig (mkWorld Samples.selecting_new (Some Samples.labelled_new))
     = (Returned (ServerConfig.mk "/srv/blue" "root" "~/.ssh/id_rsa" "/opt/apps"),
        mkWorld []
          (Some (StoreFile.file_of
                   (GlobalConfig.mk
                      (<["/srv/blue" :=
                           ServerConfig.mk "/srv/blue" "root" "~/.ssh/id_rsa" "/opt/apps"]>
                         {[ "__new__" := Samples.old_profile ]}) ∅))))
  /\ ~ (forall (w : World) (label dir : string) (profile : ServerConfig.t)
               (rest : list answer),
          GlobalConfig.servers (ConfigStore.stored w) !! label = Some profile ->
          script w = Choice label :: Text dir :: rest ->
          dir <> EmptyString ->
          exists w',
            Collector.collectServerConfig w
            = (Returned (Collector.with_deployDir profile dir), w')
            /\ config_file w' = config_file w).
Proof.
  split; [reflexivity |]. split; [vm_compute; reflexivity |].
  intros H.
  destruct (H (mkWorld Samples.selecting_new (Some Samples.labelled_new))
              "__new__" "/srv/blue" Samples.old_profile [Accept; Accept; Accept; Accept]
              eq_refl eq_refl ltac:(discriminate))
    as (w' & Hrun & _).
  vm_compute in Hrun. discriminate Hrun.
Qed.

(** ** The review loop *)

Lemma select_Returned_shorter (choices : list string) (default : option string)
    (w w' : World) (v : string) :
  Prompt.select choices default w = (Returned v, w') ->
  (length (script w') < length (script w))%nat /\ config_file w' = config_file w.
Proof.
  unfold Prompt.select. intros H.
  apply ask_Returned_inv in H as (a & Hs & _ & Hc). rewrite Hs. simpl. split; [lia | exact Hc].
Qed.

(** Turns beyond the number of answers left are never taken: any two
    bounds above it give the same run. *)
Lemma review_turns_enough (detection : DetectionResult.t) (n m : nat) :
  forall (config : CollectedConfig.t) (w : World),
    (length (script w) < n)%nat -> (length (script w) < m)%nat ->
    Collector.review_turns n detection config w = Collector.review_turns m detection config w.
Proof.
  revert m. induction n as [|n IH]; intros m config w Hn Hm; [lia |].
  destruct m as [|m]; [lia |].
  cbn [Collector.review_turns]. unfold Collector.review_turn.
  apply bind_ext_at. intros action w1 Hsel.
  apply select_Returned_shorter in Hsel as [Hshort _].
  assert (Hagain : forall c w2, (length (script w2) <= length (script w1))%nat ->
                                Collector.review_turns n detection c w2
                                = Collector.review_turns m detection c w2)
    by (intros c w2 Hw2; apply IH; lia).
  repeat match goal with |- (if ?b then _ else _) _ = _ => destruct b; [reflexivity |] end.
  destruct (action =? "project")%string.
  { apply bind_ext_at. intros p w2 Hp. apply Hagain.
    pose proof (shrinks_collectProjectConfig detection
                  (ProjectConfig.name (CollectedConfig.project config)) w1) as Hs.
    now rewrite Hp in Hs. }
  destruct (action =? "server")%string.
  { apply bind_ext_at. intros s w2 Hp. apply Hagain.
    pose proof (shrinks_collectServerConfig w1) as Hs. now rewrite Hp in Hs. }
  destruct (action =? "domain")%string.
  { apply bind_ext_at. intros dm w2 Hp. apply Hagain.
    pose proof (shrinks_collectDomainConfig w1) as Hs. now rewrite Hp in Hs. }
  now apply Hagain.
Qed.

(** [reviewLoop] is the loop of its turns: the bound on the number of
    turns is always enough. *)
Lemma reviewLoop_unfold (config : CollectedConfig.t) (detection : DetectionResult.t) (w : World) :
  Collector.reviewLoop config detection w
  = Collector.review_turn (fun c => Collector.reviewLoop c detection) config detection w.
Proof.
  unfold Collector.reviewLoop at 1. cbn [Collector.review_turns]. unfold Collector.review_turn.
  apply bind_ext_at. intros action w1 Hsel.
  apply select_Returned_shorter in Hsel as [Hshort _].
  assert (Hagain : forall c w2, (length (script w2) <= length (script w1))%nat ->
                                Collector.review_turns (length (script w)) detection c w2
                                = Collector.reviewLoop c detection w2)
    by (intros c w2 Hw2; unfold Collector.reviewLoop; apply review_turns_enough; lia).
  repeat match goal with |- (if ?b then _ else _) _ = _ => destruct b; [reflexivity |] end.
  destruct (action =? "project")%string.
  { apply bind_ext_at. intros p w2 Hp. apply Hagain.
    pose proof (shrinks_collectProjectConfig detection
                  (ProjectConfig.name (CollectedConfig.project config)) w1) as Hs.
    now rewrite Hp in Hs. }
  destruct (action =? "server")%string.
  { apply bind_ext_at. intros s w2 Hp. apply Hagain.
    pose proof (shrinks_collectServerConfig w1) as Hs. now rewrite Hp in Hs. }
  destruct (action =? "domain")%string.
  { apply bind_ext_at. intros dm w2 Hp. apply Hagain.
    pose proof (shrinks_collectDomainConfig w1) as Hs. now rewrite Hp in Hs. }
  now apply Hagain.
Qed.

(** No turn of the loop touches the secrets, the branches or the
    registry. *)
Lemma review_turns_frame (detection : DetectionResult.t) (n : nat) :
  forall (config config' : CollectedConfig.t) (w w' : World),
    Collector.review_turns n detection config w = (Returned config', w') ->
    CollectedConfig.secrets config' = CollectedConfig.secrets config
    /\ CollectedConfig.branches config' = CollectedConfig.branches config
    /\ CollectedConfig.registry config' = CollectedConfig.registry config.
Proof.
  induction n as [|n IH]; intros config config' w w' H; [discriminate |].
  cbn [Collector.review_turns] in H. unfold Collector.review_turn in H.
  apply bind_Returned_inv in H as (action & w1 & _ & H).
  destruct (action =? "confirm")%string; [injection H as <- <-; auto |].
  destruct (action =? "cancel")%string; [discriminate |].
  destruct (action =? "project")%string;
    [apply bind_Returned_inv in H as (p & w2 & _ & H); now apply IH in H |].
  destruct (action =? "server")%string;
    [apply bind_Returned_inv in H as (s & w2 & _ & H); now apply IH in H |].
  destruct (action =? "domain")%string;
    [apply bind_Returned_inv in H as (dm & w2 & _ & H); now apply IH in H |].
  now apply IH in H.
Qed.

(** C7.  In the review loop, [server] then [confirm] returns the
    configuration whose server section is the one just collected again,
    with the project, domain, secrets, branches and registry sections
    as they were; and whatever the operator does in the loop, a
    configuration it returns has the secrets and branches it was
    entered with. *)
Theorem review_edit_server_then_confirm (config : CollectedConfig.t)
    (detection : DetectionResult.t) (w : World) :
  (forall answers (s : ServerConfig.t) (w1 : World) rest,
      script w = Choice "server" :: answers ->
      Collector.collectServerConfig (mkWorld answers (config_file w)) = (Returned s, w1) ->
      script w1 = Choice "confirm" :: rest ->
      exists config',
        Collector.reviewLoop config detection w
        = (Returned config', mkWorld rest (config_file w1))
        /\ CollectedConfig.server config' = s
        /\ CollectedConfig.project config' = CollectedConfig.project config
        /\ CollectedConfig.domain config' = CollectedConfig.domain config
        /\ CollectedConfig.secrets config' = CollectedConfig.secrets config
        /\ CollectedConfig.branches config' = CollectedConfig.branches config
        /\ CollectedConfig.registry config' = CollectedConfig.registry config)
  /\ (forall config' w',
        Collector.reviewLoop config detection w = (Returned config', w') ->
        CollectedConfig.secrets config' = CollectedConfig.secrets config
        /\ CollectedConfig.branches config' = CollectedConfig.branches config).
Proof.
  split.
  - intros answers s w1 rest Hscript Hserver Hconfirm.
    exists (Collector.with_server config s). split; [| repeat split].
    destruct w as [answers0 file]. cbn [script config_file] in *. subst answers0.
    destruct w1 as [answers1 file1]. cbn [script config_file] in *. subst answers1.
    rewrite reviewLoop_unfold. unfold Collector.review_turn.
    rewrite (bind_Returned _ _ _ _ _
               (select_Choice Collector.review_actions None "server" answers file
                  ltac:(simpl; tauto))).
    cbn [String.eqb Ascii.eqb Bool.eqb].
    rewrite (bind_Returned _ _ _ _ _ Hserver).
    rewrite reviewLoop_unfold. unfold Collector.review_turn.
    rewrite (bind_Returned _ _ _ _ _
               (select_Choice Collector.review_actions None "confirm" rest file1
                  ltac:(simpl; tauto))).
    reflexivity.
  - intros config' w' H. unfold Collector.reviewLoop in H.
    apply review_turns_frame in H as (Hsecrets & Hbranches & _). auto.
Qed.

Lemma review_edit_server_then_confirm_witness :
  exists config' w',
    Collector.reviewLoop Samples.some_config (Spec.static_defaults flask)
      (mkWorld [Choice "server"; Choice "prod"; Text "/srv/blue"; Choice "confirm"]
         (Some Samples.one_server))
    = (Returned config', w')
    /\ CollectedConfig.server config'
       = ServerConfig.mk "10.0.0.5" "deploy" "~/.ssh/id_ed25519" "/srv/blue"
    /\ CollectedConfig.secrets config' = ["API_KEY"].
Proof.
  destruct (proj1 (review_edit_server_then_confirm Samples.some_config
                     (Spec.static_defaults flask)
                     (mkWorld [Choice "server"; Choice "prod"; Text "/srv/blue"; Choice "confirm"]
                        (Some Samples.one_server)))
              [Choice "prod"; Text "/srv/blue"; Choice "confirm"]
              (ServerConfig.mk "10.0.0.5" "deploy" "~/.ssh/id_ed25519" "/srv/blue")
              (mkWorld [Choice "confirm"] (Some Samples.one_server))
              [] eq_refl)
    as (config' & Hrun & Hserver & _ & _ & Hsecrets & _).
  - vm_compute. reflexivity.
  - reflexivity.
  - exists config', (mkWorld [] (Some Samples.one_server)).
    split; [exact Hrun |]. split; [exact Hserver | exact Hsecrets].
Defined.

(** ** A new profile and a cancelled review *)

(** [saveServer] takes no answer: what it writes does not depend on
    the script. *)
Lemma saveServer_at (name : string) (server : ServerConfig.t) (answers answers' : list answer)
    (config : option StoreFile.t) :
  Spec.has_servers (mkWorld answers config) = true ->
  ConfigStore.saveServer name server (mkWorld answers' config)
  = (Returned tt, mkWorld answers' (Spec.with_saved name server (mkWorld answers config))).
Proof.
  unfold Spec.has_servers, Spec.with_saved.
  destruct config as [[e | [| [servers |] projects]] |]; cbn [config_file];
    try discriminate; reflexivity.
Qed.

Lemma with_saved_file (label : string) (profile : ServerConfig.t) (w w' : World) :
  config_file w = config_file w' ->
  Spec.with_saved label profile w = Spec.with_saved label profile w'.
Proof.
  destruct w as [answers config], w' as [answers' config']. cbn [config_file]. intros <-.
  unfold Spec.with_saved.
  destruct config as [[e | [| [servers |] projects]] |]; reflexivity.
Qed.

Lemma addNewServer_saves (host user key dir label : string) (tail : list answer)
    (config : option StoreFile.t) :
  Collector.not_blank host = true ->
  host <> EmptyString -> user <> EmptyString -> key <> EmptyString ->
  dir <> EmptyString -> label <> EmptyString ->
  let w := mkWorld ([Text host; Text user; Text key; Text dir; Text label] ++ tail) config in
  Spec.has_servers w = true ->
  Collector.addNewServer w
  = (Returned (ServerConfig.mk host user key dir),
     mkWorld tail (Spec.with_saved label (ServerConfig.mk host user key dir) w)).
Proof.
  intros Hblank Hhost Huser Hkey Hdir Hlabel w Hservers. unfold w, Collector.addNewServer.
  cbn [app].
  rewrite (bind_Returned _ _ _ _ _ (input_Text _ Collector.not_blank host _ config Hhost Hblank)).
  rewrite (bind_Returned _ _ _ _ _ (input_Text _ Prompt.any user _ config Huser eq_refl)).
  rewrite (bind_Returned _ _ _ _ _ (input_Text _ Prompt.any key _ config Hkey eq_refl)).
  rewrite (bind_Returned _ _ _ _ _ (input_Text _ Prompt.any dir _ config Hdir eq_refl)).
  cbv zeta.
  rewrite (bind_Returned _ _ _ _ _ (input_Text _ Prompt.any label _ config Hlabel eq_refl)).
  rewrite (bind_Returned _ _ _ _ _ (saveServer_at label _ _ tail config Hservers)).
  reflexivity.
Qed.

(** On a store that has its map of servers, [getSavedServers] returns
    that map. *)
Lemma getSavedServers_run (w : World) :
  Spec.has_servers w = true ->
  ConfigStore.getSavedServers w
  = (Returned (Some (GlobalConfig.servers (ConfigStore.stored w))), w).
Proof.
  unfold Spec.has_servers.
  destruct w as [answers [[e | [| [servers |] projects]] |]]; cbn [config_file];
    try discriminate; reflexivity.
Qed.

Lemma collectServerConfig_new (w : World) (host user key dir label : string)
    (tail : list answer) :
  Spec.has_servers w = true ->
  script w = (Spec.entering_new (GlobalConfig.servers (ConfigStore.stored w))
                host user key dir label ++ tail)%list ->
  Collector.not_blank host = true ->
  host <> EmptyString -> user <> EmptyString -> key <> EmptyString ->
  dir <> EmptyString -> label <> EmptyString ->
  Collector.collectServerConfig w
  = (Returned (ServerConfig.mk host user key dir),
     mkWorld tail (Spec.with_saved label (ServerConfig.mk host user key dir) w)).
Proof.
  intros Hservers Hscript Hblank Hhost Huser Hkey Hdir Hlabel.
  pose proof (getSavedServers_run w Hservers) as Hget.
  destruct w as [answers config]. cbn [script] in Hscript.
  set (saved := GlobalConfig.servers (ConfigStore.stored (mkWorld answers config))) in *.
  clearbody saved. subst answers.
  assert (Hadd : Collector.addNewServer
                   (mkWorld ([Text host; Text user; Text key; Text dir; Text label] ++ tail)
                      config)
                 = (Returned (ServerConfig.mk host user key dir),
                    mkWorld tail
                      (Spec.with_saved label (ServerConfig.mk host user key dir)
                         (mkWorld (Spec.entering_new saved host user key dir label ++ tail)
                            config)))).
  { rewrite (addNewServer_saves host user key dir label tail config
               Hblank Hhost Huser Hkey Hdir Hlabel Hservers).
    f_equal. f_equal. now apply with_saved_file. }
  unfold Collector.collectServerConfig.
  rewrite (bind_Returned _ _ _ _ _ Hget). unfold Collector.chooseServer.
  cbv zeta. unfold Spec.entering_new in *.
  destruct (0 <? length (Collector.Object_keys saved))%nat.
  - cbn [app].
    rewrite (bind_Returned _ _ _ _ _
               (select_Choice (Collector.Object_keys saved ++ ["__new__"]) None "__new__" _ config
                  ltac:(apply in_or_app; right; now left))).
    cbn [String.eqb Ascii.eqb Bool.eqb negb]. exact Hadd.
  - exact Hadd.
Qed.

(** A new profile entered during collect-server under a label other
    than [__proto__] is in the store when [collectServerConfig]
    returns, before the review is reached.  When the operator then
    cancels at the review, [collectConfig] ends the process with exit
    code 0 and returns no configuration, [init] ends the same way and
    returns no list of generated files, and the store still maps the
    label to the new profile. *)
Lemma new_profile_survives_cancel (detection : DetectionResult.t) (projectName : string)
    (w w1 w3 w4 w5 : World) (p : ProjectConfig.t) (host user key dir label : string)
    (tail rest : list answer) (dm : DomainConfig.t) (sec : list string) (br : BranchConfig.t) :
  let profile := ServerConfig.mk host user key dir in
  let saved := Spec.with_saved label profile w1 in
  Collector.collectProjectConfig detection projectName w = (Returned p, w1) ->
  Spec.has_servers w1 = true ->
  script w1 = (Spec.entering_new (GlobalConfig.servers (ConfigStore.stored w1))
                 host user key dir label ++ tail)%list ->
  Collector.not_blank host = true ->
  host <> EmptyString -> user <> EmptyString -> key <> EmptyString ->
  dir <> EmptyString -> label <> EmptyString -> label <> "__proto__" ->
  Collector.collectDomainConfig (mkWorld tail saved) = (Returned dm, w3) ->
  Collector.collectSecrets (DetectionResult.envKeys detection) w3 = (Returned sec, w4) ->
  Collector.collectBranchConfig w4 = (Returned br, w5) ->
  script w5 = Choice "cancel" :: rest ->
  Collector.collectServerConfig w1 = (Returned profile, mkWorld tail saved)
  /\ Collector.collectConfig detection projectName w = (Exited 0, mkWorld rest saved)
  /\ GlobalConfig.servers (ConfigStore.stored (mkWorld rest saved)) !! label = Some profile
  /\ (forall P projectDir now,
        Detector.detectProject P projectDir = Ok detection ->
        Cli.init P projectDir projectName now w = (Exited 0, mkWorld rest saved)).
Proof.
  intros profile saved Hproject Hservers Hscript Hblank Hhost Huser Hkey Hdir Hlabel Hproto
         Hdomain Hsecrets Hbranches Hcancel.
  pose proof (collectServerConfig_new w1 host user key dir label tail
                Hservers Hscript Hblank Hhost Huser Hkey Hdir Hlabel) as Hserver.
  fold profile in Hserver. fold saved in Hserver.
  assert (Hfile : config_file w5 = saved).
  { pose proof (keeps_collectBranchConfig w4) as H5. rewrite Hbranches in H5.
    pose proof (keeps_collectSecrets (DetectionResult.envKeys detection) w3) as H4.
    rewrite Hsecrets in H4.
    pose proof (keeps_collectDomainConfig (mkWorld tail saved)) as H3. rewrite Hdomain in H3.
    simpl in *. congruence. }
  assert (Hrun : Collector.collectConfig detection projectName w
                 = (Exited 0, mkWorld rest saved)).
  { unfold Collector.collectConfig.
    rewrite (bind_Returned _ _ _ _ _ Hproject), (bind_Returned _ _ _ _ _ Hserver),
      (bind_Returned _ _ _ _ _ Hdomain), (bind_Returned _ _ _ _ _ Hsecrets),
      (bind_Returned _ _ _ _ _ Hbranches).
    rewrite reviewLoop_unfold. unfold Collector.review_turn.
    destruct w5 as [answers5 file5]. cbn [script config_file] in *. subst answers5 file5.
    rewrite (bind_Returned _ _ _ _ _
               (select_Choice Collector.review_actions None "cancel" rest saved
                  ltac:(simpl; tauto))).
    reflexivity. }
  split; [exact Hserver |]. split; [exact Hrun |]. split.
  - destruct (saveServer_run label profile w1 Hservers)
      as (w2 & _ & _ & Hfile2 & Hsaved2 & _).
    fold saved in Hfile2.
    replace (ConfigStore.stored (mkWorld rest saved)) with (ConfigStore.stored w2)
      by (unfold ConfigStore.stored; cbn [config_file]; now rewrite Hfile2).
    rewrite Hsaved2. now apply assign_lookup_same.
  - intros P projectDir now Hdetect. unfold Cli.init. rewrite Hdetect.
    unfold bind at 1. cbn [lift]. unfold bind at 1. now rewrite Hrun.
Qed.

Lemma new_profile_survives_cancel_at_edge :
  exists w',
    Collector.collectConfig (Spec.static_defaults flask) "demo"
      (mkWorld Samples.cancelling None) = (Exited 0, w')
    /\ script w' = []
    /\ GlobalConfig.servers (ConfigStore.stored w') !! "edge" = Some Samples.new_profile.
Proof.
  destruct (new_profile_survives_cancel (Spec.static_defaults flask) "demo"
              (mkWorld Samples.cancelling None)
              (mkWorld (skipn 5 Samples.cancelling) None)
              (mkWorld (skipn 11 Samples.cancelling)
                 (Spec.with_saved "edge" Samples.new_profile (mkWorld [] None)))
              (mkWorld (skipn 11 Samples.cancelling)
                 (Spec.with_saved "edge" Samples.new_profile (mkWorld [] None)))
              (mkWorld (skipn 13 Samples.cancelling)
                 (Spec.with_saved "edge" Samples.new_profile (mkWorld [] None)))
              (ProjectConfig.mk "demo" flask python 5000 EmptyString
                 "gunicorn -w 4 -b 0.0.0.0:5000 app:app")
              "203.0.113.7" "root" "~/.ssh/id_rsa" "/srv/apps" "edge"
              (skipn 10 Samples.cancelling) []
              (DomainConfig.mk false EmptyString false) [] (BranchConfig.mk "main" None))
    as (_ & Hrun & Hkept & _).
  - reflexivity.
  - reflexivity.
  - reflexivity.
  - reflexivity.
  - discriminate.
  - discriminate.
  - discriminate.
  - discriminate.
  - discriminate.
  - discriminate.
  - reflexivity.
  - reflexivity.
  - reflexivity.
  - reflexivity.
  - eexists. split; [exact Hrun |]. split; [reflexivity | exact Hkept].
Defined.

(** C8.  The operator, on a machine without a store file, enters a new
    profile during collect-server, names it [__proto__] at the last
    prompt, and cancels at the review.  [collectServerConfig] returns
    the profile and has written the store file; [collectConfig] ends
    the process with exit code 0; and the store file holds no profile
    at all, under [__proto__] or any other label: the profile entered
    is not persisted.  Under the label [edge] the same run leaves the
    profile in the store. *)
Theorem profile_named_proto_is_not_persisted :
  Collector.collectServerConfig (mkWorld (skipn 5 Samples.cancelling_proto) None)
  = (Returned Samples.new_profile,
     mkWorld (skipn 10 Samples.cancelling_proto)
       (Some (StoreFile.file_of ConfigStore.empty)))
  /\ Collector.collectConfig (Spec.static_defaults flask) "demo"
       (mkWorld Samples.cancelling_proto None)
     = (Exited 0, mkWorld [] (Some (StoreFile.file_of ConfigStore.empty)))
  /\ (forall label,
        GlobalConfig.servers
          (ConfigStore.stored (mkWorld [] (Some (StoreFile.file_of ConfigStore.empty))))
        !! label = None)
  /\ Collector.collectConfig (Spec.static_defaults flask) "demo"
       (mkWorld Samples.cancelling None)
     = (Exited 0,
        mkWorld []
          (Some (StoreFile.file_of (GlobalConfig.mk {[ "edge" := Samples.new_profile ]} ∅)))).
Proof.
  split; [reflexivity |]. split; [reflexivity |]. split; [| reflexivity].
  intros label. exact (lookup_empty (M := gmap string) label).
Qed.

(* ===================================================================== *)
(** * Further properties of the detector *)
(* ===================================================================== *)

(** ** A directory without markers *)

Lemma env_keys_total (d : Fs.node) (files : list string) :
  Fs.readdirSync d = Ok files -> Spec.all_files d = true ->
  exists envKeys,
    match find Detector.is_env_file files with
    | Some f => Detector.parseEnvKeys d f
    | None => Ok []
    end = Ok envKeys.
Proof.
  intros Hfiles Hall.
  destruct (find Detector.is_env_file files) as [f|] eqn:Hfind; [| eauto].
  apply find_some in Hfind as [Hin Hf]. unfold Detector.parseEnvKeys.
  assert (Hjoin : Fs.join [f] = [f])
    by (destruct (is_env_file_cases _ Hf) as [->| [->| ->]]; reflexivity).
  destruct (read_regular d f f Hall Hjoin (listed_exists d files f Hfiles Hjoin Hin)) as [c ->].
  simpl. eauto.
Qed.

(** Without a Python marker and without [package.json] in the listing,
    a detection that returns has no archetype and no language, port
    3000 and empty commands: no manifest is read and no source file is
    scanned for a port, whatever the directory holds.  It returns
    whenever the top-level entries are regular files. *)
Theorem unmarked_directory_is_unknown P (d : Fs.node) (files : list string) :
  Fs.readdirSync d = Ok files ->
  Cover.unmarked files = true ->
  (forall r, Detector.detectProject P d = Ok r ->
             DetectionResult.type r = None
             /\ DetectionResult.language r = None
             /\ DetectionResult.languageVersion r = EmptyString
             /\ DetectionResult.port r = 3000
             /\ DetectionResult.buildCmd r = EmptyString
             /\ DetectionResult.startCmd r = EmptyString
             /\ DetectionResult.entryFile r = EmptyString)
  /\ (Spec.all_files d = true -> exists r, Detector.detectProject P d = Ok r).
Proof.
  intros Hfiles Hun. unfold Cover.unmarked in Hun.
  apply andb_true_iff in Hun as [Hpy Hpkg].
  apply negb_true_iff in Hpy. apply negb_true_iff in Hpkg.
  assert (Hlang : Detector.detectLanguage P d files = Ok (None, EmptyString, None)).
  { unfold Detector.detectLanguage. unfold Spec.python_marked in Hpy. now rewrite Hpy, Hpkg. }
  split.
  - intros r Hr.
    apply detectProject_inv in Hr
      as (files' & envKeys & language & version & type & seeded & dp
          & Hfiles' & _ & Hlang' & Hseed & Hdp & ->).
    rewrite Hfiles in Hfiles'. injection Hfiles' as <-.
    rewrite Hlang in Hlang'. injection Hlang' as <- <- <-.
    injection Hseed as <-. injection Hdp as <-. simpl. auto 10.
  - intros Hall. unfold Detector.detectProject. rewrite Hfiles. cbn [rbind].
    destruct (env_keys_total d files Hfiles Hall) as [envKeys ->]. cbn [rbind].
    rewrite Hlang. cbn. eauto.
Qed.

Lemma unmarked_directory_is_unknown_witness :
  exists r,
    Detector.detectProject Samples.parse Cases.scripts_dir = Ok r
    /\ DetectionResult.type r = None
    /\ DetectionResult.port r = 3000.
Proof.
  destruct (unmarked_directory_is_unknown Samples.parse Cases.scripts_dir
              ["Dockerfile"; "app.py"; ".env"] eq_refl eq_refl) as [Hshape Htotal].
  destruct (Htotal eq_refl) as [r Hr]. exists r.
  destruct (Hshape r Hr) as (Htype & _ & _ & Hport & _).
  split; [exact Hr |]. split; [exact Htype | exact Hport].
Defined.

(** ** The Node archetypes *)

(** The chain of tests of [detectNodeFramework] is a priority lookup:
    the archetype returned is the first of nestjs, nextjs, nuxtjs,
    vue-spa, react-spa whose marker is a truthy dependency.  The two
    negative tests of the chain ([!allDeps.nuxt], [!allDeps.next]) never
    decide anything. *)
Theorem node_framework_is_first_marker P (d : Fs.node) (content : string) (pkg : Json.json)
    (deps : list (string * Json.json)) :
  Fs.readFileSync d ["package.json"] = Ok content ->
  P content = Ok pkg ->
  Detector.allDeps pkg = Ok deps ->
  Detector.detectNodeFramework P d = Ok (Cover.first_marked deps).
Proof.
  intros Hread Hparse Hdeps. unfold Detector.detectNodeFramework.
  rewrite (readFileSync_exists _ _ _ Hread), Hread. cbn [negb rbind].
  rewrite Hparse. cbn [rbind]. rewrite Hdeps. cbn [rbind].
  unfold Cover.first_marked, Spec.marks.
  cbn [Spec.node_types find Spec.marker_deps existsb]. rewrite !orb_false_r.
  destruct (Detector.has_dep deps "@nestjs/core"); [reflexivity |].
  destruct (Detector.has_dep deps "next"); [reflexivity |].
  destruct (Detector.has_dep deps "nuxt"); [reflexivity |].
  destruct (Detector.has_dep deps "nuxt3"); [reflexivity |].
  destruct (Detector.has_dep deps "vue"); [reflexivity |].
  destruct (Detector.has_dep deps "react"); reflexivity.
Qed.

Lemma node_framework_is_first_marker_witness :
  Detector.detectNodeFramework Samples.parse (Samples.package_dir Samples.vue_package)
  = Ok (Some vue_spa).
Proof.
  apply (node_framework_is_first_marker Samples.parse
           (Samples.package_dir Samples.vue_package) Samples.vue_package
           (Samples.one_dependency "dependencies" "vue" "^3.3.0")
           [("vue", Json.JString "^3.3.0")]); reflexivity.
Defined.

Lemma find_rev_app {A : Type} (p : A -> bool) (xs ys : list A) :
  find p (rev (xs ++ ys))
  = match find p (rev ys) with
    | Some y => Some y
    | None => find p (rev xs)
    end.
Proof.
  rewrite rev_app_distr. induction (rev ys) as [|y l IH]; simpl; [reflexivity |].
  now destruct (p y).
Qed.

(** In [{ ...pkg.dependencies, ...pkg.devDependencies }] a name listed
    under [devDependencies] overrides the same name under
    [dependencies]: the lookup of a name in the merged object is its
    value in the second section when it has one, else its value in the
    first. *)
Theorem devDependencies_override (props : list (string * Json.json)) (name : string) :
  exists deps,
    Detector.allDeps (Json.JObject props) = Ok deps
    /\ Json.get name deps
       = match Json.get name (Json.spread (Json.get "devDependencies" props)) with
         | Some v => Some v
         | None => Json.get name (Json.spread (Json.get "dependencies" props))
         end.
Proof.
  eexists. split; [reflexivity |].
  cbn [rbind Json.member Detector.allDeps].
  set (first := Json.spread (Json.get "dependencies" props)).
  set (second := Json.spread (Json.get "devDependencies" props)).
  unfold Json.get. rewrite find_rev_app.
  now destruct (find (fun e => String.eqb (fst e) name) (rev second)).
Qed.

(** The edge values of [package.json]: a text that [JSON.parse] rejects
    makes the detection throw its error, [null] makes it throw a
    [TypeError], and a number, boolean, string or array gives no
    archetype. *)
Theorem package_json_edge_values P (d : Fs.node) (content : string) :
  Fs.readFileSync d ["package.json"] = Ok content ->
  (forall e, P content = Err e -> Detector.detectNodeFramework P d = Err e)
  /\ (P content = Ok Json.JNull -> Detector.detectNodeFramework P d = Err TypeError)
  /\ (forall v, P content = Ok v -> Cover.plain_value v = true ->
                Detector.detectNodeFramework P d = Ok None).
Proof.
  intros Hread. unfold Detector.detectNodeFramework.
  rewrite (readFileSync_exists _ _ _ Hread), Hread. cbn [negb rbind].
  split; [| split].
  - now intros e ->.
  - now intros ->.
  - intros v -> Hv. destruct v; try discriminate; reflexivity.
Qed.

Lemma package_json_edge_values_witness :
  Detector.detectNodeFramework Cases.parse (Samples.package_dir "null") = Err TypeError
  /\ Detector.detectNodeFramework Cases.parse (Samples.package_dir "[]") = Ok None
  /\ Detector.detectNodeFramework Cases.parse (Samples.package_dir "{") = Err SyntaxError.
Proof.
  destruct (package_json_edge_values Cases.parse (Samples.package_dir "null") "null" eq_refl)
    as (_ & Hnull & _).
  destruct (package_json_edge_values Cases.parse (Samples.package_dir "[]") "[]" eq_refl)
    as (_ & _ & Hplain).
  destruct (package_json_edge_values Cases.parse (Samples.package_dir "{") "{" eq_refl)
    as (Herr & _ & _).
  split; [apply Hnull; reflexivity |].
  split; [apply (Hplain (Json.JArray [])); reflexivity | apply Herr; reflexivity].
Defined.

Lemma devDependencies_override_witness :
  Detector.detectNodeFramework Cases.parse (Samples.package_dir "overridden")
  = Ok (Some react_spa)
  /\ exists deps,
       Detector.allDeps Cases.overridden = Ok deps
       /\ Json.get "next" deps = Some (Json.JBool false).
Proof.
  split; [reflexivity |].
  destruct (devDependencies_override
              [("dependencies", Json.JObject [("next", Json.JString "^14.0.0");
                                              ("react", Json.JString "^18.2.0")]);
               ("devDependencies", Json.JObject [("next", Json.JBool false)])] "next")
    as (deps & Hdeps & Hget).
  exists deps. split; [exact Hdeps | exact Hget].
Defined.

(** ** Manifests that are not read *)

Lemma parseEnvKeys_with_other (name : string) (n d : Fs.node) (f : string) :
  Detector.is_env_file f = true -> Detector.is_env_file name = false ->
  Detector.parseEnvKeys (Fs.with_entry name n d) f = Detector.parseEnvKeys d f.
Proof.
  intros Hf Hname. unfold Detector.parseEnvKeys.
  assert (Hjoin : Fs.join [f] = [f])
    by (destruct (is_env_file_cases _ Hf) as [->| [->| ->]]; reflexivity).
  rewrite (readFileSync_with_entry name n d [f] f [] Hjoin); [reflexivity |].
  intros ->. congruence.
Qed.

Lemma env_keys_with_other (name : string) (n d : Fs.node) (files : list string) :
  Detector.is_env_file name = false ->
  match find Detector.is_env_file files with
  | Some f => Detector.parseEnvKeys (Fs.with_entry name n d) f
  | None => Ok []
  end
  = match find Detector.is_env_file files with
    | Some f => Detector.parseEnvKeys d f
    | None => Ok []
    end.
Proof.
  intros Hname. destruct (find Detector.is_env_file files) as [f|] eqn:Hfind; [| reflexivity].
  apply parseEnvKeys_with_other; [| assumption]. now apply find_some in Hfind.
Qed.

Lemma detectPort_with_other (name : string) (n d : Fs.node) (language : option Language) :
  ~ In name ["app.py"; "main.py"; "manage.py"; "config.py"; "settings.py";
             "src"; "server.js"; "index.js"; "app.js"] ->
  Detector.detectPort (Fs.with_entry name n d) language = Detector.detectPort d language.
Proof.
  intros Hname. unfold Detector.detectPort.
  assert (Hread : forall seg first rest,
             Fs.join [seg] = first :: rest ->
             In first ["app.py"; "main.py"; "manage.py"; "config.py"; "settings.py";
                       "src"; "server.js"; "index.js"; "app.js"] ->
             Fs.existsSync (Fs.with_entry name n d) [seg] = Fs.existsSync d [seg]
             /\ Fs.readFileSync (Fs.with_entry name n d) [seg] = Fs.readFileSync d [seg]).
  { intros seg first rest Hjoin Hin.
    assert (first <> name) by (intros ->; contradiction).
    split; [now apply existsSync_with_entry with (first := first) (rest := rest)
           | now apply readFileSync_with_entry with (first := first) (rest := rest)]. }
  destruct language as [[|]|]; cbn [Detector.candidates Detector.scan_files]; [| | reflexivity].
  - repeat match goal with
           | |- context [Fs.existsSync (Fs.with_entry name n d) [?seg]] =>
               destruct (Hread seg seg [] eq_refl ltac:(simpl; tauto)) as [-> ->]
           end.
    reflexivity.
  - repeat match goal with
           | |- context [Fs.existsSync (Fs.with_entry name n d) [?seg]] =>
               first [ destruct (Hread seg seg [] eq_refl ltac:(simpl; tauto)) as [-> ->]
                     | destruct (Hread seg "src" [Js.drop 4 seg] eq_refl ltac:(simpl; tauto))
                         as [-> ->] ]
           end.
    reflexivity.
Qed.

(** [Pipfile] marks the language and nothing more: whatever stands
    under that name, the detection has the same outcome.  The same
    holds of [pyproject.toml] as soon as the listing holds
    [requirements.txt], which is the manifest read in its place. *)
Theorem unread_manifests P (d : Fs.node) (files : list string) :
  Fs.readdirSync d = Ok files ->
  (forall n, Detector.detectProject P (Fs.with_entry "Pipfile" n d) = Detector.detectProject P d)
  /\ (Js.array_includes "requirements.txt" files = true ->
      forall n, Detector.detectProject P (Fs.with_entry "pyproject.toml" n d)
                = Detector.detectProject P d).
Proof.
  intros Hfiles. split.
  - intros n. unfold Detector.detectProject.
    rewrite readdirSync_with_entry, Hfiles. cbn [rbind].
    rewrite (env_keys_with_other "Pipfile" n d files eq_refl).
    rewrite (existsSync_with_entry "Pipfile" n d [".github"; "workflows"]
               ".github" ["workflows"] eq_refl) by discriminate.
    assert (Hlang : Detector.detectLanguage P (Fs.with_entry "Pipfile" n d) files
                    = Detector.detectLanguage P d files).
    { unfold Detector.detectLanguage, Detector.detectPythonFramework,
        Detector.detectNodeFramework. now same_read. }
    rewrite Hlang.
    destruct (match find Detector.is_env_file files with
              | Some f => Detector.parseEnvKeys d f
              | None => Ok []
              end) as [envKeys|e]; [| reflexivity].
    cbn [rbind]. destruct (Detector.detectLanguage P d files) as [[[language version] type]|e];
      [| reflexivity].
    cbn [rbind].
    assert (Hseed : Detector.applyDefaults (Fs.with_entry "Pipfile" n d) type
                    = Detector.applyDefaults d type)
      by (unfold Detector.applyDefaults; now same_read).
    rewrite Hseed, (detectPort_with_other "Pipfile" n d language); [reflexivity |].
    simpl. intuition discriminate.
  - intros Hreq n. unfold Detector.detectProject.
    rewrite readdirSync_with_entry, Hfiles. cbn [rbind].
    rewrite (env_keys_with_other "pyproject.toml" n d files eq_refl).
    rewrite (existsSync_with_entry "pyproject.toml" n d [".github"; "workflows"]
               ".github" ["workflows"] eq_refl) by discriminate.
    assert (Hlang : Detector.detectLanguage P (Fs.with_entry "pyproject.toml" n d) files
                    = Detector.detectLanguage P d files).
    { unfold Detector.detectLanguage, Detector.detectPythonFramework,
        Detector.detectNodeFramework. rewrite Hreq. now same_read. }
    rewrite Hlang.
    destruct (match find Detector.is_env_file files with
              | Some f => Detector.parseEnvKeys d f
              | None => Ok []
              end) as [envKeys|e]; [| reflexivity].
    cbn [rbind]. destruct (Detector.detectLanguage P d files) as [[[language version] type]|e];
      [| reflexivity].
    cbn [rbind].
    assert (Hseed : Detector.applyDefaults (Fs.with_entry "pyproject.toml" n d) type
                    = Detector.applyDefaults d type)
      by (unfold Detector.applyDefaults; now same_read).
    rewrite Hseed, (detectPort_with_other "pyproject.toml" n d language); [reflexivity |].
    simpl. intuition discriminate.
Qed.

Lemma unread_manifests_witness :
  Detector.detectProject Samples.parse
    (Fs.with_entry "pyproject.toml" (Fs.Dir []) Cases.manifests_dir)
  = Detector.detectProject Samples.parse Cases.manifests_dir
  /\ exists r, Detector.detectProject Samples.parse Cases.manifests_dir = Ok r
               /\ DetectionResult.type r = Some django.
Proof.
  split.
  - apply (proj2 (unread_manifests Samples.parse Cases.manifests_dir
                    ["Pipfile"; "pyproject.toml"; "requirements.txt"] eq_refl) eq_refl).
  - eexists. split; [vm_compute; reflexivity | reflexivity].
Defined.

(** ** The range of a detected port *)

Lemma append_snoc (u v : string) (c : ascii) :
  String.append (String.append u (String c EmptyString)) v = String.append u (String c v).
Proof. induction u as [|a u IH]; [reflexivity |]. rewrite !append_String. now rewrite IH. Qed.

Lemma append_empty_r (u : string) : String.append u EmptyString = u.
Proof. induction u as [|a u IH]; [reflexivity |]. rewrite append_String. now rewrite IH. Qed.

Lemma repeat_choices_taken (p : ascii -> bool) (lo n : nat) :
  forall (taken s tk r : string),
    In (tk, r) (Regex.repeat_choices p lo n taken s) ->
    exists u, tk = String.append taken u /\ Js.all p u = true /\ (String.length u <= n)%nat.
Proof.
  induction n as [|n IH]; intros taken s tk r Hin.
  - cbn [Regex.repeat_choices] in Hin.
    assert (Hhere : In (tk, r) (if (lo <=? String.length taken)%nat then [(taken, s)] else []))
      by (destruct s; exact Hin).
    destruct (lo <=? String.length taken)%nat; [| destruct Hhere].
    destruct Hhere as [[= <- <-]|[]]. exists EmptyString.
    rewrite append_empty_r. repeat split. simpl. lia.
  - assert (Hhere : In (tk, r) (if (lo <=? String.length taken)%nat then [(taken, s)] else []) ->
                    exists u, tk = String.append taken u /\ Js.all p u = true
                              /\ (String.length u <= S n)%nat).
    { intros H. destruct (lo <=? String.length taken)%nat; [| destruct H].
      destruct H as [[= <- <-]|[]]. exists EmptyString.
      rewrite append_empty_r. repeat split. simpl. lia. }
    cbn [Regex.repeat_choices] in Hin. destruct s as [|c s]; [now apply Hhere |].
    destruct (p c) eqn:Hc; [| now apply Hhere].
    apply in_app_or in Hin as [Hin|Hin]; [| now apply Hhere].
    apply IH in Hin as (u & -> & Hu & Hlen).
    exists (String c u). rewrite append_snoc. repeat split.
    + cbn [Js.all]. now rewrite Hc, Hu.
    + simpl. lia.
Qed.

Lemma atom_choices_capture (ci : bool) (a : Regex.atom) (s r g : string) :
  Bounds.digits_atom a -> In (r, Some g) (Regex.atom_choices ci a s) -> Bounds.port_group g.
Proof.
  destruct a as [l|p|p|p|lo hi p]; cbn [Bounds.digits_atom Regex.atom_choices]; intros Ha Hin.
  - destruct (Regex.lit_rest ci l s); [destruct Hin as [[=]|[]] | destruct Hin].
  - apply in_map_iff in Hin as (tr & [=] & _).
  - destruct s as [|c s]; [destruct Hin |].
    destruct (p c); [destruct Hin as [[=]|[]] | destruct Hin].
  - apply in_map_iff in Hin as (tr & [=] & _).
  - apply in_map_iff in Hin as ([tk r'] & [= <- <-] & Hin).
    apply repeat_choices_taken in Hin as (u & -> & Hu & Hlen).
    change (String.append EmptyString u) with u.
    destruct Ha as [Hhi Hp]. split; [| lia].
    clear Hlen. induction u as [|c u IH]; [reflexivity |].
    cbn [Js.all] in *. apply andb_true_iff in Hu as [Hc Hu].
    now rewrite (Hp c Hc), IH.
Qed.

Lemma first_success_In {A B : Type} (f : A -> option B) (xs : list A) (b : B) :
  Regex.first_success f xs = Some b -> exists x, In x xs /\ f x = Some b.
Proof.
  induction xs as [|x xs IH]; simpl; [discriminate |].
  destruct (f x) as [b'|] eqn:Hx.
  - intros [= <-]. exists x. auto.
  - intros H. destruct (IH H) as (y & Hy & Hfy). exists y. auto.
Qed.

Lemma match_here_capture (ci : bool) (pat : list Regex.atom) :
  Forall Bounds.digits_atom pat ->
  forall (s : string) (cap res : option string),
    (forall g, cap = Some g -> Bounds.port_group g) ->
    Regex.match_here ci pat s cap = Some res ->
    forall g, res = Some g -> Bounds.port_group g.
Proof.
  induction 1 as [|a pat Ha Hpat IH]; intros s cap res Hcap Hmatch g Hg.
  - cbn [Regex.match_here] in Hmatch. injection Hmatch as <-. now apply Hcap.
  - cbn [Regex.match_here] in Hmatch.
    apply first_success_In in Hmatch as ([r c] & Hin & Hrest).
    cbn [fst snd] in Hrest. eapply IH; [| exact Hrest | exact Hg].
    intros g' Hg'. destruct c as [gc|]; cbn [Regex.or_capture] in Hg'.
    + injection Hg' as <-. eapply atom_choices_capture; eassumption.
    + now apply Hcap.
Qed.

Lemma exec_capture (re : Regex.regex) (s g : string) :
  Forall Bounds.digits_atom (Regex.atoms re) ->
  Regex.exec re s = Some g -> Bounds.port_group g.
Proof.
  intros Hre. induction s as [|c s IH]; cbn [Regex.exec].
  - destruct (Regex.match_here _ _ EmptyString None) as [[g'|]|] eqn:Hm; intros [= <-].
    + eapply (match_here_capture _ _ Hre _ None); [discriminate | exact Hm | reflexivity].
    + split; [reflexivity | simpl; lia].
  - destruct (Regex.match_here _ _ (String c s) None) as [[g'|]|] eqn:Hm.
    + intros [= <-].
      eapply (match_here_capture _ _ Hre _ None); [discriminate | exact Hm | reflexivity].
    + intros [= <-]. split; [reflexivity | simpl; lia].
    + exact IH.
Qed.

Lemma digit_value_range (c : ascii) : Js.is_digit c = true -> 0 <= Js.digit_value c <= 9.
Proof.
  unfold Js.is_digit, Js.between, Js.digit_value. intros H.
  apply andb_true_iff in H as [Hlo Hhi].
  apply N.leb_le in Hlo. apply N.leb_le in Hhi. lia.
Qed.

Lemma parse_digits_bound (s : string) :
  forall acc, 0 <= acc -> Js.all Js.is_digit s = true ->
    0 <= Js.parse_digits acc s < (acc + 1) * 10 ^ Z.of_nat (String.length s).
Proof.
  induction s as [|c s IH]; intros acc Hacc Hall.
  - cbn [Js.parse_digits String.length]. simpl. lia.
  - cbn [Js.all] in Hall. apply andb_true_iff in Hall as [Hc Hall].
    cbn [Js.parse_digits]. rewrite Hc.
    pose proof (digit_value_range c Hc) as Hd.
    specialize (IH (10 * acc + Js.digit_value c) ltac:(lia) Hall).
    cbn [String.length]. rewrite Nat2Z.inj_succ, Z.pow_succ_r by lia.
    assert (0 < 10 ^ Z.of_nat (String.length s)) by (apply Z.pow_pos_nonneg; lia).
    nia.
Qed.

Lemma port_group_value (g : string) : Bounds.port_group g -> 0 <= Js.parseInt g <= 99999.
Proof.
  intros [Hdigits Hlen]. unfold Js.parseInt.
  pose proof (parse_digits_bound g 0 ltac:(lia) Hdigits) as Hb.
  assert (10 ^ Z.of_nat (String.length g) <= 10 ^ 5)
    by (apply Z.pow_le_mono_r; lia).
  change (10 ^ 5) with 100000 in *. lia.
Qed.

Lemma portPatterns_digits :
  Forall (fun re => Forall Bounds.digits_atom (Regex.atoms re)) Detector.portPatterns.
Proof.
  repeat constructor; cbn [Bounds.digits_atom]; try lia; intros c Hc; exact Hc.
Qed.

Lemma scan_patterns_range (patterns : list Regex.regex) (content : string) (p : Z) :
  Forall (fun re => Forall Bounds.digits_atom (Regex.atoms re)) patterns ->
  Detector.scan_patterns patterns content = Some p -> 0 <= p <= 99999.
Proof.
  induction 1 as [|re patterns Hre Hrest IH]; cbn [Detector.scan_patterns]; [discriminate |].
  destruct (Regex.exec re content) as [g|] eqn:Hexec; [| exact IH].
  intros [= <-]. apply port_group_value. now apply exec_capture with (re := re) (s := content).
Qed.

Lemma scan_files_range (d : Fs.node) (files : list string) (p : Z) :
  Detector.scan_files d files = Ok (Some p) -> 0 <= p <= 99999.
Proof.
  induction files as [|f files IH]; cbn [Detector.scan_files]; [discriminate |].
  destruct (Fs.existsSync d [f]); cbn [negb]; [| exact IH].
  destruct (Fs.readFileSync d [f]) as [content|e]; cbn [rbind]; [| discriminate].
  destruct (Detector.scan_patterns Detector.portPatterns content) as [q|] eqn:Hscan; [| exact IH].
  intros [= <-]. eapply scan_patterns_range; [apply portPatterns_digits | exact Hscan].
Qed.

Lemma applyDefaults_port (d : Fs.node) (type : option ProjectType) (seeded : Defaults.t) :
  Detector.applyDefaults d type = Ok seeded -> 1 <= Defaults.port seeded <= 99999.
Proof.
  unfold Detector.applyDefaults. destruct type as [t|]; [| intros [= <-]; simpl; lia].
  assert (Hdefault : 1 <= Defaults.port (PROJECT_DEFAULTS t) <= 99999)
    by (destruct t; simpl; lia).
  destruct (decide (t = flask)) as [Hflask|Hother]; [| now intros [= <-]].
  destruct (Fs.existsSync d ["run.py"]); [| now intros [= <-]].
  destruct (Fs.readFileSync d ["run.py"]) as [content|err]; cbn [rbind]; [| discriminate].
  destruct (Js.includes "create_app" content); now intros [= <-].
Qed.

(** The port of a detection is a positive integer of at most five
    digits: a port found in a source file is the value of the four or
    five digits captured, one that is zero is not taken, and the
    defaults are 80, 3000, 5000 and 8000. *)
Theorem detected_port_range P (d : Fs.node) (r : DetectionResult.t) :
  Detector.detectProject P d = Ok r ->
  1 <= DetectionResult.port r <= 99999
  /\ forall p, Detector.detectPort d (DetectionResult.language r) = Ok (Some p) ->
               0 <= p <= 99999.
Proof.
  intros Hr.
  apply detectProject_inv in Hr
    as (files & envKeys & language & version & type & seeded & dp & _ & _ & _ & Hseed & Hdp & ->).
  cbn [DetectionResult.port DetectionResult.language].
  pose proof (applyDefaults_port _ _ _ Hseed) as Hs.
  split.
  - destruct dp as [p|]; [| exact Hs].
    pose proof (scan_files_range _ _ _ Hdp) as Hp.
    destruct (p =? 0) eqn:Hz; [exact Hs |]. apply Z.eqb_neq in Hz. lia.
  - intros p Hp. now apply scan_files_range in Hp.
Qed.

Lemma detected_port_range_witness :
  exists r, Detector.detectProject Samples.parse Samples.two_ports_dir = Ok r
            /\ 1 <= DetectionResult.port r <= 99999.
Proof.
  destruct (Detector.detectProject Samples.parse Samples.two_ports_dir) as [r|e] eqn:Hrun;
    [| vm_compute in Hrun; discriminate].
  exists r. split; [reflexivity |].
  apply (detected_port_range Samples.parse Samples.two_ports_dir r Hrun).
Defined.

(** ** The keys of an env file *)

Lemma all_trimStart (p : ascii -> bool) (s : string) :
  Js.all p s = true -> Js.all p (Js.trimStart s) = true.
Proof.
  induction s as [|c s IH]; [reflexivity |]. cbn [Js.trimStart]. intros H.
  destruct (Js.is_space c); [| exact H].
  cbn [Js.all] in H. apply andb_true_iff in H as [_ H]. now apply IH.
Qed.

Lemma all_trimEnd (p : ascii -> bool) (s : string) :
  Js.all p s = true -> Js.all p (Js.trimEnd s) = true.
Proof.
  induction s as [|c s IH]; [reflexivity |]. cbn [Js.trimEnd Js.all]. intros H.
  apply andb_true_iff in H as [Hc H]. specialize (IH H).
  destruct (Js.trimEnd s) as [|c' t].
  - destruct (Js.is_space c); [reflexivity |]. cbn [Js.all]. now rewrite Hc.
  - cbn [Js.all] in *. now rewrite Hc, IH.
Qed.

Lemma trimEnd_idempotent (s : string) : Js.trimEnd (Js.trimEnd s) = Js.trimEnd s.
Proof.
  induction s as [|c s IH]; [reflexivity |]. cbn [Js.trimEnd].
  destruct (Js.trimEnd s) as [|c' t] eqn:Ht.
  - destruct (Js.is_space c) eqn:Hc; [reflexivity |]. cbn [Js.trimEnd]. now rewrite Hc.
  - cbn [Js.trimEnd]. cbn [Js.trimEnd] in IH.
    destruct (Js.trimEnd t) as [|c'' t'] eqn:Ht'.
    + destruct (Js.is_space c'); [discriminate |]. now rewrite IH.
    + now rewrite IH.
Qed.

Lemma trimStart_clean (s : string) : Bounds.starts_clean (Js.trimStart s).
Proof.
  induction s as [|c s IH]; [exact I |]. cbn [Js.trimStart].
  destruct (Js.is_space c) eqn:Hc; [exact IH | exact Hc].
Qed.

Lemma trimStart_of_clean (s : string) : Bounds.starts_clean s -> Js.trimStart s = s.
Proof. destruct s as [|c s]; [reflexivity |]. cbn. now intros ->. Qed.

Lemma trimEnd_clean (s : string) : Bounds.starts_clean s -> Bounds.starts_clean (Js.trimEnd s).
Proof.
  destruct s as [|c s]; [intros _; exact I |]. cbn [Bounds.starts_clean Js.trimEnd]. intros Hc.
  destruct (Js.trimEnd s); [now rewrite Hc | exact Hc].
Qed.

Lemma trim_idempotent (s : string) : Js.trim (Js.trim s) = Js.trim s.
Proof.
  unfold Js.trim.
  rewrite (trimStart_of_clean (Js.trimEnd (Js.trimStart s)))
    by apply trimEnd_clean, trimStart_clean.
  apply trimEnd_idempotent.
Qed.

Lemma first_piece_without (sep : ascii) (s : string) :
  Bounds.without sep (hd EmptyString (Js.split sep s)) = true.
Proof.
  unfold Bounds.without. induction s as [|c s IH]; [reflexivity |]. cbn [Js.split].
  destruct (Ascii.eqb c sep) eqn:Hc; [reflexivity |].
  destruct (Js.split sep s) as [|piece pieces]; cbn [hd Js.all] in *.
  - now rewrite Hc.
  - now rewrite Hc, IH.
Qed.

Lemma without_includes (c : ascii) (s : string) :
  Bounds.without c s = true -> Js.includes (String c EmptyString) s = false.
Proof.
  unfold Bounds.without. induction s as [|x s IH]; [reflexivity |].
  cbn [Js.all Js.includes Js.startsWith]. intros H. apply andb_true_iff in H as [Hx H].
  apply negb_true_iff in Hx. rewrite Ascii.eqb_sym, Hx. cbn. now apply IH.
Qed.

(** Every key that [parseEnvKeys] returns is trimmed and holds no [=];
    the keys are as many as the lines kept, in the order of the
    lines, so a key met twice is listed twice. *)
Theorem env_keys_are_clean (d : Fs.node) (envFile : string) (keys : list string) :
  Detector.parseEnvKeys d envFile = Ok keys ->
  (forall k, In k keys -> Js.trim k = k /\ Js.includes "=" k = false)
  /\ exists content,
       Fs.readFileSync d [envFile] = Ok content
       /\ length keys = length (filter Detector.env_line (Js.split Detector.LF content)).
Proof.
  unfold Detector.parseEnvKeys. intros H.
  apply rbind_Ok in H as (content & Hread & H). injection H as <-. split.
  - intros k Hk. apply in_map_iff in Hk as (line & <- & _). unfold Detector.env_key. split.
    + apply trim_idempotent.
    + apply without_includes. unfold Js.trim, Bounds.without.
      apply all_trimEnd, all_trimStart. apply first_piece_without.
  - exists content. split; [exact Hread | apply length_map].
Qed.

Lemma env_keys_are_clean_witness :
  exists keys,
    Detector.parseEnvKeys Samples.env_dir ".env" = Ok keys
    /\ keys = ["DB_URL"]
    /\ forall k, In k keys -> Js.trim k = k /\ Js.includes "=" k = false.
Proof.
  exists ["DB_URL"]. split; [reflexivity |]. split; [reflexivity |].
  apply (env_keys_are_clean Samples.env_dir ".env" ["DB_URL"] eq_refl).
Defined.

(* ===================================================================== *)
(** * Further properties of the collector *)
(* ===================================================================== *)

(** ** What a prompt can return *)

Lemma input_from_value (default : string) (validate : string -> bool)
    (config : option StoreFile.t) (answers : list answer) (v : string) (w' : World) :
  Prompt.input_from default validate config answers = (Returned v, w') ->
  validate v = true /\ (v = default \/ Js.truthy_string v = true)
  /\ config_file w' = config.
Proof.
  induction answers as [|a answers IH]; cbn [Prompt.input_from]; [discriminate |].
  destruct a as [|s|c|b|n|vs]; try discriminate.
  - destruct (validate default) eqn:Hv; [| exact IH].
    intros [= <- <-]. auto.
  - destruct (Js.truthy_string s) eqn:Hs.
    + destruct (validate s) eqn:Hv; [| exact IH]. intros [= <- <-]. auto.
    + destruct (validate default) eqn:Hv; [| exact IH]. intros [= <- <-]. auto.
Qed.

Lemma input_value (default : string) (validate : string -> bool) (w w' : World) (v : string) :
  Prompt.input default validate w = (Returned v, w') ->
  validate v = true /\ (v = default \/ Js.truthy_string v = true)
  /\ config_file w' = config_file w.
Proof. unfold Prompt.input. apply input_from_value. Qed.

Lemma select_value (choices : list string) (default : option string) (w w' : World) (v : string) :
  Prompt.select choices default w = (Returned v, w') -> In v choices.
Proof.
  unfold Prompt.select. intros H. apply ask_Returned_inv in H as (a & _ & Hread & _).
  destruct a as [|s|c|b|n|vs]; try discriminate.
  - destruct default as [dflt|].
    + destruct (Js.array_includes dflt choices) eqn:Hd.
      * injection Hread as <-. now apply array_includes_In.
      * destruct choices; [discriminate |]. injection Hread as <-. now left.
    + destruct choices; [discriminate |]. injection Hread as <-. now left.
  - destruct (Js.array_includes c choices) eqn:Hc; [| discriminate].
    injection Hread as <-. now apply array_includes_In.
Qed.

(** ** The project section *)

Lemma collectProjectConfig_inv (detection : DetectionResult.t) (projectName : string)
    (w w' : World) (p : ProjectConfig.t) :
  Collector.collectProjectConfig detection projectName w = (Returned p, w') ->
  Collector.valid_name (ProjectConfig.name p) = true
  /\ In (ProjectConfig.type p) Collector.all_types
  /\ ProjectConfig.language p = Spec.language_of (ProjectConfig.type p)
  /\ config_file w' = config_file w.
Proof.
  intros H.
  pose proof (keeps_collectProjectConfig detection projectName w) as Hkeep.
  rewrite H in Hkeep. cbn [snd] in Hkeep.
  unfold Collector.collectProjectConfig in H.
  apply bind_Returned_inv in H as (name & w1 & Hname & H).
  apply bind_Returned_inv in H as (type & w2 & Htype & H).
  apply bind_Returned_inv in H as (port & w3 & _ & H).
  apply bind_Returned_inv in H as (buildCmd & w4 & _ & H).
  apply bind_Returned_inv in H as (startCmd & w5 & _ & H).
  apply input_value in Hname as (Hvalid & _ & _).
  destruct (Collector.type_of_value type) as [t|] eqn:Ht; [| discriminate].
  injection H as <- <-. cbn [ProjectConfig.name ProjectConfig.type ProjectConfig.language].
  split; [exact Hvalid |]. split; [destruct t; simpl; tauto |]. split; [| exact Hkeep].
  unfold Collector.type_of_value in Ht. apply find_some in Ht as [_ Heq].
  apply String.eqb_eq in Heq as <-. now destruct t.
Qed.


(** ** The name proposed by [runInit] *)

Lemma sanitize_allowed (c : ascii) :
  (Js.between 97 122 (Orchestrator.sanitize c) || Js.is_digit (Orchestrator.sanitize c)
   || Ascii.eqb (Orchestrator.sanitize c) "-") = true.
Proof.
  unfold Orchestrator.sanitize.
  destruct (Js.between 97 122 c || Js.is_digit c || Ascii.eqb c "-") eqn:Hc;
    [exact Hc | reflexivity].
Qed.

Lemma map_chars_allowed (s : string) :
  Js.all (fun c => Js.between 97 122 c || Js.is_digit c || Ascii.eqb c "-")
    (Orchestrator.map_chars Orchestrator.sanitize s) = true.
Proof.
  induction s as [|c s IH]; [reflexivity |].
  cbn [Orchestrator.map_chars Js.all]. now rewrite sanitize_allowed, IH.
Qed.

(** The name [runInit] derives from the directory passes the
    validation of the name prompt whenever the base name of the
    directory is not empty, so the operator can always accept it.  For
    an empty base name the proposal is empty and is never accepted. *)
Theorem proposed_name_is_valid (basename : string) (rest : list answer)
    (config : option StoreFile.t) :
  (basename <> EmptyString ->
      Collector.valid_name (Orchestrator.projectName basename) = true
      /\ Prompt.input (Orchestrator.projectName basename) Collector.valid_name
           (mkWorld (Accept :: rest) config)
         = (Returned (Orchestrator.projectName basename), mkWorld rest config))
  /\ (basename = EmptyString ->
      Collector.valid_name (Orchestrator.projectName basename) = false).
Proof.
  split.
  - intros Hne.
    assert (Hvalid : Collector.valid_name (Orchestrator.projectName basename) = true).
    { unfold Collector.valid_name, Orchestrator.projectName.
      rewrite map_chars_allowed, andb_true_r.
      destruct basename; [congruence | reflexivity]. }
    split; [exact Hvalid |].
    unfold Prompt.input. cbn [script config_file Prompt.input_from]. now rewrite Hvalid.
  - now intros ->.
Qed.

Lemma proposed_name_is_valid_witness :
  Orchestrator.projectName "My_App.v2" = "my-app-v2"
  /\ Collector.valid_name (Orchestrator.projectName "My_App.v2") = true.
Proof.
  split; [reflexivity |].
  apply (proj1 (proposed_name_is_valid "My_App.v2" [] None)). discriminate.
Defined.

(** ** The domain, secrets and branches sections *)

Lemma collectDomainConfig_inv (w w' : World) (dm : DomainConfig.t) :
  Collector.collectDomainConfig w = (Returned dm, w') ->
  (dm = DomainConfig.mk false EmptyString false
   \/ (DomainConfig.enabled dm = true /\ Collector.not_blank (DomainConfig.name dm) = true))
  /\ config_file w' = config_file w.
Proof.
  intros H.
  pose proof (keeps_collectDomainConfig w) as Hkeep. rewrite H in Hkeep. cbn [snd] in Hkeep.
  split; [| exact Hkeep].
  unfold Collector.collectDomainConfig in H.
  apply bind_Returned_inv in H as (enabled & w1 & _ & H).
  destruct enabled; cbn [negb] in H.
  - apply bind_Returned_inv in H as (name & w2 & Hname & H).
    apply bind_Returned_inv in H as (https & w3 & _ & H).
    injection H as <- <-. right. split; [reflexivity |].
    now apply input_value in Hname as (Hvalid & _).
  - injection H as <- <-. now left.
Qed.


Lemma collectSecrets_inv (envKeys : list string) (w : World) :
  (forall secrets w',
      Collector.collectSecrets envKeys w = (Returned secrets, w') ->
      forall k, In k secrets -> In k envKeys)
  /\ (envKeys = [] -> Collector.collectSecrets envKeys w = (Returned [], w))
  /\ (forall rest, envKeys <> [] -> script w = Accept :: rest ->
                   Collector.collectSecrets envKeys w
                   = (Returned (filter Collector.sensitive envKeys),
                      mkWorld rest (config_file w))).
Proof.
  split; [| split].
  - intros secrets w' H k Hk. unfold Collector.collectSecrets in H.
    destruct (length envKeys =? 0)%nat; [injection H as <- <-; destruct Hk |].
    unfold Prompt.checkbox in H. apply ask_Returned_inv in H as (a & _ & Hread & _).
    destruct a as [|s|c|b|n|vs]; try discriminate.
    + injection Hread as <-.
      apply list_elem_of_In, list_elem_of_filter in Hk as [_ Hk]. now apply list_elem_of_In.
    + destruct (forallb _ vs); [| discriminate].
      injection Hread as <-.
      apply list_elem_of_In, list_elem_of_filter in Hk as [_ Hk]. now apply list_elem_of_In.
  - now intros ->.
  - intros rest Hne Hscript. unfold Collector.collectSecrets.
    destruct envKeys as [|k keys]; [congruence |]. cbn [length Nat.eqb].
    unfold Prompt.checkbox, Prompt.ask. now rewrite Hscript.
Qed.

(** The secrets selected are among the env keys detected.  With no
    env key the selection is empty and no question is asked; accepting
    the checkbox as proposed selects the keys that hold [secret],
    [password], [key], [token] or [api] in any letter case. *)
Theorem secrets_are_env_keys (envKeys : list string) (w : World) :
  (forall secrets w',
      Collector.collectSecrets envKeys w = (Returned secrets, w') ->
      forall k, In k secrets -> In k envKeys)
  /\ (envKeys = [] -> Collector.collectSecrets envKeys w = (Returned [], w))
  /\ (forall rest, envKeys <> [] -> script w = Accept :: rest ->
                   Collector.collectSecrets envKeys w
                   = (Returned (filter Collector.sensitive envKeys),
                      mkWorld rest (config_file w))).
Proof. exact (@collectSecrets_inv envKeys w). Qed.

Lemma secrets_are_env_keys_witness :
  Collector.collectSecrets ["DB_URL"; "API_KEY"; "Session_Token"]
    (mkWorld [Accept] None)
  = (Returned ["API_KEY"; "Session_Token"], mkWorld [] None).
Proof.
  apply (proj2 (proj2 (secrets_are_env_keys ["DB_URL"; "API_KEY"; "Session_Token"]
                         (mkWorld [Accept] None))) []); [discriminate | reflexivity].
Defined.

Lemma collectBranchConfig_inv (w w' : World) (br : BranchConfig.t) :
  Collector.collectBranchConfig w = (Returned br, w') ->
  BranchConfig.production br <> EmptyString
  /\ BranchConfig.staging br <> Some EmptyString
  /\ config_file w' = config_file w.
Proof.
  intros H.
  pose proof (keeps_collectBranchConfig w) as Hkeep. rewrite H in Hkeep. cbn [snd] in Hkeep.
  unfold Collector.collectBranchConfig in H.
  apply bind_Returned_inv in H as (production & w1 & Hprod & H).
  apply bind_Returned_inv in H as (hasStaging & w2 & _ & H).
  apply bind_Returned_inv in H as (staging & w3 & Hstaging & H).
  injection H as <- <-. cbn [BranchConfig.production BranchConfig.staging].
  apply input_value in Hprod as (_ & Hprod & _).
  split; [| split; [| exact Hkeep]].
  - destruct Hprod as [->|Hprod]; [discriminate |]. now destruct production.
  - destruct hasStaging; [| injection Hstaging as <- _; discriminate].
    apply bind_Returned_inv in Hstaging as (s & w4 & Hs & Hret).
    injection Hret as <- _. apply input_value in Hs as (_ & Hs & _).
    destruct Hs as [->|Hs]; [discriminate |]. now destruct s.
Qed.


(** ** How a collection can end *)

Lemma calm_of_keeps_store {A : Type} (m : M A) :
  Spec.keeps_store m ->
  (forall w, match fst (m w) with
             | Thrown _ => False
             | Exited code => code = 0
             | Returned _ | Blocked => True
             end) ->
  Run.calm m.
Proof.
  intros Hkeep Hend w. specialize (Hkeep w). specialize (Hend w).
  unfold Run.calm_at, Run.fault, Spec.has_projects. rewrite Hkeep.
  split; [reflexivity |]. split; [reflexivity |]. split; [auto |].
  destruct (fst (m w)); tauto.
Qed.

Lemma calm_ret {A : Type} (a : A) : Run.calm (ret a).
Proof. apply calm_of_keeps_store; [apply keeps_ret | intros w; exact I]. Qed.

Lemma calm_blocked {A : Type} : Run.calm (@blocked A).
Proof. apply calm_of_keeps_store; [apply keeps_blocked | intros w; exact I]. Qed.

Lemma calm_exit_0 {A : Type} : Run.calm (@process_exit A 0).
Proof. apply calm_of_keeps_store; intros w; reflexivity. Qed.

Lemma calm_bind_at {A B : Type} (m : M A) (k : A -> M B) (w : World) :
  Run.calm_at m w ->
  (forall a w1, m w = (Returned a, w1) -> Run.calm_at (k a) w1) ->
  Run.calm_at (bind m k) w.
Proof.
  intros (Hfault & Hprojects & Hfile & Hend) Hk. unfold Run.calm_at, bind in *.
  destruct (m w) as [[a|code|e|] w1]; cbn [fst snd] in *;
    try (split; [| split; [| split]]; assumption).
  destruct (Hk a w1 eq_refl) as (Hfault' & Hprojects' & Hfile' & Hend').
  split; [congruence |]. split; [congruence |]. split.
  - intros Hw. rewrite Hfile' by congruence. now apply Hfile.
  - destruct (fst (k a w1)); try assumption. congruence.
Qed.

Lemma calm_bind {A B : Type} (m : M A) (k : A -> M B) :
  Run.calm m -> (forall a, Run.calm (k a)) -> Run.calm (bind m k).
Proof. intros Hm Hk w. apply calm_bind_at; [apply Hm | intros a w1 _; apply Hk]. Qed.

Lemma input_ends (default : string) (validate : string -> bool) (w : World) :
  match fst (Prompt.input default validate w) with
  | Thrown _ => False
  | Exited code => code = 0
  | Returned _ | Blocked => True
  end.
Proof.
  unfold Prompt.input. generalize (config_file w).
  induction (script w) as [|a answers IH]; intros config; cbn [Prompt.input_from]; [exact I |].
  destruct a as [|s|c|b|n|vs]; try exact I.
  - destruct (validate default); [exact I | apply IH].
  - destruct (validate (if Js.truthy_string s then s else default)); [exact I | apply IH].
Qed.

Lemma calm_input (default : string) (validate : string -> bool) :
  Run.calm (Prompt.input default validate).
Proof. apply calm_of_keeps_store; [apply keeps_input | apply input_ends]. Qed.

Lemma calm_ask {A : Type} (read : answer -> option A) : Run.calm (Prompt.ask read).
Proof.
  apply calm_of_keeps_store; [apply keeps_ask |].
  intros w. unfold Prompt.ask. destruct (script w) as [|a answers]; [exact I |].
  now destruct (read a).
Qed.

(** [saveServer] returns on a store without a fault, and leaves it
    without one; on a store with a fault it throws that fault. *)
Lemma calm_saveServer (name : string) (server : ServerConfig.t) :
  Run.calm (ConfigStore.saveServer name server).
Proof.
  intros [answers [[e | [| [servers |] [projects |]]] |]];
    unfold Run.calm_at, Run.fault, Spec.has_projects;
    cbn; repeat split; try reflexivity; try congruence.
Qed.

Ltac step_calm :=
  first
    [ apply calm_saveServer
    | apply calm_bind; [| intros ?]
    | apply calm_ret
    | apply calm_blocked
    | apply calm_exit_0
    | apply calm_input
    | apply calm_ask
    | match goal with
      | |- Run.calm (if ?b then _ else _) => destruct b
      | |- Run.calm (match ?x with _ => _ end) => destruct x
      end ].

Lemma calm_collectProjectConfig (detection : DetectionResult.t) (projectName : string) :
  Run.calm (Collector.collectProjectConfig detection projectName).
Proof.
  unfold Collector.collectProjectConfig, Prompt.select, Prompt.number. repeat step_calm.
Qed.

Lemma calm_addNewServer : Run.calm Collector.addNewServer.
Proof. unfold Collector.addNewServer. cbv zeta. repeat step_calm. Qed.

Lemma calm_chooseServer (saved : gmap string ServerConfig.t) :
  Run.calm (Collector.chooseServer saved).
Proof.
  unfold Collector.chooseServer, Prompt.select. cbv zeta.
  destruct (0 <? length (Collector.Object_keys saved))%nat; [| apply calm_addNewServer].
  apply calm_bind; [apply calm_ask |]. intros choice.
  destruct (negb (choice =? "__new__")%string); [| apply calm_addNewServer].
  repeat step_calm.
Qed.

(** On a store with a fault, collect-server throws it before any
    prompt, and writes nothing. *)
Lemma collectServerConfig_fault (w : World) (e : error) :
  Run.fault w = Some e -> Collector.collectServerConfig w = (Thrown e, w).
Proof.
  unfold Run.fault.
  destruct w as [answers [[e' | [| [servers |] projects]] |]]; cbn [config_file];
    intros H; try discriminate; injection H as <-; reflexivity.
Qed.

Lemma calm_collectServerConfig : Run.calm Collector.collectServerConfig.
Proof.
  intros w. destruct (Run.fault w) as [e|] eqn:Hfault.
  - unfold Run.calm_at. rewrite (collectServerConfig_fault w e Hfault). cbn [fst snd].
    now rewrite Hfault.
  - assert (Hservers : Spec.has_servers w = true).
    { revert Hfault. unfold Run.fault, Spec.has_servers.
      destruct w as [answers [[e | [| [servers |] projects]] |]]; cbn [config_file];
        intros H; try discriminate; reflexivity. }
    unfold Collector.collectServerConfig.
    apply calm_bind_at.
    + unfold Run.calm_at. rewrite (getSavedServers_run w Hservers). cbn [fst snd]. tauto.
    + intros saved w1 Hget. rewrite (getSavedServers_run w Hservers) in Hget.
      injection Hget as <- <-. apply calm_chooseServer.
Qed.

Lemma calm_collectDomainConfig : Run.calm Collector.collectDomainConfig.
Proof. unfold Collector.collectDomainConfig, Prompt.confirm. repeat step_calm. Qed.

Lemma calm_collectSecrets (envKeys : list string) : Run.calm (Collector.collectSecrets envKeys).
Proof. unfold Collector.collectSecrets, Prompt.checkbox. repeat step_calm. Qed.

Lemma calm_collectBranchConfig : Run.calm Collector.collectBranchConfig.
Proof. unfold Collector.collectBranchConfig, Prompt.confirm. repeat step_calm. Qed.

Lemma calm_review_turns (detection : DetectionResult.t) (n : nat) :
  forall config, Run.calm (Collector.review_turns n detection config).
Proof.
  induction n as [|n IH]; intros config; cbn [Collector.review_turns]; [apply calm_blocked |].
  unfold Collector.review_turn, Prompt.select.
  apply calm_bind; [apply calm_ask |]. intros action.
  destruct (action =? "confirm")%string; [apply calm_ret |].
  destruct (action =? "cancel")%string; [apply calm_exit_0 |].
  destruct (action =? "project")%string;
    [apply calm_bind; [apply calm_collectProjectConfig | intros p; apply IH] |].
  destruct (action =? "server")%string;
    [apply calm_bind; [apply calm_collectServerConfig | intros s; apply IH] |].
  destruct (action =? "domain")%string;
    [apply calm_bind; [apply calm_collectDomainConfig | intros dm; apply IH] |].
  apply IH.
Qed.

Lemma calm_reviewLoop (config : CollectedConfig.t) (detection : DetectionResult.t) :
  Run.calm (Collector.reviewLoop config detection).
Proof. intros w. unfold Collector.reviewLoop. apply calm_review_turns. Qed.

Lemma calm_collectConfig (detection : DetectionResult.t) (projectName : string) :
  Run.calm (Collector.collectConfig detection projectName).
Proof.
  unfold Collector.collectConfig.
  apply calm_bind; [apply calm_collectProjectConfig | intros p].
  apply calm_bind; [apply calm_collectServerConfig | intros s].
  apply calm_bind; [apply calm_collectDomainConfig | intros dm].
  apply calm_bind; [apply calm_collectSecrets | intros sec].
  apply calm_bind; [apply calm_collectBranchConfig | intros br].
  apply calm_reviewLoop.
Qed.

(** A collection that returns has gone through collect-server: the
    store it started from had no fault. *)
Lemma collectConfig_Returned_fault (detection : DetectionResult.t) (projectName : string)
    (w w' : World) (config : CollectedConfig.t) :
  Collector.collectConfig detection projectName w = (Returned config, w') ->
  Run.fault w = None.
Proof.
  intros H. unfold Collector.collectConfig in H.
  apply bind_Returned_inv in H as (p & w1 & Hp & H).
  apply bind_Returned_inv in H as (s & w2 & Hs & _).
  pose proof (keeps_collectProjectConfig detection projectName w) as Hkeep.
  rewrite Hp in Hkeep. cbn [snd] in Hkeep.
  destruct (Run.fault w) as [e|] eqn:Hfault; [| reflexivity].
  assert (Hfault1 : Run.fault w1 = Some e) by (unfold Run.fault in *; now rewrite Hkeep).
  rewrite (collectServerConfig_fault w1 e Hfault1) in Hs. discriminate.
Qed.

Lemma collectConfig_fault (detection : DetectionResult.t) (projectName : string)
    (w w1 : World) (p : ProjectConfig.t) (e : error) :
  Collector.collectProjectConfig detection projectName w = (Returned p, w1) ->
  Run.fault w = Some e ->
  Collector.collectConfig detection projectName w = (Thrown e, w1).
Proof.
  intros Hp Hfault. unfold Collector.collectConfig.
  rewrite (bind_Returned _ _ _ _ _ Hp).
  pose proof (keeps_collectProjectConfig detection projectName w) as Hkeep.
  rewrite Hp in Hkeep. cbn [snd] in Hkeep.
  assert (Hfault1 : Run.fault w1 = Some e) by (unfold Run.fault in *; now rewrite Hkeep).
  unfold bind at 1. now rewrite (collectServerConfig_fault w1 e Hfault1).
Qed.

(** How [collectConfig] can end, whatever the operator answers: it
    returns a configuration, and then the store it started from had no
    fault (it could be read and had its map of servers); or it ends
    the process with exit code 0, the cancel of the review; or it
    waits for an answer; or it throws, and then what it throws is the
    fault of the store it started from, and the store is as it was.
    The same holds of [reviewLoop] from any configuration, which can
    however return on a store with a fault.  And on a store with a
    fault the collection does throw, as soon as the project section is
    collected. *)
Theorem collection_throws_only_the_store_fault (detection : DetectionResult.t)
    (projectName : string) (config : CollectedConfig.t) (w : World) :
  match Collector.collectConfig detection projectName w with
  | (Thrown e, w') => Run.fault w = Some e /\ config_file w' = config_file w
  | (Exited code, _) => code = 0
  | (Returned _, _) => Run.fault w = None
  | (Blocked, _) => True
  end
  /\ match Collector.reviewLoop config detection w with
     | (Thrown e, w') => Run.fault w = Some e /\ config_file w' = config_file w
     | (Exited code, _) => code = 0
     | (Returned _, _) | (Blocked, _) => True
     end
  /\ (forall p w1 e,
        Collector.collectProjectConfig detection projectName w = (Returned p, w1) ->
        Run.fault w = Some e ->
        Collector.collectConfig detection projectName w = (Thrown e, w1)).
Proof.
  split; [| split].
  - pose proof (calm_collectConfig detection projectName w) as (_ & _ & Hfile & Hend).
    pose proof (collectConfig_Returned_fault detection projectName w) as Hret.
    destruct (Collector.collectConfig detection projectName w) as [[c|code|e|] w'];
      cbn [fst snd] in *; try assumption.
    + now apply (Hret w' c).
    + split; [exact Hend | apply Hfile; congruence].
  - pose proof (calm_reviewLoop config detection w) as (_ & _ & Hfile & Hend).
    destruct (Collector.reviewLoop config detection w) as [[c|code|e|] w'];
      cbn [fst snd] in *; try assumption.
    split; [exact Hend | apply Hfile; congruence].
  - intros p w1 e. apply collectConfig_fault.
Qed.

(** ** The store across a collection *)

Lemma extends_refl (w : World) : Run.extends w w.
Proof. split; auto. Qed.

Lemma extends_trans (w1 w2 w3 : World) :
  Run.extends w1 w2 -> Run.extends w2 w3 -> Run.extends w1 w3.
Proof. intros [H1 P1] [H2 P2]. split; [auto | congruence]. Qed.

Lemma extends_same_file (w w' : World) : config_file w' = config_file w -> Run.extends w w'.
Proof.
  intros H. unfold Run.extends, ConfigStore.stored. rewrite H. split; auto.
Qed.

Lemma labels_of_keeps_store {A : Type} (m : M A) : Spec.keeps_store m -> Run.keeps_labels m.
Proof. intros H w. apply extends_same_file, H. Qed.

Lemma labels_bind {A B : Type} (m : M A) (k : A -> M B) :
  Run.keeps_labels m -> (forall a, Run.keeps_labels (k a)) -> Run.keeps_labels (bind m k).
Proof.
  intros Hm Hk w. unfold bind. specialize (Hm w).
  destruct (m w) as [[a|code|e|] w1]; cbn [snd] in *; try assumption.
  eapply extends_trans; [exact Hm | apply Hk].
Qed.

Lemma labels_saveServer (name : string) (server : ServerConfig.t) :
  Run.keeps_labels (ConfigStore.saveServer name server).
Proof.
  intros w. destruct (Spec.has_servers w) eqn:Hservers.
  - destruct (saveServer_run name server w Hservers)
      as (w' & -> & _ & _ & Hsaved & Hprojects & _).
    cbn [snd]. split; [| exact Hprojects].
    intros label Hlabel. rewrite Hsaved. now apply assign_keeps.
  - destruct (saveServer_throws name server w Hservers) as [e ->]. apply extends_refl.
Qed.

Lemma labels_addNewServer : Run.keeps_labels Collector.addNewServer.
Proof.
  unfold Collector.addNewServer.
  repeat (apply labels_bind; [apply labels_of_keeps_store, keeps_input | intros ?]).
  apply labels_bind; [apply labels_saveServer | intros ?].
  apply labels_of_keeps_store, keeps_ret.
Qed.

Lemma labels_chooseServer (saved : gmap string ServerConfig.t) :
  Run.keeps_labels (Collector.chooseServer saved).
Proof.
  unfold Collector.chooseServer. cbv zeta.
  destruct (0 <? length (Collector.Object_keys saved))%nat; [| apply labels_addNewServer].
  apply labels_bind; [apply labels_of_keeps_store, keeps_ask | intros choice].
  destruct (negb (choice =? "__new__")%string); [| apply labels_addNewServer].
  apply labels_of_keeps_store. repeat step_keeps.
Qed.

Lemma keeps_getSavedServers : Spec.keeps_store ConfigStore.getSavedServers.
Proof. intros [answers [[e | [| servers projects]] |]]; reflexivity. Qed.

Lemma labels_collectServerConfig : Run.keeps_labels Collector.collectServerConfig.
Proof.
  unfold Collector.collectServerConfig.
  apply labels_bind; [apply labels_of_keeps_store, keeps_getSavedServers | intros saved].
  destruct saved as [saved|]; [apply labels_chooseServer |].
  apply labels_of_keeps_store, keeps_throw.
Qed.

Lemma labels_review_turns (detection : DetectionResult.t) (n : nat) :
  forall config, Run.keeps_labels (Collector.review_turns n detection config).
Proof.
  induction n as [|n IH]; intros config; cbn [Collector.review_turns].
  - apply labels_of_keeps_store, keeps_blocked.
  - unfold Collector.review_turn, Prompt.select.
    apply labels_bind; [apply labels_of_keeps_store, keeps_ask | intros action].
    destruct (action =? "confirm")%string; [apply labels_of_keeps_store, keeps_ret |].
    destruct (action =? "cancel")%string;
      [apply labels_of_keeps_store; intros w; reflexivity |].
    destruct (action =? "project")%string;
      [apply labels_bind;
       [apply labels_of_keeps_store, keeps_collectProjectConfig | intros p; apply IH] |].
    destruct (action =? "server")%string;
      [apply labels_bind; [apply labels_collectServerConfig | intros s; apply IH] |].
    destruct (action =? "domain")%string;
      [apply labels_bind;
       [apply labels_of_keeps_store, keeps_collectDomainConfig | intros dm; apply IH] |].
    apply IH.
Qed.

Lemma labels_collectConfig (detection : DetectionResult.t) (projectName : string) :
  Run.keeps_labels (Collector.collectConfig detection projectName).
Proof.
  unfold Collector.collectConfig.
  apply labels_bind;
    [apply labels_of_keeps_store, keeps_collectProjectConfig | intros p].
  apply labels_bind; [apply labels_collectServerConfig | intros s].
  apply labels_bind; [apply labels_of_keeps_store, keeps_collectDomainConfig | intros dm].
  apply labels_bind; [apply labels_of_keeps_store, keeps_collectSecrets | intros sec].
  apply labels_bind; [apply labels_of_keeps_store, keeps_collectBranchConfig | intros br].
  intros w0. unfold Collector.reviewLoop. apply labels_review_turns.
Qed.

(** However a collection goes and however it ends (returned, cancelled
    or left waiting), it deletes no saved server profile and leaves the
    project history as it was: every label saved before is still saved
    after, possibly with a newer profile. *)
Theorem collection_keeps_saved_profiles (detection : DetectionResult.t) (projectName : string)
    (w : World) (label : string) (profile : ServerConfig.t) :
  GlobalConfig.servers (ConfigStore.stored w) !! label = Some profile ->
  let after := snd (Collector.collectConfig detection projectName w) in
  (exists profile', GlobalConfig.servers (ConfigStore.stored after) !! label = Some profile')
  /\ GlobalConfig.projects (ConfigStore.stored after)
     = GlobalConfig.projects (ConfigStore.stored w).
Proof.
  intros Hsaved after.
  destruct (labels_collectConfig detection projectName w) as [Hlabels Hprojects].
  split; [| exact Hprojects].
  apply Hlabels. rewrite Hsaved. eauto.
Qed.

Lemma collection_keeps_saved_profiles_witness :
  exists profile',
    GlobalConfig.servers
      (ConfigStore.stored
         (snd (Collector.collectConfig (Spec.static_defaults flask) "demo"
                 (mkWorld (firstn 5 Samples.cancelling
                           ++ [Choice "__new__"; Text "203.0.113.7"; Text "root";
                               Text "~/.ssh/id_rsa"; Text "/srv/apps"; Text "prod";
                               Accept; Accept; Accept; Choice "cancel"])
                    (Some Samples.one_server))))) !! "prod" = Some profile'
    /\ profile' = Samples.new_profile.
Proof.
  destruct (collection_keeps_saved_profiles (Spec.static_defaults flask) "demo"
              (mkWorld (firstn 5 Samples.cancelling
                        ++ [Choice "__new__"; Text "203.0.113.7"; Text "root";
                            Text "~/.ssh/id_rsa"; Text "/srv/apps"; Text "prod";
                            Accept; Accept; Accept; Choice "cancel"])
                 (Some Samples.one_server))
              "prod" Samples.old_profile eq_refl) as [[profile' Hkept] _].
  exists profile'. split; [exact Hkept |].
  vm_compute in Hkept. now injection Hkept as <-.
Defined.

(** ** Writes to the store *)

(** What [saveProjectRecord] does on a store that has its map of
    projects. *)
Lemma saveProjectRecord_run (now name type : string) (w : World) :
  Spec.has_projects w = true ->
  exists w',
    ConfigStore.saveProjectRecord now name type w = (Returned tt, w')
    /\ script w' = script w
    /\ GlobalConfig.servers (ConfigStore.stored w')
       = GlobalConfig.servers (ConfigStore.stored w)
    /\ GlobalConfig.projects (ConfigStore.stored w')
       = ConfigStore.assign name (ProjectRecord.mk type (Some now))
           (GlobalConfig.projects (ConfigStore.stored w))
    /\ Spec.has_projects w' = true.
Proof.
  unfold Spec.has_projects, ConfigStore.saveProjectRecord, ConfigStore.stored, bind,
    ConfigStore.loadGlobalConfig, ConfigStore.saveGlobalConfig.
  destruct w as [answers [[e|[|servers [projects|]]]|]]; cbn [config_file script];
    try discriminate; intros _; eexists; repeat split.
Qed.

(** On a store without its map of projects, [saveProjectRecord] throws
    and writes nothing. *)
Lemma saveProjectRecord_throws (now name type : string) (w : World) :
  Spec.has_projects w = false ->
  exists e, ConfigStore.saveProjectRecord now name type w = (Thrown e, w).
Proof.
  unfold Spec.has_projects, ConfigStore.saveProjectRecord, bind, ConfigStore.loadGlobalConfig,
    throw.
  destruct w as [answers [[e|[|servers [projects|]]]|]]; cbn [config_file script];
    try discriminate; intros _; eauto.
Qed.

Lemma assign_assign_eq {A : Type} (name : string) (v v' : A) (record : gmap string A) :
  ConfigStore.assign name v' (ConfigStore.assign name v record)
  = ConfigStore.assign name v' record.
Proof.
  unfold ConfigStore.assign at 2 3.
  destruct (record !! name) eqn:Hname.
  - unfold ConfigStore.assign. now rewrite lookup_insert_eq, insert_insert_eq.
  - destruct (name =? "__proto__")%string eqn:Hproto.
    + unfold ConfigStore.assign. now rewrite Hname, Hproto.
    + unfold ConfigStore.assign. now rewrite lookup_insert_eq, insert_insert_eq.
Qed.

Lemma assign_assign_ne {A : Type} (name name' : string) (v v' : A) (record : gmap string A) :
  name <> name' ->
  ConfigStore.assign name' v' (ConfigStore.assign name v record)
  = ConfigStore.assign name v (ConfigStore.assign name' v' record).
Proof.
  intros Hne.
  unfold ConfigStore.assign at 1 3.
  rewrite (assign_lookup_other name name') by congruence.
  rewrite (assign_lookup_other name' name) by congruence.
  unfold ConfigStore.assign.
  destruct (record !! name), (record !! name'), (name =? "__proto__")%string,
    (name' =? "__proto__")%string;
    first [reflexivity | apply insert_insert_ne; congruence].
Qed.

(** Two saves under one label leave what the second alone leaves (the
    last write wins, and saving a profile twice is saving it once);
    saves under two different labels give the same store in either
    order; and on a store that has both its maps or neither, a server
    save and a project record give the same store in either order. *)
Lemma store_writes (w : World) (name name' : string) (s s' : ServerConfig.t)
    (now project type : string) :
  (_ <- ConfigStore.saveServer name s ;; ConfigStore.saveServer name s') w
  = ConfigStore.saveServer name s' w
  /\ (name <> name' ->
      (_ <- ConfigStore.saveServer name s ;; ConfigStore.saveServer name' s') w
      = (_ <- ConfigStore.saveServer name' s' ;; ConfigStore.saveServer name s) w)
  /\ (Spec.has_servers w = Spec.has_projects w ->
      (_ <- ConfigStore.saveServer name s ;; ConfigStore.saveProjectRecord now project type) w
      = (_ <- ConfigStore.saveProjectRecord now project type ;;
         ConfigStore.saveServer name s) w).
Proof.
  unfold Spec.has_servers, Spec.has_projects.
  destruct w as [answers [[e | [| [servers |] [projects |]]] |]]; cbn [config_file];
    (split; [| split]); try reflexivity; try discriminate; try (intros _; reflexivity).
  all: unfold bind, ConfigStore.saveServer, bind, ConfigStore.loadGlobalConfig,
         ConfigStore.saveGlobalConfig; cbn [config_file script].
  all: try (now rewrite assign_assign_eq).
  all: intros Hne; now rewrite (assign_assign_ne name name' s s' _ Hne).
Qed.

Theorem store_writes_compose (w : World) (name name' : string) (s s' : ServerConfig.t)
    (now project type : string) :
  (_ <- ConfigStore.saveServer name s ;; ConfigStore.saveServer name s') w
  = ConfigStore.saveServer name s' w
  /\ (name <> name' ->
      (_ <- ConfigStore.saveServer name s ;; ConfigStore.saveServer name' s') w
      = (_ <- ConfigStore.saveServer name' s' ;; ConfigStore.saveServer name s) w)
  /\ (Spec.has_servers w = Spec.has_projects w ->
      (_ <- ConfigStore.saveServer name s ;; ConfigStore.saveProjectRecord now project type) w
      = (_ <- ConfigStore.saveProjectRecord now project type ;;
         ConfigStore.saveServer name s) w).
Proof. apply store_writes. Qed.

Lemma store_writes_compose_witness :
  (_ <- ConfigStore.saveServer "prod" Samples.old_profile ;;
   ConfigStore.saveServer "staging" Samples.new_profile) (mkWorld [] None)
  = (_ <- ConfigStore.saveServer "staging" Samples.new_profile ;;
     ConfigStore.saveServer "prod" Samples.old_profile) (mkWorld [] None).
Proof.
  apply (proj1 (proj2 (store_writes_compose (mkWorld [] None) "prod" "staging"
                         Samples.old_profile Samples.new_profile "" "" ""))).
  discriminate.
Defined.

(** On a store file whose object has its map of servers and no map of
    projects, the two orders differ: the server save followed by the
    project record writes the profile before the record throws, the
    other order throws at once and writes nothing. *)
Lemma store_writes_on_a_store_without_projects :
  let w := mkWorld [] (Some (StoreFile.Holds (StoreFile.Object (Some ∅) None))) in
  (_ <- ConfigStore.saveServer "prod" Samples.old_profile ;;
   ConfigStore.saveProjectRecord "" "demo" "flask") w
  = (Thrown TypeError,
     mkWorld []
       (Some (StoreFile.Holds (StoreFile.Object (Some {[ "prod" := Samples.old_profile ]}) None))))
  /\ (_ <- ConfigStore.saveProjectRecord "" "demo" "flask" ;;
      ConfigStore.saveServer "prod" Samples.old_profile) w
     = (Thrown TypeError, w).
Proof. split; reflexivity. Qed.

(** ** The server section *)

Lemma entry_not_empty (default v : string) :
  default <> EmptyString -> v = default \/ Js.truthy_string v = true -> v <> EmptyString.
Proof. intros Hd [->|Hv]; [exact Hd | now destruct v]. Qed.

Lemma addNewServer_inv (w w' : World) (s : ServerConfig.t) :
  Collector.addNewServer w = (Returned s, w') -> Run.entered w w' s.
Proof.
  intros H. unfold Collector.addNewServer in H.
  apply bind_Returned_inv in H as (host & w1 & Hhost & H).
  apply bind_Returned_inv in H as (user & w2 & Huser & H).
  apply bind_Returned_inv in H as (key & w3 & Hkey & H).
  apply bind_Returned_inv in H as (dir & w4 & Hdir & H).
  apply bind_Returned_inv in H as (label & w5 & Hlabel & H).
  apply bind_Returned_inv in H as ([] & w6 & Hsave & H).
  injection H as <- <-.
  assert (Hservers : Spec.has_servers w5 = true).
  { destruct (Spec.has_servers w5) eqn:Hs; [reflexivity |].
    destruct (saveServer_throws label (ServerConfig.mk host user key dir) w5 Hs) as [e He].
    rewrite He in Hsave. discriminate. }
  destruct (saveServer_run label (ServerConfig.mk host user key dir) w5 Hservers)
    as (w7 & Hrun & _ & _ & Hsaved & Hprojects & _).
  rewrite Hrun in Hsave. injection Hsave as <-.
  apply input_value in Hhost as (Hblank & _ & H1).
  apply input_value in Huser as (_ & Huser & H2).
  apply input_value in Hkey as (_ & Hkey & H3).
  apply input_value in Hdir as (_ & Hdir & H4).
  apply input_value in Hlabel as (_ & Hlabel & H5).
  assert (Hfile : config_file w5 = config_file w) by congruence.
  assert (Hstore : ConfigStore.stored w5 = ConfigStore.stored w)
    by (unfold ConfigStore.stored; now rewrite Hfile).
  assert (Hhost : host <> EmptyString) by (intros ->; discriminate).
  unfold Run.entered. cbn [ServerConfig.host ServerConfig.user ServerConfig.sshKeyPath
                            ServerConfig.deployDir config_file].
  split; [exact Hblank |].
  split; [eapply entry_not_empty; [| exact Huser]; discriminate |].
  split; [eapply entry_not_empty; [| exact Hkey]; discriminate |].
  split; [eapply entry_not_empty; [| exact Hdir]; discriminate |].
  exists label. split; [eapply entry_not_empty; [exact Hhost | exact Hlabel] |].
  rewrite Hsaved, Hprojects, Hstore. split; reflexivity.
Qed.

Lemma collectServerConfig_origin (w w' : World) (s : ServerConfig.t) :
  Collector.collectServerConfig w = (Returned s, w') ->
  Run.from_store w w' s \/ Run.entered w w' s.
Proof.
  intros H. unfold Collector.collectServerConfig in H.
  apply bind_Returned_inv in H as (saved & w1 & Hsaved & H).
  destruct saved as [saved|]; [| discriminate].
  assert (Hw : w1 = w /\ saved = GlobalConfig.servers (ConfigStore.stored w)).
  { revert Hsaved. destruct w as [answers [[e | [| [servers |] projects]] |]];
      intros Hsaved; try discriminate; injection Hsaved as <- <-; split; reflexivity. }
  destruct Hw as [-> ->]. clear Hsaved. unfold Collector.chooseServer in H. cbv zeta in H.
  destruct (0 <? length _)%nat; [| right; now apply addNewServer_inv].
  apply bind_Returned_inv in H as (choice & w1 & Hchoice & H).
  apply select_Returned_shorter in Hchoice as [_ Hfile].
  assert (Hstore : ConfigStore.stored w1 = ConfigStore.stored w)
    by (unfold ConfigStore.stored; now rewrite Hfile).
  destruct (negb (choice =? "__new__")%string).
  - destruct (GlobalConfig.servers (ConfigStore.stored w) !! choice) as [profile|] eqn:Hp;
      [| discriminate].
    apply bind_Returned_inv in H as (dir & w2 & Hdir & H). injection H as <- <-.
    apply input_value in Hdir as (_ & _ & Hfile2).
    left. exists choice, profile. split; [exact Hp |]. split; [reflexivity | congruence].
  - right. apply addNewServer_inv in H. unfold Run.entered in *.
    now rewrite Hstore in H.
Qed.

(** The server section comes from one of two places: a profile of the
    store, with the deployment directory possibly entered anew and the
    store left as it was; or a profile just entered, whose host is not
    blank and whose user, key path and directory are not empty, and
    which [saveServer] has assigned to a label that is not empty: the
    servers of the store are then those of before with that
    assignment made, which maps the label to the profile unless the
    label is [__proto__]. *)
Theorem server_section_origin (w w' : World) (s : ServerConfig.t) :
  Collector.collectServerConfig w = (Returned s, w') ->
  Run.from_store w w' s
  \/ (Run.entered w w' s
      /\ exists label,
           GlobalConfig.servers (ConfigStore.stored w')
           = ConfigStore.assign label s (GlobalConfig.servers (ConfigStore.stored w))
           /\ (label <> "__proto__" ->
               GlobalConfig.servers (ConfigStore.stored w') !! label = Some s)).
Proof.
  intros H. apply collectServerConfig_origin in H as [H | H]; [now left | right].
  split; [exact H |].
  destruct H as (_ & _ & _ & _ & label & _ & Hsaved & _).
  exists label. split; [exact Hsaved |].
  intros Hlabel. rewrite Hsaved. now apply assign_lookup_same.
Qed.

Lemma server_section_origin_witness :
  exists s w',
    Collector.collectServerConfig
      (mkWorld [Choice "prod"; Text "/srv/www"] (Some Samples.one_server)) = (Returned s, w')
    /\ (Run.from_store (mkWorld [Choice "prod"; Text "/srv/www"] (Some Samples.one_server)) w' s
        \/ (Run.entered (mkWorld [Choice "prod"; Text "/srv/www"] (Some Samples.one_server)) w' s
            /\ exists label,
                 GlobalConfig.servers (ConfigStore.stored w')
                 = ConfigStore.assign label s
                     (GlobalConfig.servers
                        (ConfigStore.stored
                           (mkWorld [Choice "prod"; Text "/srv/www"]
                              (Some Samples.one_server))))
                 /\ (label <> "__proto__" ->
                     GlobalConfig.servers (ConfigStore.stored w') !! label = Some s))).
Proof.
  eexists _, _. split; [vm_compute; reflexivity |].
  apply server_section_origin. vm_compute. reflexivity.
Defined.

(** ** The configuration as a whole *)

Lemma wellformed_review_turns (detection : DetectionResult.t) (envKeys : list string) (n : nat) :
  forall (config config' : CollectedConfig.t) (w w' : World),
    Run.wellformed envKeys config ->
    Collector.review_turns n detection config w = (Returned config', w') ->
    Run.wellformed envKeys config'.
Proof.
  induction n as [|n IH]; intros config config' w w' Hwf H; [discriminate |].
  cbn [Collector.review_turns] in H. unfold Collector.review_turn in H.
  apply bind_Returned_inv in H as (action & w1 & _ & H).
  destruct (action =? "confirm")%string; [now injection H as <- <- |].
  destruct (action =? "cancel")%string; [discriminate |].
  destruct Hwf as (Hname & Hlang & Hdomain & Hsecrets & Hprod & Hstaging & Hreg).
  destruct (action =? "project")%string.
  { apply bind_Returned_inv in H as (p & w2 & Hp & H).
    apply collectProjectConfig_inv in Hp as (Hn & _ & Hl & _).
    apply IH in H; [exact H |]. unfold Run.wellformed. cbn. auto 10. }
  destruct (action =? "server")%string.
  { apply bind_Returned_inv in H as (s & w2 & _ & H).
    apply IH in H; [exact H |]. unfold Run.wellformed. cbn. auto 10. }
  destruct (action =? "domain")%string.
  { apply bind_Returned_inv in H as (dm & w2 & Hdm & H).
    apply collectDomainConfig_inv in Hdm as [Hd _].
    apply IH in H; [exact H |]. unfold Run.wellformed. cbn. auto 10. }
  apply IH in H; [exact H |]. unfold Run.wellformed. auto 10.
Qed.

Lemma collectConfig_wellformed (detection : DetectionResult.t)
    (projectName : string) (w w' : World) (config : CollectedConfig.t) :
  Collector.collectConfig detection projectName w = (Returned config, w') ->
  Run.wellformed (DetectionResult.envKeys detection) config.
Proof.
  intros H. unfold Collector.collectConfig in H.
  apply bind_Returned_inv in H as (p & w1 & Hp & H).
  apply bind_Returned_inv in H as (s & w2 & _ & H).
  apply bind_Returned_inv in H as (dm & w3 & Hdm & H).
  apply bind_Returned_inv in H as (sec & w4 & Hsec & H).
  apply bind_Returned_inv in H as (br & w5 & Hbr & H).
  apply collectProjectConfig_inv in Hp as (Hn & _ & Hl & _).
  apply collectDomainConfig_inv in Hdm as [Hd _].
  pose proof (proj1 (collectSecrets_inv _ _) _ _ Hsec) as Hkeys.
  apply collectBranchConfig_inv in Hbr as (Hprod & Hst & _).
  unfold Collector.reviewLoop in H.
  eapply wellformed_review_turns; [| exact H].
  unfold Run.wellformed. cbn. auto 10.
Qed.

(** A configuration that [collectConfig] returns, after any number of
    edits in the review, has a project name accepted by the name
    pattern, the language of its archetype, a domain section that is
    the disabled record or enabled with a name that is not blank,
    secrets among the env keys detected, branch names that are not
    empty, and the registry [ghcr.io]. *)
Theorem collected_configuration_is_wellformed (detection : DetectionResult.t)
    (projectName : string) (w w' : World) (config : CollectedConfig.t) :
  Collector.collectConfig detection projectName w = (Returned config, w') ->
  Run.wellformed (DetectionResult.envKeys detection) config.
Proof. exact (@collectConfig_wellformed detection projectName w w' config). Qed.

Lemma collected_configuration_is_wellformed_witness :
  exists config w',
    Collector.collectConfig (Spec.static_defaults flask) "demo"
      (mkWorld (firstn 5 Samples.cancelling
                ++ [Choice "__new__"; Text "203.0.113.7"; Text "root";
                    Text "~/.ssh/id_rsa"; Text "/srv/apps"; Text "prod";
                    Accept; Accept; Accept; Choice "domain"; YesNo true;
                    Text "example.org"; Accept; Choice "confirm"])
         (Some Samples.one_server)) = (Returned config, w')
    /\ Run.wellformed [] config.
Proof.
  eexists _, _. split; [vm_compute; reflexivity |].
  eapply (collected_configuration_is_wellformed (Spec.static_defaults flask) "demo"
           (mkWorld (firstn 5 Samples.cancelling
                     ++ [Choice "__new__"; Text "203.0.113.7"; Text "root";
                         Text "~/.ssh/id_rsa"; Text "/srv/apps"; Text "prod";
                         Accept; Accept; Accept; Choice "domain"; YesNo true;
                         Text "example.org"; Accept; Choice "confirm"])
              (Some Samples.one_server))).
  vm_compute. reflexivity.
Defined.

(** ** Editing the project in the review *)

Lemma collectProjectConfig_accept (detection : DetectionResult.t) (name : string)
    (rest : list answer) (file : option StoreFile.t) :
  Collector.valid_name name = true ->
  Collector.collectProjectConfig detection name
    (mkWorld (Accept :: Accept :: Accept :: Accept :: Accept :: rest) file)
  = (Returned (Run.proposed detection name), mkWorld rest file).
Proof.
  intros Hname. unfold Collector.collectProjectConfig, bind, Prompt.input, Prompt.select,
    Prompt.number, Prompt.ask.
  cbn [script config_file Prompt.input_from]. rewrite Hname.
  cbn [script config_file Prompt.input_from Prompt.any].
  unfold Run.proposed. now destruct (DetectionResult.type detection) as [[]|].
Qed.

(** In the review, [project] with every proposal accepted, then
    [confirm], keeps the project name but puts the archetype, the port
    and the two commands back to the detected values (the archetype to
    the first of the menu when none was detected), whatever had been
    entered for them before; the other sections stay as they were. *)
Theorem review_project_edit_starts_from_detection (config : CollectedConfig.t)
    (detection : DetectionResult.t) (w : World) (rest : list answer) :
  Collector.valid_name (ProjectConfig.name (CollectedConfig.project config)) = true ->
  script w = Choice "project" :: Accept :: Accept :: Accept :: Accept :: Accept
             :: Choice "confirm" :: rest ->
  Collector.reviewLoop config detection w
  = (Returned (Collector.with_project config
                 (Run.proposed detection (ProjectConfig.name (CollectedConfig.project config)))),
     mkWorld rest (config_file w)).
Proof.
  intros Hname Hscript. destruct w as [answers file]. cbn [script config_file] in *.
  subst answers.
  rewrite reviewLoop_unfold. unfold Collector.review_turn.
  assert (Hsel : Prompt.select Collector.review_actions None
                   (mkWorld (Choice "project" :: Accept :: Accept :: Accept :: Accept :: Accept
                             :: Choice "confirm" :: rest) file)
                 = (Returned "project",
                    mkWorld (Accept :: Accept :: Accept :: Accept :: Accept
                             :: Choice "confirm" :: rest) file))
    by (apply select_Choice; simpl; tauto).
  rewrite (bind_Returned _ _ _ _ _ Hsel).
  cbn [String.eqb Ascii.eqb Bool.eqb].
  rewrite (bind_Returned _ _ _ _ _
             (collectProjectConfig_accept detection _ (Choice "confirm" :: rest) file Hname)).
  rewrite reviewLoop_unfold. unfold Collector.review_turn.
  assert (Hconfirm : Prompt.select Collector.review_actions None
                       (mkWorld (Choice "confirm" :: rest) file)
                     = (Returned "confirm", mkWorld rest file))
    by (apply select_Choice; simpl; tauto).
  now rewrite (bind_Returned _ _ _ _ _ Hconfirm).
Qed.

Lemma review_project_edit_starts_from_detection_witness :
  ProjectConfig.port
    (CollectedConfig.project
       (match fst (Collector.reviewLoop Samples.some_config (Spec.static_defaults nextjs)
                     (mkWorld [Choice "project"; Accept; Accept; Accept; Accept; Accept;
                               Choice "confirm"] None)) with
        | Returned config' => config'
        | _ => Samples.some_config
        end)) = 3000.
Proof.
  rewrite (review_project_edit_starts_from_detection Samples.some_config
             (Spec.static_defaults nextjs)
             (mkWorld [Choice "project"; Accept; Accept; Accept; Accept; Accept;
                       Choice "confirm"] None) [] eq_refl eq_refl).
  reflexivity.
Defined.

(* ===================================================================== *)
(** * The generator *)
(* ===================================================================== *)

(** ** Writes to the tree *)

Lemma lookup_put_same (name : string) (n : Fs.node) (entries : list (string * Fs.node)) :
  Fs.lookup_entry name (Disk.put name n entries) = Some n.
Proof.
  unfold Fs.lookup_entry. induction entries as [|e entries IH]; cbn [Disk.put find fst].
  - rewrite String.eqb_refl. reflexivity.
  - destruct (fst e =? name)%string eqn:He; cbn [find fst].
    + rewrite String.eqb_refl. reflexivity.
    + rewrite He. exact IH.
Qed.

Lemma lookup_put_other (name name' : string) (n : Fs.node) (entries : list (string * Fs.node)) :
  (name =? name')%string = false ->
  Fs.lookup_entry name' (Disk.put name n entries) = Fs.lookup_entry name' entries.
Proof.
  intros Hne. unfold Fs.lookup_entry.
  induction entries as [|e entries IH]; cbn [Disk.put find fst].
  - now rewrite Hne.
  - destruct (fst e =? name)%string eqn:He; cbn [find fst].
    + apply String.eqb_eq in He. rewrite He, Hne. reflexivity.
    + destruct (fst e =? name')%string; [reflexivity | exact IH].
Qed.

Lemma resolve_store_same (path : list string) :
  forall (root root' n : Fs.node),
    Disk.store root path n = Some root' -> Fs.resolve root' path = Some n.
Proof.
  induction path as [|name path IH]; intros root root' n H; cbn [Disk.store] in H.
  - now injection H as <-.
  - destruct root as [c|entries]; [discriminate |].
    destruct path as [|name' path'].
    + injection H as <-. cbn [Fs.resolve]. now rewrite lookup_put_same.
    + destruct (Fs.lookup_entry name entries) as [child|]; [| discriminate].
      destruct (Disk.store child (name' :: path') n) as [child'|] eqn:Hchild; [| discriminate].
      injection H as <-. cbn [Fs.resolve]. rewrite lookup_put_same.
      exact (IH _ _ _ Hchild).
Qed.

Lemma resolve_store_apart (path : list string) :
  forall (q : list string) (root root' n : Fs.node),
    Disk.store root path n = Some root' -> Disk.apart path q = true ->
    Fs.resolve root' q = Fs.resolve root q.
Proof.
  induction path as [|name path IH]; intros q root root' n H Hq; [discriminate |].
  destruct q as [|name' q']; [discriminate |].
  cbn [Disk.store] in H. cbn [Disk.apart] in Hq.
  destruct root as [c|entries]; [discriminate |].
  destruct (name =? name')%string eqn:Hname.
  - apply String.eqb_eq in Hname as <-.
    destruct path as [|name2 path']; [discriminate |].
    destruct (Fs.lookup_entry name entries) as [child|] eqn:Hl; [| discriminate].
    destruct (Disk.store child (name2 :: path') n) as [child'|] eqn:Hchild; [| discriminate].
    injection H as <-. cbn [Fs.resolve]. rewrite lookup_put_same, Hl.
    exact (IH _ _ _ _ Hchild Hq).
  - assert (Hroot : exists child', root' = Fs.Dir (Disk.put name child' entries)).
    { destruct path as [|name2 path']; [injection H as <-; eauto |].
      destruct (Fs.lookup_entry name entries) as [child|]; [| discriminate].
      destruct (Disk.store child (name2 :: path') n) as [child'|]; [| discriminate].
      injection H as <-. eauto. }
    destruct Hroot as [child' ->]. cbn [Fs.resolve]. now rewrite lookup_put_other.
Qed.

Lemma resolve_mkdirSync (path : list string) :
  forall (q : list string) (root root' : Fs.node),
    Disk.mkdirSync root path = Some root' -> Disk.above q path = false ->
    Fs.resolve root' q = Fs.resolve root q.
Proof.
  induction path as [|name path IH]; intros q root root' H Hq.
  - destruct root; cbn [Disk.mkdirSync] in H; [discriminate |]. now injection H as <-.
  - destruct q as [|name' q']; [discriminate |].
    destruct root as [c|entries]; cbn [Disk.mkdirSync] in H; [discriminate |].
    destruct (Disk.mkdirSync (default (Fs.Dir []) (Fs.lookup_entry name entries)) path)
      as [child'|] eqn:Hchild; [| discriminate].
    injection H as <-. cbn [Fs.resolve]. cbn [Disk.above] in Hq.
    destruct (name' =? name)%string eqn:Hname.
    + apply String.eqb_eq in Hname as ->. cbn [andb] in Hq.
      rewrite lookup_put_same, (IH _ _ _ Hchild Hq).
      destruct (Fs.lookup_entry name entries) as [child|]; [reflexivity |].
      destruct q' as [|x q']; [discriminate | reflexivity].
    + rewrite lookup_put_other; [reflexivity |]. now rewrite String.eqb_sym.
Qed.

Lemma apart_not_above_dirname (p : list string) :
  forall q, Disk.apart p q = true -> Disk.above q (Disk.dirname p) = false.
Proof.
  unfold Disk.dirname.
  induction p as [|a p IH]; intros q H; [discriminate |].
  destruct q as [|b q]; [discriminate |]. cbn [Disk.apart] in H.
  destruct p as [|a' p']; [reflexivity |].
  change (removelast (a :: a' :: p')) with (a :: removelast (a' :: p')).
  cbn [Disk.above]. rewrite String.eqb_sym.
  destruct (a =? b)%string; [| reflexivity]. cbn [andb]. now apply IH.
Qed.

Lemma resolve_writeFileSync_same (root root' : Fs.node) (path : list string) (content : string) :
  Disk.writeFileSync root path content = Some root' ->
  Fs.resolve root' path = Some (Fs.File content).
Proof.
  unfold Disk.writeFileSync. intros H.
  apply resolve_store_same with (root := root).
  now destruct (Fs.resolve root path) as [[c|es]|].
Qed.

Lemma resolve_writeFileSync_apart (root root' : Fs.node) (path q : list string)
    (content : string) :
  Disk.writeFileSync root path content = Some root' -> Disk.apart path q = true ->
  Fs.resolve root' q = Fs.resolve root q.
Proof.
  unfold Disk.writeFileSync. intros H.
  apply resolve_store_apart with (n := Fs.File content).
  now destruct (Fs.resolve root path) as [[c|es]|].
Qed.

(** ** One generated file *)

Lemma gbind_Some_inv {A B : Type} (m : Generator.Gen A) (k : A -> Generator.Gen B)
    (d d' : Fs.node) (b : B) :
  Generator.gbind m k d = (Some b, d') ->
  exists a d1, m d = (Some a, d1) /\ k a d1 = (Some b, d').
Proof.
  unfold Generator.gbind. destruct (m d) as [[a|] d1]; [eauto | discriminate].
Qed.

Lemma fs_call_Some_inv (change : Fs.node -> option Fs.node) (d d' : Fs.node) (u : unit) :
  Generator.fs_call change d = (Some u, d') -> change d = Some d'.
Proof.
  unfold Generator.fs_call. destruct (change d) as [d1|]; [| discriminate].
  now intros [= _ <-].
Qed.

Lemma readTemplate_Some_inv (templates : string -> string -> option string)
    (category name t : string) (d d' : Fs.node) :
  Generator.readTemplate templates category name d = (Some t, d') ->
  templates category name = Some t /\ d' = d.
Proof. unfold Generator.readTemplate. now intros [= -> ->]. Qed.

Lemma same_where_refl (ok : list string -> bool) (d : Fs.node) : Disk.same_where ok d d.
Proof. intros q _. reflexivity. Qed.

(** What a call of [writeTemplate] that returns has done. *)
Lemma writeTemplate_spec (template relativePath : string) (vars : list (string * string))
    (d d' : Fs.node) (f : GeneratedFile.t) :
  Disk.apart (Fs.join [relativePath]) (Generator.backup_of relativePath) = true ->
  Generator.writeTemplate template relativePath vars d = (Some f, d') ->
  f = GeneratedFile.mk relativePath (Fs.existsSync d [relativePath])
  /\ Fs.resolve d' (Fs.join [relativePath])
     = Some (Fs.File (Template.replacePlaceholders template vars))
  /\ (if Fs.existsSync d [relativePath]
      then exists c, Fs.resolve d (Fs.join [relativePath]) = Some (Fs.File c)
                     /\ Fs.resolve d' (Generator.backup_of relativePath) = Some (Fs.File c)
      else Fs.resolve d (Fs.join [relativePath]) = None)
  /\ Disk.same_where (Generator.clear_of relativePath) d d'
  /\ Generator.writable d relativePath = true
  /\ Generator.is_dir d [] = true.
Proof.
  intros Hapart H. unfold Generator.writeTemplate in H.
  apply gbind_Some_inv in H as (u1 & d1 & Hcopy & H).
  apply gbind_Some_inv in H as (u2 & d2 & Hmkdir & H).
  apply gbind_Some_inv in H as (u3 & d3 & Hwrite & H).
  injection H as <- <-.
  apply fs_call_Some_inv in Hmkdir, Hwrite.
  pose proof (apart_not_above_dirname _ _ Hapart) as Habove.
  split; [reflexivity |].
  split; [exact (resolve_writeFileSync_same _ _ _ _ Hwrite) |].
  assert (Hroot1 : Generator.is_dir d1 [] = true)
    by (unfold Generator.is_dir; cbn [Fs.resolve]; destruct d1;
        [destruct (Disk.dirname (Fs.join [relativePath])); discriminate | reflexivity]).
  assert (Hb : Generator.backup_of relativePath <> [])
    by (intros Heq; rewrite Heq in Hapart; destruct (Fs.join [relativePath]); discriminate).
  unfold Generator.writable, Generator.free_or_file, Fs.existsSync in *.
  destruct (Fs.resolve d (Fs.join [relativePath])) as [n|] eqn:Hn.
  - apply fs_call_Some_inv in Hcopy. unfold Disk.copyFileSync in Hcopy. rewrite Hn in Hcopy.
    destruct n as [c|es]; [| discriminate].
    split; [| split; [| split]].
    + exists c. split; [reflexivity |].
      rewrite (resolve_writeFileSync_apart _ _ _ _ _ Hwrite Hapart).
      rewrite (resolve_mkdirSync _ _ _ _ Hmkdir Habove).
      exact (resolve_writeFileSync_same _ _ _ _ Hcopy).
    + intros q Hq. unfold Generator.clear_of in Hq. apply andb_true_iff in Hq as [Hp Hq].
      rewrite (resolve_writeFileSync_apart _ _ _ _ _ Hwrite Hp).
      rewrite (resolve_mkdirSync _ _ _ _ Hmkdir (apart_not_above_dirname _ _ Hp)).
      exact (resolve_writeFileSync_apart _ _ _ _ _ Hcopy Hq).
    + unfold Disk.writeFileSync in Hcopy. cbn [negb orb andb].
      now destruct (Fs.resolve d (Generator.backup_of relativePath)) as [[c'|es]|].
    + unfold Disk.writeFileSync in Hcopy. unfold Generator.is_dir. cbn [Fs.resolve].
      destruct d as [c'|entries]; [| reflexivity].
      destruct (Generator.backup_of relativePath) as [|name rest]; [congruence |].
      destruct (Fs.resolve (Fs.File c') (name :: rest)) as [[c2|es]|]; discriminate.
  - unfold Generator.gret in Hcopy. injection Hcopy as _ <-.
    split; [reflexivity |]. split; [| split; [reflexivity | exact Hroot1]].
    intros q Hq. unfold Generator.clear_of in Hq. apply andb_true_iff in Hq as [Hp Hq].
    rewrite (resolve_writeFileSync_apart _ _ _ _ _ Hwrite Hp).
    exact (resolve_mkdirSync _ _ _ _ Hmkdir (apart_not_above_dirname _ _ Hp)).
Qed.

Lemma writable_same (d d' : Fs.node) (relativePath : string) :
  Fs.resolve d' (Fs.join [relativePath]) = Fs.resolve d (Fs.join [relativePath]) ->
  Fs.resolve d' (Generator.backup_of relativePath)
  = Fs.resolve d (Generator.backup_of relativePath) ->
  Generator.writable d relativePath = true -> Generator.writable d' relativePath = true.
Proof.
  unfold Generator.writable, Generator.free_or_file, Fs.existsSync. now intros -> ->.
Qed.

Lemma free_or_dir_same (d d' : Fs.node) (q : list string) :
  Fs.resolve d' q = Fs.resolve d q ->
  Generator.free_or_dir d q = true -> Generator.free_or_dir d' q = true.
Proof. unfold Generator.free_or_dir. now intros ->. Qed.

Lemma mkdirSync_two_inv (a b : string) (d d' : Fs.node) :
  Disk.mkdirSync d [a; b] = Some d' ->
  Generator.free_or_dir d [a] = true /\ Generator.free_or_dir d [a; b] = true.
Proof.
  unfold Generator.free_or_dir. destruct d as [c|entries]; [discriminate |].
  cbn [Disk.mkdirSync Fs.resolve].
  destruct (Fs.lookup_entry a entries) as [[c|es]|]; [discriminate | | now intros _].
  change (default (Fs.Dir []) (Some (Fs.Dir es))) with (Fs.Dir es). cbn [Disk.mkdirSync].
  destruct (Fs.lookup_entry b es) as [[c|es']|]; [discriminate | now intros _ | now intros _].
Qed.

(** ** The files of a generation *)

Ltac back :=
  repeat match goal with
         | F : Disk.same_where ?ok ?dA ?dB |- context [Fs.resolve ?dB ?q] =>
             rewrite (F q ltac:(vm_compute; reflexivity))
         end.

Ltac written H :=
  let f := fresh "f" in
  let d := fresh "d" in
  let Hw := fresh "Hw" in
  let Hf := fresh "Hf" in
  let Hnew := fresh "Hnew" in
  let Hold := fresh "Hold" in
  let F := fresh "F" in
  let Hwr := fresh "Hwr" in
  let Hrt := fresh "Hrt" in
  apply gbind_Some_inv in H as (f & d & Hw & H);
  apply writeTemplate_spec in Hw as (Hf & Hnew & Hold & F & Hwr & Hrt); [| reflexivity].

Ltac read H :=
  let t := fresh "t" in
  let d := fresh "d" in
  let Ht := fresh "Ht" in
  apply gbind_Some_inv in H as (t & d & Ht & H);
  apply readTemplate_Some_inv in Ht as [Ht ->].

Lemma made_intro (templates : string -> string -> option string) (config : CollectedConfig.t)
    (d d' d1 d2 : Fs.node) (relativePath template : string) :
  In relativePath Generator.outputs ->
  templates (fst (Generator.source_of config relativePath))
            (snd (Generator.source_of config relativePath)) = Some template ->
  Fs.resolve d2 (Fs.join [relativePath])
  = Some (Fs.File (Template.replacePlaceholders template (Generator.buildTemplateVars config))) ->
  (if Fs.existsSync d1 [relativePath]
   then exists c, Fs.resolve d1 (Fs.join [relativePath]) = Some (Fs.File c)
                  /\ Fs.resolve d2 (Generator.backup_of relativePath) = Some (Fs.File c)
   else Fs.resolve d1 (Fs.join [relativePath]) = None) ->
  Fs.resolve d1 (Fs.join [relativePath]) = Fs.resolve d (Fs.join [relativePath]) ->
  Fs.resolve d' (Fs.join [relativePath]) = Fs.resolve d2 (Fs.join [relativePath]) ->
  Fs.resolve d' (Generator.backup_of relativePath)
  = Fs.resolve d2 (Generator.backup_of relativePath) ->
  Generator.made templates config d d'
    (GeneratedFile.mk relativePath (Fs.existsSync d1 [relativePath])).
Proof.
  intros Hin Ht Hnew Hold Hpre Hpost Hbackup.
  unfold Generator.made. cbn [GeneratedFile.path GeneratedFile.backedUp].
  split; [exact Hin |]. split; [exists template; split; [exact Ht | congruence] |].
  rewrite <- Hpre, Hbackup. exact Hold.
Qed.

Lemma generateFiles_trace (templates : string -> string -> option string)
    (config : CollectedConfig.t) (d d' : Fs.node) (files : list GeneratedFile.t) :
  Generator.generateFiles templates config d = (Some files, d') ->
  files = Cli.generateFiles config d
  /\ Forall (Generator.made templates config d d') files
  /\ Disk.same_where Generator.clear d d'
  /\ Generator.ready config d = true
  /\ Generator.supplied templates config = true.
Proof.
  intros H. unfold Generator.generateFiles, Generator.getDockerfileTemplate in H.
  read H. written H. read H. written H. read H. written H.
  apply gbind_Some_inv in H as (u & dm & Hmk & H). apply fs_call_Some_inv in Hmk.
  assert (Fm : Disk.same_where
                 (fun q => negb (Disk.above q (Fs.join [".github"; "workflows"]))) d2 dm)
    by (intros q Hq; apply (resolve_mkdirSync _ _ _ _ Hmk); now apply negb_true_iff).
  read H. written H.
  apply gbind_Some_inv in H as (nginx & d5 & Hnginx & H).
  read H. written H. injection H as <- <-.
  assert (Hfiles : forall rel dA, Fs.resolve dA (Fs.join [rel]) = Fs.resolve d (Fs.join [rel]) ->
                     GeneratedFile.mk rel (Fs.existsSync dA [rel])
                     = GeneratedFile.mk rel (Fs.existsSync d [rel]))
    by (intros rel dA Heq; unfold Fs.existsSync; now rewrite Heq).
  assert (Hclear : forall q dA dB rel, Disk.same_where (Generator.clear_of rel) dA dB ->
                     In rel Generator.outputs -> Generator.clear q = true ->
                     Fs.resolve dB q = Fs.resolve dA q).
  { intros q dA dB rel Fr Hin Hq. apply Fr. unfold Generator.clear in Hq.
    rewrite forallb_forall in Hq. now apply Hq. }
  assert (Hmkdir : forall q, Generator.clear q = true -> Fs.resolve dm q = Fs.resolve d2 q).
  { intros q Hq. apply Fm. apply negb_true_iff.
    apply (apart_not_above_dirname (Fs.join [".github/workflows/deploy.yml"])).
    unfold Generator.clear in Hq. rewrite forallb_forall in Hq.
    specialize (Hq ".github/workflows/deploy.yml" ltac:(simpl; tauto)).
    now apply andb_true_iff in Hq as [Hq _]. }
  subst f f0 f1 f2 f3.
  apply mkdirSync_two_inv in Hmk as [Hgithub Hworkflows].
  assert (Hback : forall rel dA, Generator.writable dA rel = true ->
                    Fs.resolve dA (Fs.join [rel]) = Fs.resolve d (Fs.join [rel]) ->
                    Fs.resolve dA (Generator.backup_of rel)
                    = Fs.resolve d (Generator.backup_of rel) ->
                    Generator.writable d rel = true)
    by (intros rel dA Hw Hp Hb; now apply (writable_same dA)).
  assert (Hdirs : Generator.free_or_dir d [".github"] = true
                  /\ Generator.free_or_dir d [".github"; "workflows"] = true)
    by (split; apply (free_or_dir_same d2); try assumption; symmetry; back; reflexivity).
  destruct Hdirs as [Hgithub0 Hworkflows0].
  unfold Generator.ready, Generator.supplied, Generator.targets.
  destruct (Js.array_includes _ ["vue-spa"; "react-spa"]) eqn:Hspa.
  - read Hnginx. written Hnginx. injection Hnginx as <- <-. subst f.
    split; [| split; [| split; [| split]]].
    + unfold Cli.generateFiles, Cli.writeTemplate. rewrite Hspa. cbn [app].
      repeat (apply (f_equal2 cons);
              [first [reflexivity | apply Hfiles; back; reflexivity] |]).
      reflexivity.
    + cbn [app].
      repeat (apply List.Forall_cons;
              [eapply made_intro;
               [simpl; tauto
               | unfold Generator.source_of; cbn [String.eqb Ascii.eqb Bool.eqb fst snd];
                 eassumption
               | eassumption | eassumption
               | back; reflexivity | back; reflexivity | back; reflexivity] |]).
      apply List.Forall_nil.
    + intros q Hq.
      rewrite (Hclear q _ _ _ F3 ltac:(simpl; tauto) Hq).
      rewrite (Hclear q _ _ _ F4 ltac:(simpl; tauto) Hq).
      rewrite (Hclear q _ _ _ F2 ltac:(simpl; tauto) Hq).
      rewrite (Hmkdir q Hq).
      rewrite (Hclear q _ _ _ F1 ltac:(simpl; tauto) Hq).
      rewrite (Hclear q _ _ _ F0 ltac:(simpl; tauto) Hq).
      exact (Hclear q _ _ _ F ltac:(simpl; tauto) Hq).
    + cbn [app forallb]. rewrite Hgithub0, Hworkflows0, Hrt.
      repeat match goal with
             | Hw : Generator.writable ?dA ?rel = true |- context [Generator.writable d ?rel] =>
                 rewrite (Hback rel dA Hw ltac:(back; reflexivity) ltac:(back; reflexivity))
             end.
      reflexivity.
    + cbn [app forallb]. unfold Generator.source_of.
      cbn [String.eqb Ascii.eqb Bool.eqb fst snd].
      repeat match goal with Hx : templates _ _ = Some _ |- _ => rewrite Hx; clear Hx end.
      reflexivity.
  - unfold Generator.gret in Hnginx. injection Hnginx as <- <-.
    split; [| split; [| split; [| split]]].
    + unfold Cli.generateFiles, Cli.writeTemplate. rewrite Hspa. cbn [app].
      repeat (apply (f_equal2 cons);
              [first [reflexivity | apply Hfiles; back; reflexivity] |]).
      reflexivity.
    + cbn [app].
      repeat (apply List.Forall_cons;
              [eapply made_intro;
               [simpl; tauto
               | unfold Generator.source_of; cbn [String.eqb Ascii.eqb Bool.eqb fst snd];
                 eassumption
               | eassumption | eassumption
               | back; reflexivity | back; reflexivity | back; reflexivity] |]).
      apply List.Forall_nil.
    + intros q Hq.
      rewrite (Hclear q _ _ _ F3 ltac:(simpl; tauto) Hq).
      rewrite (Hclear q _ _ _ F2 ltac:(simpl; tauto) Hq).
      rewrite (Hmkdir q Hq).
      rewrite (Hclear q _ _ _ F1 ltac:(simpl; tauto) Hq).
      rewrite (Hclear q _ _ _ F0 ltac:(simpl; tauto) Hq).
      exact (Hclear q _ _ _ F ltac:(simpl; tauto) Hq).
    + cbn [app forallb]. rewrite Hgithub0, Hworkflows0, Hrt.
      repeat match goal with
             | Hw : Generator.writable ?dA ?rel = true |- context [Generator.writable d ?rel] =>
                 rewrite (Hback rel dA Hw ltac:(back; reflexivity) ltac:(back; reflexivity))
             end.
      reflexivity.
    + cbn [app forallb]. unfold Generator.source_of.
      cbn [String.eqb Ascii.eqb Bool.eqb fst snd].
      repeat match goal with Hx : templates _ _ = Some _ |- _ => rewrite Hx; clear Hx end.
      reflexivity.
Qed.

(** When [generateFiles] returns, its list names the four fixed
    artifacts, [nginx.conf] exactly for the two single-page archetypes,
    and the server script, in this order; and every file of the list is
    then in the output directory with the content of its template, the
    placeholders replaced from the configuration. *)
Theorem generated_files_are_written (templates : string -> string -> option string)
    (config : CollectedConfig.t) (d d' : Fs.node) (files : list GeneratedFile.t) :
  Generator.generateFiles templates config d = (Some files, d') ->
  map GeneratedFile.path files
  = (["Dockerfile"; ".dockerignore"; "docker-compose.yml"; ".github/workflows/deploy.yml"]
     ++ (match ProjectConfig.type (CollectedConfig.project config) with
         | vue_spa | react_spa => ["nginx.conf"]
         | _ => []
         end)
     ++ ["server-init.sh"])%list
  /\ forall f, In f files ->
       exists template,
         templates (fst (Generator.source_of config (GeneratedFile.path f)))
                   (snd (Generator.source_of config (GeneratedFile.path f))) = Some template
         /\ Fs.resolve d' (Fs.join [GeneratedFile.path f])
            = Some (Fs.File (Template.replacePlaceholders template
                               (Generator.buildTemplateVars config))).
Proof.
  intros H. apply generateFiles_trace in H as (-> & Hmade & _). split.
  - unfold Cli.generateFiles.
    now destruct (ProjectConfig.type (CollectedConfig.project config)).
  - intros f Hf. rewrite List.Forall_forall in Hmade.
    now destruct (Hmade f Hf) as (_ & Hcontent & _).
Qed.

(** When [generateFiles] returns, a file of its list is marked as
    backed up exactly when the output directory had something at its
    path before; what was there was a file, and its content is then in
    the file of the same name with [.backup] added. *)
Theorem backups_keep_previous_content (templates : string -> string -> option string)
    (config : CollectedConfig.t) (d d' : Fs.node) (files : list GeneratedFile.t) :
  Generator.generateFiles templates config d = (Some files, d') ->
  forall f, In f files ->
    if GeneratedFile.backedUp f
    then exists content,
        Fs.resolve d (Fs.join [GeneratedFile.path f]) = Some (Fs.File content)
        /\ Fs.resolve d' (Generator.backup_of (GeneratedFile.path f)) = Some (Fs.File content)
    else Fs.resolve d (Fs.join [GeneratedFile.path f]) = None.
Proof.
  intros H f Hf. apply generateFiles_trace in H as (_ & Hmade & _).
  rewrite List.Forall_forall in Hmade. now destruct (Hmade f Hf) as (_ & _ & Hbackup).
Qed.

(** [generateFiles] changes nothing beside its outputs and their
    backups: a path that is apart from all of them leads to the same
    node after as before; in particular a top-level entry under another
    name than theirs and [.github]. *)
Theorem generation_leaves_the_rest (templates : string -> string -> option string)
    (config : CollectedConfig.t) (d d' : Fs.node) (files : list GeneratedFile.t) :
  Generator.generateFiles templates config d = (Some files, d') ->
  (forall q, Generator.clear q = true -> Fs.resolve d' q = Fs.resolve d q)
  /\ (forall name,
        ~ In name ["Dockerfile"; "Dockerfile.backup"; ".dockerignore"; ".dockerignore.backup";
                   "docker-compose.yml"; "docker-compose.yml.backup"; ".github";
                   "nginx.conf"; "nginx.conf.backup"; "server-init.sh";
                   "server-init.sh.backup"] ->
        Fs.resolve d' [name] = Fs.resolve d [name]).
Proof.
  intros H. apply generateFiles_trace in H as (_ & _ & Hframe & _).
  split; [exact Hframe |].
  intros name Hname. apply Hframe.
  assert (Hne : forall other, In other ["Dockerfile"; "Dockerfile.backup"; ".dockerignore";
                                        ".dockerignore.backup"; "docker-compose.yml";
                                        "docker-compose.yml.backup"; ".github"; "nginx.conf";
                                        "nginx.conf.backup"; "server-init.sh";
                                        "server-init.sh.backup"] ->
                               (other =? name)%string = false).
  { intros other Hin. apply String.eqb_neq. intros ->. now apply Hname. }
  unfold Generator.clear, Generator.outputs, Generator.clear_of, Generator.backup_of.
  cbn [forallb].
  repeat match goal with
         | |- context [Fs.join ?l] =>
             let v := eval vm_compute in (Fs.join l) in change (Fs.join l) with v
         end.
  cbn [Disk.apart].
  rewrite !Hne by (simpl; tauto). reflexivity.
Qed.

Lemma generated_files_are_written_witness :
  exists files d',
    Generator.generateFiles (fun category name => Some (Template.placeholder "APP_NAME"))
      Samples.some_config (Fs.Dir [("Dockerfile", Fs.File "FROM scratch")]) = (Some files, d')
    /\ Fs.resolve d' ["Dockerfile"] = Some (Fs.File "demo")
    /\ Fs.resolve d' ["Dockerfile.backup"] = Some (Fs.File "FROM scratch").
Proof.
  eexists _, _. split; [vm_compute; reflexivity |].
  destruct (generated_files_are_written
              (fun category name => Some (Template.placeholder "APP_NAME"))
              Samples.some_config (Fs.Dir [("Dockerfile", Fs.File "FROM scratch")]) _ _
              ltac:(vm_compute; reflexivity)) as [_ Hwritten].
  destruct (Hwritten (GeneratedFile.mk "Dockerfile" true) ltac:(simpl; tauto))
    as (template & Ht & Hd).
  injection Ht as <-. split; [exact Hd | reflexivity].
Defined.

Lemma backups_keep_previous_content_witness :
  Fs.resolve
    (snd (Generator.generateFiles (fun category name => Some (Template.placeholder "APP_NAME"))
            Samples.some_config (Fs.Dir [("Dockerfile", Fs.File "FROM scratch")])))
    ["Dockerfile.backup"] = Some (Fs.File "FROM scratch").
Proof.
  destruct (backups_keep_previous_content
              (fun category name => Some (Template.placeholder "APP_NAME"))
              Samples.some_config (Fs.Dir [("Dockerfile", Fs.File "FROM scratch")]) _ _
              ltac:(vm_compute; reflexivity)
              (GeneratedFile.mk "Dockerfile" true) ltac:(simpl; tauto))
    as (content & Hbefore & Hafter).
  injection Hbefore as <-. exact Hafter.
Defined.

Lemma generation_leaves_the_rest_witness :
  Fs.resolve
    (snd (Generator.generateFiles (fun category name => Some (Template.placeholder "APP_NAME"))
            Samples.some_config
            (Fs.Dir [("Dockerfile", Fs.File "FROM scratch"); ("app.py", Fs.File "run()")])))
    ["app.py"] = Some (Fs.File "run()").
Proof.
  assert (Hname : ~ In "app.py"
                      ["Dockerfile"; "Dockerfile.backup"; ".dockerignore";
                       ".dockerignore.backup"; "docker-compose.yml";
                       "docker-compose.yml.backup"; ".github"; "nginx.conf";
                       "nginx.conf.backup"; "server-init.sh"; "server-init.sh.backup"])
    by (simpl; intros H; repeat destruct H as [H|H]; try discriminate H; exact H).
  pose proof (proj2 (generation_leaves_the_rest
                       (fun category name => Some (Template.placeholder "APP_NAME"))
                       Samples.some_config
                       (Fs.Dir [("Dockerfile", Fs.File "FROM scratch");
                                ("app.py", Fs.File "run()")])
                       _ _ ltac:(vm_compute; reflexivity)) "app.py" Hname) as Hkept.
  vm_compute in Hkept. vm_compute. exact Hkept.
Defined.

Lemma generateFiles_paths (config : CollectedConfig.t) (d d' : Fs.node) :
  map GeneratedFile.path (Cli.generateFiles config d)
  = map GeneratedFile.path (Cli.generateFiles config d').
Proof.
  unfold Cli.generateFiles.
  now destruct (Js.array_includes _ ["vue-spa"; "react-spa"]).
Qed.

(** A second generation over the result of a first one finds every
    output in place: all its files are marked as backed up, each backup
    then holds the file the first generation wrote (so what the first
    generation had kept there of the original is gone), and the outputs
    themselves are written again with the same content. *)
Theorem second_generation_replaces_backups (templates : string -> string -> option string)
    (config : CollectedConfig.t) (d d' d'' : Fs.node) (files files' : list GeneratedFile.t) :
  Generator.generateFiles templates config d = (Some files, d') ->
  Generator.generateFiles templates config d' = (Some files', d'') ->
  map GeneratedFile.path files' = map GeneratedFile.path files
  /\ forall f, In f files' ->
       GeneratedFile.backedUp f = true
       /\ Fs.resolve d'' (Generator.backup_of (GeneratedFile.path f))
          = Fs.resolve d' (Fs.join [GeneratedFile.path f])
       /\ Fs.resolve d'' (Fs.join [GeneratedFile.path f])
          = Fs.resolve d' (Fs.join [GeneratedFile.path f]).
Proof.
  intros H1 H2.
  apply generateFiles_trace in H1 as (-> & Hmade1 & _).
  apply generateFiles_trace in H2 as (-> & Hmade2 & _).
  split; [apply generateFiles_paths |].
  intros f Hf. rewrite List.Forall_forall in Hmade1, Hmade2.
  destruct (Hmade2 f Hf) as (_ & (t2 & Ht2 & Hnew2) & Hold2).
  assert (Hpath : In (GeneratedFile.path f) (map GeneratedFile.path (Cli.generateFiles config d)))
    by (rewrite (generateFiles_paths config d d'); now apply in_map).
  apply in_map_iff in Hpath as (f1 & Hsame & Hf1).
  destruct (Hmade1 f1 Hf1) as (_ & (t1 & Ht1 & Hnew1) & _).
  rewrite Hsame in Ht1, Hnew1.
  assert (t2 = t1) as -> by congruence.
  destruct (GeneratedFile.backedUp f); [| congruence].
  destruct Hold2 as (c & Hc & Hbackup).
  split; [reflexivity |]. split; congruence.
Qed.

Lemma second_generation_replaces_backups_witness :
  Fs.resolve
    (snd (Generator.generateFiles (fun category name => Some (Template.placeholder "APP_NAME"))
            Samples.some_config
            (snd (Generator.generateFiles
                    (fun category name => Some (Template.placeholder "APP_NAME"))
                    Samples.some_config (Fs.Dir [("Dockerfile", Fs.File "FROM scratch")])))))
    ["Dockerfile.backup"] = Some (Fs.File "demo").
Proof.
  destruct (second_generation_replaces_backups
              (fun category name => Some (Template.placeholder "APP_NAME"))
              Samples.some_config (Fs.Dir [("Dockerfile", Fs.File "FROM scratch")]) _ _ _ _
              ltac:(vm_compute; reflexivity) ltac:(vm_compute; reflexivity)) as [_ Hsecond].
  destruct (Hsecond (GeneratedFile.mk "Dockerfile" true) ltac:(simpl; tauto))
    as (_ & Hbackup & _).
  exact Hbackup.
Defined.

(** ** The review loop, turn by turn *)




















(** ** When a generation goes through *)

Lemma put_same_entry (name : string) (child : Fs.node) (entries : list (string * Fs.node)) :
  Fs.lookup_entry name entries = Some child -> Disk.put name child entries = entries.
Proof.
  unfold Fs.lookup_entry. induction entries as [|e entries IH]; [discriminate |].
  cbn [find Disk.put]. destruct (fst e =? name)%string eqn:He.
  - intros [= <-]. apply String.eqb_eq in He as <-. now destruct e.
  - intros H. now rewrite IH.
Qed.

Lemma mkdirSync_existing (path : list string) :
  forall (d : Fs.node), Generator.is_dir d path = true -> Disk.mkdirSync d path = Some d.
Proof.
  unfold Generator.is_dir.
  induction path as [|name path IH]; intros d H.
  - cbn [Fs.resolve] in H. now destruct d.
  - destruct d as [c|entries]; [discriminate |]. cbn [Fs.resolve] in H. cbn [Disk.mkdirSync].
    destruct (Fs.lookup_entry name entries) as [child|] eqn:Hl; [| discriminate].
    change (default (Fs.Dir []) (Some child)) with child.
    rewrite (IH child H). now rewrite (put_same_entry _ _ _ Hl).
Qed.

Lemma store_succeeds (path : list string) :
  forall (d n : Fs.node),
    path <> [] -> Generator.is_dir d (removelast path) = true ->
    exists d', Disk.store d path n = Some d'.
Proof.
  unfold Generator.is_dir.
  induction path as [|name path IH]; intros d n Hne H; [congruence |].
  destruct path as [|name' path'].
  - cbn [removelast Fs.resolve] in H. destruct d as [c|entries]; [discriminate |].
    cbn [Disk.store]. eauto.
  - change (removelast (name :: name' :: path')) with (name :: removelast (name' :: path')) in H.
    destruct d as [c|entries]; [discriminate |]. cbn [Fs.resolve] in H.
    destruct (Fs.lookup_entry name entries) as [child|] eqn:Hl; [| discriminate].
    destruct (IH child n ltac:(discriminate) H) as [child' Hc].
    exists (Fs.Dir (Disk.put name child' entries)).
    change (Disk.store (Fs.Dir entries) (name :: name' :: path') n)
      with (match Fs.lookup_entry name entries with
            | Some child =>
                match Disk.store child (name' :: path') n with
                | Some child' => Some (Fs.Dir (Disk.put name child' entries))
                | None => None
                end
            | None => None
            end).
    now rewrite Hl, Hc.
Qed.

Lemma store_keeps_dir (path : list string) :
  forall (q : list string) (d d' n : Fs.node),
    Disk.store d path n = Some d' -> Disk.above path q = false ->
    Generator.is_dir d q = true -> Generator.is_dir d' q = true.
Proof.
  unfold Generator.is_dir.
  induction path as [|name path IH]; intros q d d' n H Hq Hd; [discriminate |].
  destruct d as [c|entries]; [discriminate |]. cbn [Disk.store] in H.
  assert (Hd' : exists child',
             d' = Fs.Dir (Disk.put name child' entries)
             /\ (path = [] \/ exists child, Fs.lookup_entry name entries = Some child
                                        /\ Disk.store child path n = Some child')).
  { destruct path as [|name' path']; [injection H as <-; eauto |].
    destruct (Fs.lookup_entry name entries) as [child|]; [| discriminate].
    destruct (Disk.store child (name' :: path') n) as [child'|] eqn:Hc; [| discriminate].
    injection H as <-. eauto 7. }
  destruct Hd' as (child' & -> & Hchild).
  destruct q as [|name' q']; [reflexivity |].
  cbn [Disk.above] in Hq. cbn [Fs.resolve] in *.
  destruct (name =? name')%string eqn:Hname.
  - apply String.eqb_eq in Hname as <-. cbn [andb] in Hq. rewrite lookup_put_same.
    destruct Hchild as [-> | (child & Hl & Hstore)]; [discriminate |].
    rewrite Hl in Hd. exact (IH _ _ _ _ Hstore Hq Hd).
  - now rewrite lookup_put_other.
Qed.

Lemma above_removelast (path : list string) :
  path <> [] -> Disk.above path (removelast path) = false.
Proof.
  induction path as [|name path IH]; intros Hne; [congruence |].
  destruct path as [|name' path']; [reflexivity |].
  change (removelast (name :: name' :: path')) with (name :: removelast (name' :: path')).
  cbn [Disk.above]. rewrite String.eqb_refl. cbn [andb]. now apply IH.
Qed.

Lemma apart_sym (p : list string) : forall q, Disk.apart p q = Disk.apart q p.
Proof.
  induction p as [|a p IH]; intros [|b q]; cbn [Disk.apart]; try reflexivity.
  rewrite String.eqb_sym. now rewrite IH.
Qed.

Lemma writeFileSync_succeeds (d : Fs.node) (path : list string) (content : string) :
  path <> [] -> Generator.is_dir d (removelast path) = true ->
  Generator.free_or_file d path = true ->
  exists d', Disk.writeFileSync d path content = Some d'
             /\ Generator.is_dir d' (removelast path) = true
             /\ (Generator.is_dir d [] = true -> Generator.is_dir d' [] = true).
Proof.
  intros Hne Hdir Hfree. unfold Disk.writeFileSync, Generator.free_or_file in *.
  destruct (store_succeeds path d (Fs.File content) Hne Hdir) as [d' Hstore].
  exists d'. split; [now destruct (Fs.resolve d path) as [[c|es]|] |].
  split.
  - exact (store_keeps_dir _ _ _ _ _ Hstore (above_removelast _ Hne) Hdir).
  - apply (store_keeps_dir _ _ _ _ _ Hstore). now destruct path.
Qed.

(** A call of [writeTemplate] returns when the path is writable and
    its directory exists. *)
Lemma writeTemplate_returns (template relativePath : string) (vars : list (string * string))
    (d : Fs.node) :
  Disk.apart (Fs.join [relativePath]) (Generator.backup_of relativePath) = true ->
  removelast (Generator.backup_of relativePath) = removelast (Fs.join [relativePath]) ->
  Generator.is_dir d [] = true ->
  Generator.is_dir d (Disk.dirname (Fs.join [relativePath])) = true ->
  Generator.writable d relativePath = true ->
  exists f d', Generator.writeTemplate template relativePath vars d = (Some f, d')
               /\ Generator.is_dir d' [] = true.
Proof.
  intros Hapart Hsame Hroot Hdir Hw. unfold Disk.dirname in Hdir.
  assert (Hp : Fs.join [relativePath] <> [])
    by (intros Heq; rewrite Heq in Hapart; discriminate).
  assert (Hb : Generator.backup_of relativePath <> []).
  { intros Heq. rewrite Heq in Hapart.
    destruct (Fs.join [relativePath]); discriminate. }
  unfold Generator.writable in Hw. apply andb_true_iff in Hw as [Hfile Hbackup].
  unfold Generator.writeTemplate, Generator.gbind, Generator.fs_call, Disk.dirname.
  destruct (Fs.existsSync d [relativePath]) eqn:Hex.
  - cbn [negb orb] in Hbackup. unfold Disk.copyFileSync.
    assert (Hc : exists c, Fs.resolve d (Fs.join [relativePath]) = Some (Fs.File c)).
    { unfold Fs.existsSync in Hex. unfold Generator.free_or_file in Hfile.
      destruct (Fs.resolve d (Fs.join [relativePath])) as [[c|es]|]; try discriminate.
      eauto. }
    destruct Hc as [c Hc]. rewrite Hc.
    rewrite <- Hsame in Hdir.
    destruct (writeFileSync_succeeds d _ c Hb Hdir Hbackup) as (d1 & Hw1 & Hdir1 & Hroot1).
    rewrite Hw1. rewrite Hsame in Hdir1. rewrite (mkdirSync_existing _ _ Hdir1).
    assert (Hfile1 : Generator.free_or_file d1 (Fs.join [relativePath]) = true).
    { unfold Generator.free_or_file.
      rewrite (resolve_writeFileSync_apart _ _ _ _ _ Hw1); [now rewrite Hc |].
      now rewrite apart_sym. }
    destruct (writeFileSync_succeeds d1 _ (Template.replacePlaceholders template vars)
                Hp Hdir1 Hfile1) as (d' & -> & _ & Hroot').
    unfold Generator.gret. eauto 6.
  - unfold Generator.gret. rewrite (mkdirSync_existing _ _ Hdir).
    destruct (writeFileSync_succeeds d _ (Template.replacePlaceholders template vars)
                Hp Hdir Hfile) as (d' & -> & _ & Hroot').
    eauto 6.
Qed.

Lemma mkdirSync_two (a b : string) (d : Fs.node) :
  Generator.is_dir d [] = true ->
  Generator.free_or_dir d [a] = true -> Generator.free_or_dir d [a; b] = true ->
  exists d', Disk.mkdirSync d [a; b] = Some d'
             /\ Generator.is_dir d' [a; b] = true /\ Generator.is_dir d' [] = true.
Proof.
  unfold Generator.is_dir, Generator.free_or_dir. cbn [Fs.resolve Disk.mkdirSync].
  destruct d as [c|entries]; [discriminate |]. intros _.
  destruct (Fs.lookup_entry a entries) as [[c|es]|]; [discriminate | |]; intros _.
  - change (default (Fs.Dir []) (Some (Fs.Dir es))) with (Fs.Dir es). cbn [Disk.mkdirSync].
    destruct (Fs.lookup_entry b es) as [[c|es']|]; [discriminate | |]; intros _.
    + change (default (Fs.Dir []) (Some (Fs.Dir es'))) with (Fs.Dir es').
      cbn [Disk.mkdirSync]. eexists. split; [reflexivity |].
      cbn [Fs.resolve]. now rewrite !lookup_put_same.
    + change (default (Fs.Dir []) (@None Fs.node)) with (Fs.Dir []).
      cbn [Disk.mkdirSync]. eexists. split; [reflexivity |].
      cbn [Fs.resolve]. now rewrite !lookup_put_same.
  - change (default (Fs.Dir []) (@None Fs.node)) with (Fs.Dir []).
    cbn [Disk.mkdirSync Fs.lookup_entry find option_map].
    change (default (Fs.Dir []) (@None Fs.node)) with (Fs.Dir []).
    cbn [Disk.mkdirSync]. eexists. split; [reflexivity |].
    cbn [Fs.resolve]. now rewrite !lookup_put_same.
Qed.

Lemma gbind_Some {A B : Type} (m : Generator.Gen A) (k : A -> Generator.Gen B)
    (d d1 : Fs.node) (a : A) :
  m d = (Some a, d1) -> Generator.gbind m k d = k a d1.
Proof. unfold Generator.gbind. now intros ->. Qed.

Ltac take_template :=
  match goal with
  | Ht : ?templates ?category ?name = Some ?t
    |- context [Generator.gbind (Generator.readTemplate ?templates ?category ?name) ?k ?d] =>
      rewrite (gbind_Some (Generator.readTemplate templates category name) k d d t
                 ltac:(unfold Generator.readTemplate; now rewrite Ht))
  end.

Ltac take_write d0 :=
  match goal with
  | |- context [Generator.gbind (Generator.writeTemplate ?t ?rel ?vars) ?k ?dcur] =>
      let f := fresh "f" in
      let dn := fresh "d" in
      let Hs := fresh "Hs" in
      let Hr := fresh "Hroot" in
      let F := fresh "F" in
      destruct (writeTemplate_returns t rel vars dcur eq_refl eq_refl
                  ltac:(assumption) ltac:(assumption)
                  ltac:(apply (writable_same d0);
                        [back; reflexivity | back; reflexivity | assumption]))
        as (f & dn & Hs & Hr);
      rewrite (gbind_Some _ k dcur dn f Hs);
      pose proof (proj1 (proj2 (proj2 (proj2
                    (writeTemplate_spec t rel vars dcur dn f eq_refl Hs))))) as F
  end.

Lemma targets_fixed (config : CollectedConfig.t) (relativePath : string) :
  In relativePath ["Dockerfile"; ".dockerignore"; "docker-compose.yml";
                   ".github/workflows/deploy.yml"; "server-init.sh"] ->
  In relativePath (Generator.targets config).
Proof.
  unfold Generator.targets. intros H. apply in_app_iff.
  destruct H as [<-|[<-|[<-|[<-|[<-|[]]]]]];
    try (left; simpl; tauto).
  right. apply in_app_iff. right. now left.
Qed.

Lemma targets_nginx (config : CollectedConfig.t) :
  Js.array_includes
    (Collector.type_value (ProjectConfig.type (CollectedConfig.project config)))
    ["vue-spa"; "react-spa"] = true ->
  In "nginx.conf" (Generator.targets config).
Proof.
  unfold Generator.targets. intros ->. apply in_app_iff. right. now left.
Qed.

Lemma generateFiles_returns (templates : string -> string -> option string)
    (config : CollectedConfig.t) (d : Fs.node) :
  Generator.ready config d = true ->
  Generator.supplied templates config = true ->
  exists d', Generator.generateFiles templates config d
             = (Some (Cli.generateFiles config d), d').
Proof.
  intros Hready Hsupplied.
  assert (Hrun : exists files d', Generator.generateFiles templates config d = (Some files, d')).
  { unfold Generator.ready in Hready. unfold Generator.supplied in Hsupplied.
    apply andb_true_iff in Hready as [Hready Hworkflows].
    apply andb_true_iff in Hready as [Hready Hgithub].
    apply andb_true_iff in Hready as [Hroot Hwritable].
    rewrite forallb_forall in Hwritable, Hsupplied.
    assert (Ht : forall rel, In rel (Generator.targets config) ->
                   exists t, templates (fst (Generator.source_of config rel))
                                       (snd (Generator.source_of config rel)) = Some t).
    { intros rel Hin. specialize (Hsupplied rel Hin).
      destruct (templates _ _) as [t|]; [eauto | discriminate]. }
    clear Hsupplied.
    unfold Generator.generateFiles, Generator.getDockerfileTemplate.
    destruct (Ht "Dockerfile" ltac:(apply targets_fixed; simpl; tauto)) as [t1 Ht1].
    destruct (Ht ".dockerignore" ltac:(apply targets_fixed; simpl; tauto)) as [t2 Ht2].
    destruct (Ht "docker-compose.yml" ltac:(apply targets_fixed; simpl; tauto)) as [t3 Ht3].
    destruct (Ht ".github/workflows/deploy.yml" ltac:(apply targets_fixed; simpl; tauto))
      as [t4 Ht4].
    destruct (Ht "server-init.sh" ltac:(apply targets_fixed; simpl; tauto)) as [t6 Ht6].
    pose proof (Hwritable "Dockerfile" ltac:(apply targets_fixed; simpl; tauto)) as Hw1.
    pose proof (Hwritable ".dockerignore" ltac:(apply targets_fixed; simpl; tauto)) as Hw2.
    pose proof (Hwritable "docker-compose.yml" ltac:(apply targets_fixed; simpl; tauto))
      as Hw3.
    pose proof (Hwritable ".github/workflows/deploy.yml"
                  ltac:(apply targets_fixed; simpl; tauto)) as Hw4.
    pose proof (Hwritable "server-init.sh" ltac:(apply targets_fixed; simpl; tauto)) as Hw6.
    unfold Generator.source_of in Ht1, Ht2, Ht3, Ht4, Ht6.
    cbn [String.eqb Ascii.eqb Bool.eqb fst snd] in Ht1, Ht2, Ht3, Ht4, Ht6.
    take_template. take_write d. take_template. take_write d. take_template. take_write d.
    assert (Hg : Generator.free_or_dir d2 [".github"] = true)
      by (apply (free_or_dir_same d); [back; reflexivity | assumption]).
    assert (Hwf : Generator.free_or_dir d2 [".github"; "workflows"] = true)
      by (apply (free_or_dir_same d); [back; reflexivity | assumption]).
    destruct (mkdirSync_two ".github" "workflows" d2 ltac:(assumption) Hg Hwf)
      as (dm & Hmk & Hdirm & Hrootm).
    assert (Fm : Disk.same_where
                   (fun q => negb (Disk.above q (Fs.join [".github"; "workflows"]))) d2 dm)
      by (intros q Hq; apply (resolve_mkdirSync _ _ _ _ Hmk); now apply negb_true_iff).
    match goal with
    | |- context [Generator.gbind (Generator.fs_call ?c) ?k d2] =>
        rewrite (gbind_Some (Generator.fs_call c) k d2 dm tt
                   ltac:(unfold Generator.fs_call; cbv beta;
                         change (Fs.join [".github"; "workflows"])
                           with [".github"; "workflows"];
                         now rewrite Hmk))
    end.
    take_template. take_write d.
    destruct (Js.array_includes _ ["vue-spa"; "react-spa"]) eqn:Hspa.
    - destruct (Ht "nginx.conf" (targets_nginx config Hspa)) as [t5 Ht5].
      pose proof (Hwritable "nginx.conf" (targets_nginx config Hspa)) as Hw5.
      unfold Generator.source_of in Ht5.
      cbn [String.eqb Ascii.eqb Bool.eqb fst snd] in Ht5.
      unfold Generator.gbind at 1.
      take_template. take_write d. unfold Generator.gret at 1.
      take_template. take_write d. unfold Generator.gret. eauto.
    - unfold Generator.gbind at 1. unfold Generator.gret at 1.
      take_template. take_write d. unfold Generator.gret. eauto. }
  destruct Hrun as (files & d' & Hrun). exists d'.
  now destruct (generateFiles_trace _ _ _ _ _ Hrun) as (<- & _).
Qed.

(** [generateFiles] returns exactly when the output directory is
    ready and the templates are supplied; otherwise it throws.  A
    directory is ready when every target path is free or holds a file,
    the backup path of a target that holds a file is free or holds a
    file, and [.github] and [.github/workflows] are free or
    directories.  The list returned is the one of the targets, each
    marked by whether the directory had it before. *)
Theorem generation_returns_exactly_when_ready (templates : string -> string -> option string)
    (config : CollectedConfig.t) (d : Fs.node) :
  (Generator.ready config d = true -> Generator.supplied templates config = true ->
   exists d', Generator.generateFiles templates config d
              = (Some (Cli.generateFiles config d), d'))
  /\ (Generator.ready config d && Generator.supplied templates config = false ->
      exists d', Generator.generateFiles templates config d = (None, d')).
Proof.
  split; [apply generateFiles_returns |].
  intros Hnot.
  destruct (Generator.generateFiles templates config d) as [[files|] d'] eqn:Hrun; [| eauto].
  apply generateFiles_trace in Hrun as (_ & _ & _ & Hready & Hsupplied).
  now rewrite Hready, Hsupplied in Hnot.
Qed.

Lemma generation_returns_exactly_when_ready_witness :
  (exists d',
      Generator.generateFiles (fun category name => Some (Template.placeholder "APP_NAME"))
        Samples.some_config
        (Fs.Dir [("Dockerfile", Fs.File "FROM scratch"); (".github", Fs.Dir [])])
      = (Some [GeneratedFile.mk "Dockerfile" true; GeneratedFile.mk ".dockerignore" false;
               GeneratedFile.mk "docker-compose.yml" false;
               GeneratedFile.mk ".github/workflows/deploy.yml" false;
               GeneratedFile.mk "server-init.sh" false], d'))
  /\ (exists d',
        Generator.generateFiles (fun category name => Some (Template.placeholder "APP_NAME"))
          Samples.some_config
          (Fs.Dir [("Dockerfile", Fs.File "FROM scratch"); (".github", Fs.File "")])
        = (None, d')).
Proof.
  split.
  - exact (proj1 (generation_returns_exactly_when_ready
                    (fun category name => Some (Template.placeholder "APP_NAME"))
                    Samples.some_config
                    (Fs.Dir [("Dockerfile", Fs.File "FROM scratch"); (".github", Fs.Dir [])]))
             eq_refl eq_refl).
  - exact (proj2 (generation_returns_exactly_when_ready
                    (fun category name => Some (Template.placeholder "APP_NAME"))
                    Samples.some_config
                    (Fs.Dir [("Dockerfile", Fs.File "FROM scratch");
                             (".github", Fs.File "")]))
             eq_refl).
Defined.

(* ===================================================================== *)
(** * Placeholders *)
(* ===================================================================== *)

Lemma replace_from_no_match (p value : string) :
  forall (s before : string),
    Js.includes p s = false -> Template.replace_from p value before 0 s = s.
Proof.
  induction s as [|c s IH]; intros before H; [reflexivity |].
  cbn [Js.includes] in H. apply orb_false_iff in H as [Hstart Hrest].
  cbn [Template.replace_from]. rewrite Hstart. now rewrite IH.
Qed.

Lemma includes_append (p pre post : string) :
  Js.includes p post = true -> Js.includes p (String.append pre post) = true.
Proof.
  intros H. induction pre as [|c pre IH]; [exact H |].
  rewrite append_String. cbn [Js.includes]. rewrite IH. apply orb_true_r.
Qed.

Lemma includes_shorter (p q s : string) :
  Js.includes (String.append p q) s = true -> Js.includes p s = true.
Proof.
  induction s as [|c s IH]; cbn [Js.includes]; intros H.
  - rewrite orb_false_r in *. apply startsWith_spec in H as [post H].
    destruct p; [reflexivity | discriminate].
  - apply orb_true_iff in H as [H|H]; [| rewrite (IH H); apply orb_true_r].
    apply startsWith_spec in H as [post H].
    assert (Hp : Js.startsWith p (String c s) = true).
    { apply startsWith_spec. exists (String.append q post). rewrite H.
      clear. induction p as [|a p IH]; [reflexivity |]. rewrite !append_String. now rewrite IH. }
    now rewrite Hp.
Qed.

Lemma replacePlaceholders_no_match (vars : list (string * string)) :
  forall template,
    (forall kv, In kv vars -> Js.includes (Template.placeholder (fst kv)) template = false) ->
    Template.replacePlaceholders template vars = template.
Proof.
  unfold Template.replacePlaceholders.
  induction vars as [|kv vars IH]; intros template H; [reflexivity |].
  cbn [fold_left]. unfold Template.replace_all at 2.
  rewrite replace_from_no_match by (apply H; now left).
  apply IH. intros kv' Hin. apply H. now right.
Qed.

(** The keys that [generateFiles] passes are plain keys. *)
Lemma buildTemplateVars_plain_keys (config : CollectedConfig.t) :
  Template.plain_keys (Generator.buildTemplateVars config) = true.
Proof. reflexivity. Qed.

(** A template that holds no [{{] is not changed by
    [replacePlaceholders], whatever the values of the variables, when
    the keys of the variables are plain keys (they hold no syntax
    character of a regular expression). *)
Theorem template_without_placeholders_is_kept (template : string)
    (vars : list (string * string)) :
  Template.plain_keys vars = true ->
  Js.includes "{{" template = false ->
  Template.replacePlaceholders template vars = template.
Proof.
  intros _ H. apply replacePlaceholders_no_match. intros kv _.
  destruct (Js.includes (Template.placeholder (fst kv)) template) eqn:Hin; [| reflexivity].
  unfold Template.placeholder in Hin. apply includes_shorter in Hin. congruence.
Qed.

Lemma template_without_placeholders_is_kept_witness :
  Template.replacePlaceholders "EXPOSE 80" (Generator.buildTemplateVars Samples.some_config)
  = "EXPOSE 80".
Proof.
  apply (template_without_placeholders_is_kept "EXPOSE 80"); reflexivity.
Defined.

Lemma GetSubstitution_plain (matched before after : string) :
  forall value, Bounds.without "$" value = true ->
                Template.GetSubstitution matched before after value = value.
Proof.
  unfold Bounds.without. induction value as [|c value IH]; [reflexivity |].
  cbn [Js.all]. intros H. apply andb_true_iff in H as [Hc H].
  apply negb_true_iff in Hc. cbn [Template.GetSubstitution]. rewrite Hc. now rewrite IH.
Qed.

Lemma append_assoc (u v w : string) :
  String.append (String.append u v) w = String.append u (String.append v w).
Proof. induction u as [|a u IH]; [reflexivity |]. rewrite !append_String. now rewrite IH. Qed.

Lemma replace_from_prefix (c : ascii) (p value : string) :
  forall (pre before rest : string),
    Bounds.without c pre = true ->
    Template.replace_from (String c p) value before 0 (String.append pre rest)
    = String.append pre
        (Template.replace_from (String c p) value (String.append before pre) 0 rest).
Proof.
  unfold Bounds.without.
  induction pre as [|x pre IH]; intros before rest H.
  - now rewrite append_empty_r.
  - cbn [Js.all] in H. apply andb_true_iff in H as [Hx H]. apply negb_true_iff in Hx.
    rewrite !append_String. cbn [Template.replace_from Js.startsWith].
    rewrite Ascii.eqb_sym, Hx. cbn [andb]. rewrite (IH _ _ H). now rewrite append_snoc.
Qed.

Lemma replace_from_skip (p value : string) :
  forall (x before rest : string),
    Template.replace_from p value before (String.length x) (String.append x rest)
    = Template.replace_from p value (String.append before x) 0 rest.
Proof.
  induction x as [|c x IH]; intros before rest.
  - now rewrite append_empty_r.
  - rewrite append_String. cbn [String.length Template.replace_from].
    rewrite IH. now rewrite append_snoc.
Qed.

Lemma drop_append (p rest : string) : Js.drop (String.length p) (String.append p rest) = rest.
Proof. induction p as [|c p IH]; [reflexivity |]. exact IH. Qed.

Lemma without_append (c : ascii) (u v : string) :
  Bounds.without c u = true -> Bounds.without c v = true ->
  Bounds.without c (String.append u v) = true.
Proof.
  unfold Bounds.without. intros Hu Hv. induction u as [|a u IH]; [exact Hv |].
  rewrite append_String. cbn [Js.all] in *. apply andb_true_iff in Hu as [Ha Hu].
  now rewrite Ha, IH.
Qed.

Lemma without_brace_no_placeholder (key s : string) :
  Bounds.without "{" s = true -> Js.includes (Template.placeholder key) s = false.
Proof.
  intros H. destruct (Js.includes (Template.placeholder key) s) eqn:Hin; [| reflexivity].
  unfold Template.placeholder in Hin.
  change (String.append "{{" (String.append key "}}"))
    with (String.append "{" (String.append "{" (String.append key "}}"))) in Hin.
  apply includes_shorter in Hin. now rewrite (without_includes _ _ H) in Hin.
Qed.

Lemma replace_all_first (c : ascii) (p value pre post : string) :
  Bounds.without c pre = true -> Js.includes (String c p) post = false ->
  Template.replace_all (String c p) value
    (String.append pre (String.append (String c p) post))
  = String.append pre
      (String.append (Template.GetSubstitution (String c p) pre post value) post).
Proof.
  intros Hpre Hpost. unfold Template.replace_all.
  rewrite (replace_from_prefix _ _ _ _ _ _ Hpre). f_equal.
  rewrite append_String. cbn [Template.replace_from].
  assert (Hstart : Js.startsWith (String c p) (String c (String.append p post)) = true)
    by (apply startsWith_spec; now exists post).
  rewrite Hstart. f_equal.
  - f_equal. rewrite <- append_String. apply drop_append.
  - replace (String.length (String c p) - 1)%nat with (String.length p)
      by (cbn [String.length]; lia).
    rewrite replace_from_skip. now apply replace_from_no_match.
Qed.

Lemma replace_all_single (key value pre post : string) :
  Bounds.without "{" pre = true -> Bounds.without "{" post = true ->
  Template.replace_all (Template.placeholder key) value
    (String.append pre (String.append (Template.placeholder key) post))
  = String.append pre
      (String.append (Template.GetSubstitution (Template.placeholder key) pre post value) post).
Proof.
  intros Hpre Hpost.
  change (Template.placeholder key)
    with (String "{" (String.append "{" (String.append key "}}"))).
  apply (replace_all_first _ _ _ _ _ Hpre).
  now apply (without_brace_no_placeholder key).
Qed.

Lemma replacePlaceholders_single (key value pre post : string)
    (earlier later : list (string * string)) :
  Bounds.without "{" pre = true -> Bounds.without "{" post = true ->
  Bounds.without "{" value = true -> Bounds.without "$" value = true ->
  (forall kv, In kv earlier ->
              Js.includes (Template.placeholder (fst kv))
                (String.append pre (String.append (Template.placeholder key) post)) = false) ->
  Template.replacePlaceholders
    (String.append pre (String.append (Template.placeholder key) post))
    (earlier ++ (key, value) :: later)
  = String.append pre (String.append value post).
Proof.
  intros Hpre Hpost Hvalue Hdollar Hearlier.
  unfold Template.replacePlaceholders. rewrite fold_left_app.
  fold (Template.replacePlaceholders
          (String.append pre (String.append (Template.placeholder key) post)) earlier).
  rewrite (replacePlaceholders_no_match _ _ Hearlier).
  cbn [fold_left fst snd].
  rewrite (replace_all_single _ _ _ _ Hpre Hpost), (GetSubstitution_plain _ _ _ _ Hdollar).
  fold (Template.replacePlaceholders (String.append pre (String.append value post)) later).
  apply replacePlaceholders_no_match. intros kv _.
  apply without_brace_no_placeholder.
  now repeat apply without_append.
Qed.

(** For variables whose keys are plain keys, a template with the
    placeholder of one of them and no other brace becomes the template
    with the value in the place of the placeholder, when the value
    holds no brace and no dollar sign and the placeholders of the
    variables listed before its own do not occur in the template. *)
Theorem single_placeholder_is_replaced (key value pre post : string)
    (earlier later : list (string * string)) :
  Template.plain_keys (earlier ++ (key, value) :: later) = true ->
  Bounds.without "{" pre = true -> Bounds.without "{" post = true ->
  Bounds.without "{" value = true -> Bounds.without "$" value = true ->
  (forall kv, In kv earlier ->
              Js.includes (Template.placeholder (fst kv))
                (String.append pre (String.append (Template.placeholder key) post)) = false) ->
  Template.replacePlaceholders
    (String.append pre (String.append (Template.placeholder key) post))
    (earlier ++ (key, value) :: later)
  = String.append pre (String.append value post).
Proof. intros _. exact (@replacePlaceholders_single key value pre post earlier later). Qed.

Lemma single_placeholder_is_replaced_witness :
  Template.replacePlaceholders "EXPOSE {{APP_PORT}}/tcp"
    (Generator.buildTemplateVars Samples.some_config)
  = "EXPOSE 5000/tcp".
Proof.
  apply (single_placeholder_is_replaced "APP_PORT" "5000" "EXPOSE " "/tcp"
           [("APP_NAME", "demo")]); try reflexivity.
  intros kv [<-|[]]. reflexivity.
Defined.

(** A value is not copied as it is when it holds one of the dollar
    patterns of [String.prototype.replace]: in a template with the
    placeholder of a plain key and no other brace, the value [$$]
    leaves one dollar sign, [$&] leaves the placeholder itself, and
    the values made of a dollar sign and a back quote or a quote leave
    a copy of the text before or after the placeholder. *)
Theorem dollar_patterns_in_values_are_expanded (key pre post : string) :
  Template.plain_key key = true ->
  Bounds.without "{" pre = true -> Bounds.without "{" post = true ->
  let template := String.append pre (String.append (Template.placeholder key) post) in
  Template.replacePlaceholders template [(key, "$$")]
  = String.append pre (String.append "$" post)
  /\ Template.replacePlaceholders template [(key, "$&")] = template
  /\ Template.replacePlaceholders template [(key, "$`")]
     = String.append pre (String.append pre post)
  /\ Template.replacePlaceholders template [(key, "$'")]
     = String.append pre (String.append post post).
Proof.
  intros _ Hpre Hpost template. unfold template, Template.replacePlaceholders.
  cbn [fold_left fst snd]. rewrite !(replace_all_single _ _ _ _ Hpre Hpost).
  cbn [Template.GetSubstitution Ascii.eqb Bool.eqb]. rewrite !append_empty_r.
  repeat split; reflexivity.
Qed.

Lemma dollar_patterns_in_values_are_expanded_witness :
  Template.replacePlaceholders "CMD {{START_CMD}}" [("START_CMD", "$$")] = "CMD $".
Proof.
  exact (proj1 (dollar_patterns_in_values_are_expanded "START_CMD" "CMD " EmptyString
                  eq_refl eq_refl eq_refl)).
Defined.

Lemma valid_name_plain (c : ascii) (v : string) :
  Js.between 97 122 c || Js.is_digit c || Ascii.eqb c "-" = false ->
  Collector.valid_name v = true -> Bounds.without c v = true.
Proof.
  intros Hc H. unfold Collector.valid_name in H. apply andb_true_iff in H as [_ H].
  unfold Bounds.without. induction v as [|x v IH]; [reflexivity |].
  cbn [Js.all] in *. apply andb_true_iff in H as [Hx H]. rewrite (IH H), andb_true_r.
  apply negb_true_iff. apply Ascii.eqb_neq. intros ->. congruence.
Qed.

(** The project name of a configuration that [collectConfig] returns
    is put into a template as it is: a template with the placeholder
    of [APP_NAME] and no other brace becomes the template with the
    name in its place. *)
Theorem collected_name_is_substituted_as_it_is (detection : DetectionResult.t)
    (projectName : string) (w w' : World) (config : CollectedConfig.t) (pre post : string) :
  Collector.collectConfig detection projectName w = (Returned config, w') ->
  Bounds.without "{" pre = true -> Bounds.without "{" post = true ->
  Template.replacePlaceholders
    (String.append pre (String.append "{{APP_NAME}}" post))
    (Generator.buildTemplateVars config)
  = String.append pre
      (String.append (ProjectConfig.name (CollectedConfig.project config)) post).
Proof.
  intros Hrun Hpre Hpost.
  apply collectConfig_wellformed in Hrun as (Hname & _).
  apply (replacePlaceholders_single "APP_NAME" _ pre post []); try assumption.
  - now apply valid_name_plain.
  - now apply valid_name_plain.
  - intros kv [].
Qed.

Lemma collected_name_is_substituted_as_it_is_witness :
  exists config w',
    Collector.collectConfig (Spec.static_defaults flask) "demo"
      (mkWorld (firstn 5 Samples.cancelling
                ++ [Choice "__new__"; Text "203.0.113.7"; Text "root";
                    Text "~/.ssh/id_rsa"; Text "/srv/apps"; Text "prod";
                    Accept; Accept; Accept; Choice "confirm"])
         (Some Samples.one_server)) = (Returned config, w')
    /\ Template.replacePlaceholders "image: {{APP_NAME}}:latest"
         (Generator.buildTemplateVars config) = "image: demo:latest".
Proof.
  eexists _, _. split; [vm_compute; reflexivity |].
  match goal with
  | |- Template.replacePlaceholders _ (Generator.buildTemplateVars ?config) = _ =>
      pose proof (collected_name_is_substituted_as_it_is (Spec.static_defaults flask) "demo"
                    (mkWorld (firstn 5 Samples.cancelling
                              ++ [Choice "__new__"; Text "203.0.113.7"; Text "root";
                                  Text "~/.ssh/id_rsa"; Text "/srv/apps"; Text "prod";
                                  Accept; Accept; Accept; Choice "confirm"])
                       (Some Samples.one_server)) _ config "image: " ":latest"
                    ltac:(vm_compute; reflexivity) eq_refl eq_refl) as Hname
  end.
  exact Hname.
Defined.

(* ===================================================================== *)
(** * The commands *)
(* ===================================================================== *)

(** ** The wait for the workflow run *)

Lemma check_decides (r : Commands.reply) (v : Commands.verdict) :
  Commands.check r = Some v -> v <> Commands.TimedOut.
Proof.
  unfold Commands.check. destruct r as [|[|run runs]]; try discriminate.
  - now intros [= <-].
  - destruct (Json.member "status" run) as [status|e]; [| now intros [= <-]].
    destruct (Commands.is_text "completed" status); [| discriminate].
    destruct (Json.member "conclusion" run) as [conclusion|e]; [| now intros [= <-]].
    destruct (Commands.is_text "success" conclusion); now intros [= <-].
Qed.

Lemma poll_spec (gh : nat -> Commands.reply) (left : nat) :
  forall (i : nat) (waited : Z) (v : Commands.verdict) (queries : nat) (t : Z),
    Commands.poll gh left i waited = (v, queries, t) ->
    (v = Commands.TimedOut /\ queries = (i + left)%nat /\ t = waited + 10000 * Z.of_nat left
     /\ forall k, (i <= k < i + left)%nat -> Commands.check (gh k) = None)
    \/ (exists j, (i <= j < i + left)%nat /\ queries = S j
                  /\ t = waited + 10000 * Z.of_nat (j - i)
                  /\ Commands.check (gh j) = Some v
                  /\ forall k, (i <= k < j)%nat -> Commands.check (gh k) = None).
Proof.
  induction left as [|left IH]; intros i waited v queries t H; cbn [Commands.poll] in H.
  - injection H as <- <- <-. left.
    split; [reflexivity | split; [lia | split; [lia | intros k Hk; lia]]].
  - destruct (Commands.check (gh i)) as [v'|] eqn:Hcheck.
    + injection H as <- <- <-. right. exists i.
      split; [lia | split; [reflexivity | split; [| split; [exact Hcheck | intros k Hk; lia]]]].
      replace (i - i)%nat with 0%nat by lia. lia.
    + apply IH in H as [(Hv & Hq & Ht & Hall) | (j & Hj & Hq & Ht & Hc & Hall)].
      * left. split; [exact Hv | split; [lia | split; [lia |]]]. intros k Hk.
        destruct (Nat.eq_dec k i) as [->|Hne]; [exact Hcheck | apply Hall; lia].
      * right. exists j.
        split; [lia | split; [exact Hq | split; [lia | split; [exact Hc |]]]]. intros k Hk.
        destruct (Nat.eq_dec k i) as [->|Hne]; [exact Hcheck | apply Hall; lia].
Qed.

(** The wait for the workflow run makes at most 30 queries and ends at
    the first reply that decides: a query that fails, or a first run
    that is completed (success when its conclusion is [success],
    failure otherwise, an unverified end when the first run is
    [null]).  The replies before it were all undecided, each followed
    by a sleep of ten seconds after the first five; later replies are
    never asked for.  The wait times out, after 305 seconds, exactly
    when the thirty replies are all undecided. *)
Theorem verification_ends_at_first_decisive_reply (gh : nat -> Commands.reply) :
  match Commands.verify gh with
  | (Commands.TimedOut, queries, waited) =>
      queries = 30%nat /\ waited = 305000
      /\ forall k, (k < 30)%nat -> Commands.check (gh k) = None
  | (v, queries, waited) =>
      exists j, (j < 30)%nat /\ queries = S j /\ waited = 5000 + 10000 * Z.of_nat j
                /\ Commands.check (gh j) = Some v
                /\ forall k, (k < j)%nat -> Commands.check (gh k) = None
  end.
Proof.
  unfold Commands.verify.
  destruct (Commands.poll gh 30 0 5000) as [[v queries] waited] eqn:Hpoll.
  apply poll_spec in Hpoll as [(Hv & Hq & Ht & Hall) | (j & Hj & Hq & Ht & Hc & Hall)].
  - subst v. split; [exact Hq | split; [lia | intros k Hk; apply Hall; lia]].
  - pose proof (check_decides _ _ Hc) as Hv.
    assert (Hgoal : exists j, (j < 30)%nat /\ queries = S j
                              /\ waited = 5000 + 10000 * Z.of_nat j
                              /\ Commands.check (gh j) = Some v
                              /\ forall k, (k < j)%nat -> Commands.check (gh k) = None).
    { exists j.
      split; [lia | split; [exact Hq | split; [| split; [exact Hc |]]]].
      - rewrite Ht. now rewrite Nat.sub_0_r.
      - intros k Hk. apply Hall. lia. }
    destruct v; [exact Hgoal | exact Hgoal | exact Hgoal | congruence].
Qed.

(** ** [runInit] *)

Lemma made_after_cache (templates : string -> string -> option string)
    (config : CollectedConfig.t) (d d1 d2 : Fs.node) (content : string)
    (f : GeneratedFile.t) :
  Disk.writeFileSync d1 (Fs.join [Cache.CACHE_FILE]) content = Some d2 ->
  Generator.made templates config d d1 f -> Generator.made templates config d d2 f.
Proof.
  intros Hw (Hin & (t & Ht & Hnew) & Hold). unfold Generator.made.
  assert (Hsame : Fs.resolve d2 (Fs.join [GeneratedFile.path f])
                  = Fs.resolve d1 (Fs.join [GeneratedFile.path f])
                  /\ Fs.resolve d2 (Generator.backup_of (GeneratedFile.path f))
                     = Fs.resolve d1 (Generator.backup_of (GeneratedFile.path f))).
  { unfold Generator.outputs in Hin.
    destruct Hin as [<-|[<-|[<-|[<-|[<-|[<-|[]]]]]]];
      (split; apply (resolve_writeFileSync_apart _ _ _ _ _ Hw); reflexivity). }
  destruct Hsame as [Hp Hb]. rewrite Hp, Hb. eauto.
Qed.

Lemma assign_insert {A : Type} (name : string) (v : A) (record : gmap string A) :
  name <> "__proto__" -> ConfigStore.assign name v record = <[name := v]> record.
Proof.
  intros Hname. unfold ConfigStore.assign. apply String.eqb_neq in Hname. rewrite Hname.
  now destruct (record !! name).
Qed.

Lemma valid_name_not_proto (name : string) :
  Collector.valid_name name = true -> name <> "__proto__".
Proof. intros H ->. discriminate H. Qed.

(** [saveProjectRecord] returns or throws. *)
Lemma saveProjectRecord_ends (now name type : string) (w : World) :
  (Spec.has_projects w = true
   /\ exists w', ConfigStore.saveProjectRecord now name type w = (Returned tt, w')
                 /\ script w' = script w
                 /\ GlobalConfig.servers (ConfigStore.stored w')
                    = GlobalConfig.servers (ConfigStore.stored w)
                 /\ GlobalConfig.projects (ConfigStore.stored w')
                    = ConfigStore.assign name (ProjectRecord.mk type (Some now))
                        (GlobalConfig.projects (ConfigStore.stored w)))
  \/ (Spec.has_projects w = false
      /\ exists e, ConfigStore.saveProjectRecord now name type w = (Thrown e, w)
                   /\ (Run.fault w = None -> e = TypeError)).
Proof.
  destruct (Spec.has_projects w) eqn:Hp; [left | right]; (split; [reflexivity |]).
  - destruct (saveProjectRecord_run now name type w Hp) as (w' & H1 & H2 & H3 & H4 & _).
    eauto.
  - revert Hp. unfold Spec.has_projects, Run.fault.
    destruct w as [answers [[e | [| [servers |] [projects |]]] |]]; cbn [config_file];
      intros Hp; try discriminate; eexists; (split; [reflexivity |]);
      intros H; first [discriminate H | reflexivity].
Qed.

(** When [runInit] returns, the detection had succeeded and the
    configuration is well formed for its env keys; the project is in
    the history of the store under its name, with its archetype and
    the time of the run, the rest of the history and every saved label
    being kept; every file of the generation is in the project
    directory as [generateFiles] made it; and a later [loadCache] on
    the directory finds the cache and parses what [JSON.stringify]
    gave for the configuration. *)
Theorem init_leaves_everything_in_place (JSON_parse : string -> result Json.json)
    (JSON_stringify : CollectedConfig.t -> string)
    (templates : string -> string -> option string)
    (projectDir : Fs.node) (basename now : string) (w w' : World) (d' : Fs.node)
    (config : CollectedConfig.t) :
  Commands.runInit JSON_parse JSON_stringify templates projectDir basename now w
  = (Commands.Done config, w', d') ->
  (exists detection,
      Detector.detectProject JSON_parse projectDir = Ok detection
      /\ Run.wellformed (DetectionResult.envKeys detection) config)
  /\ GlobalConfig.projects (ConfigStore.stored w')
     = <[ProjectConfig.name (CollectedConfig.project config)
         := ProjectRecord.mk
              (Collector.type_value (ProjectConfig.type (CollectedConfig.project config)))
              (Some now)]> (GlobalConfig.projects (ConfigStore.stored w))
  /\ (forall label, is_Some (GlobalConfig.servers (ConfigStore.stored w) !! label) ->
                    is_Some (GlobalConfig.servers (ConfigStore.stored w') !! label))
  /\ Forall (Generator.made templates config projectDir d') (Cli.generateFiles config projectDir)
  /\ Cache.loadCache JSON_parse d'
     = match JSON_parse (JSON_stringify config) with
       | Ok v => Cache.Parsed v
       | Err e => Cache.Failed e
       end.
Proof.
  intros H. unfold Commands.runInit in H.
  destruct (Detector.detectProject JSON_parse projectDir) as [detection|e] eqn:Hdetect;
    [| discriminate].
  destruct (Collector.collectConfig detection (Orchestrator.projectName basename) w)
    as [[config1|code|e|] w1] eqn:Hcollect; try discriminate.
  destruct (Generator.generateFiles templates config1 projectDir) as [[files|] d1] eqn:Hgen;
    [| discriminate].
  destruct (saveProjectRecord_ends now
              (ProjectConfig.name (CollectedConfig.project config1))
              (Collector.type_value (ProjectConfig.type (CollectedConfig.project config1))) w1)
    as [(_ & w2 & Hrecord & _ & Hservers2 & Hprojects2) | (_ & e & Hrecord & _)];
    rewrite Hrecord in H; [| discriminate].
  destruct (Cache.saveCache JSON_stringify d1 config1) as [d2|] eqn:Hcache; [| discriminate].
  injection H as -> <- <-.
  pose proof (labels_collectConfig detection (Orchestrator.projectName basename) w)
    as [Hlabels Hprojects].
  rewrite Hcollect in Hlabels, Hprojects. cbn [snd] in Hlabels, Hprojects.
  apply generateFiles_trace in Hgen as (-> & Hmade & _).
  unfold Cache.saveCache in Hcache.
  pose proof (collectConfig_wellformed _ _ _ _ _ Hcollect) as Hwf.
  split; [exists detection; split; [reflexivity | exact Hwf] |].
  split.
  { rewrite Hprojects2, Hprojects. apply assign_insert, valid_name_not_proto.
    exact (proj1 Hwf). }
  split; [intros label Hl; rewrite Hservers2; now apply Hlabels |].
  split.
  - rewrite List.Forall_forall in *. intros f Hf.
    exact (made_after_cache _ _ _ _ _ _ _ Hcache (Hmade f Hf)).
  - unfold Cache.loadCache, Fs.existsSync, Fs.readFileSync.
    now rewrite (resolve_writeFileSync_same _ _ _ _ Hcache).
Qed.

Lemma init_leaves_everything_in_place_witness :
  exists config w' d',
    Commands.runInit Samples.parse (fun config => "{}")
      (fun category name => Some (Template.placeholder "APP_NAME"))
      Samples.flask_dir "My App" "2024-05-01T00:00:00.000Z"
      (mkWorld (removelast Samples.cancelling ++ [Choice "confirm"]) None)
    = (Commands.Done config, w', d')
    /\ GlobalConfig.projects (ConfigStore.stored w') !! "my-app"
       = Some (ProjectRecord.mk "flask" (Some "2024-05-01T00:00:00.000Z")).
Proof.
  eexists _, _, _. split; [vm_compute; reflexivity |].
  match goal with
  | |- GlobalConfig.projects (ConfigStore.stored ?w') !! _ = _ =>
      rewrite (proj1 (proj2 (init_leaves_everything_in_place Samples.parse (fun config => "{}")
                               (fun category name => Some (Template.placeholder "APP_NAME"))
                               Samples.flask_dir "My App" "2024-05-01T00:00:00.000Z"
                               (mkWorld (removelast Samples.cancelling ++ [Choice "confirm"])
                                  None)
                               w' _ _ ltac:(vm_compute; reflexivity))))
  end.
  apply lookup_insert_eq.
Defined.


(** A store file with its map of servers and no map of projects: the
    collection goes through, the files are generated, and the project
    record throws. *)
Lemma init_on_a_store_without_projects :
  exists w' d',
    Commands.runInit Samples.parse (fun config => "{}")
      (fun category name => Some (Template.placeholder "APP_NAME"))
      Samples.flask_dir "My App" "2024-05-01T00:00:00.000Z"
      (mkWorld (removelast Samples.cancelling ++ [Choice "confirm"])
         (Some (StoreFile.Holds (StoreFile.Object (Some ∅) None))))
    = (Commands.RecordFailed TypeError, w', d')
    /\ Fs.existsSync d' ["Dockerfile"] = true
    /\ Fs.existsSync d' [Cache.CACHE_FILE] = false.
Proof. eexists _, _. split; [vm_compute; reflexivity |]. split; reflexivity. Qed.

(** ** The templates of a collected configuration *)

(** For a configuration that [collectConfig] returns, the two template
    choices of [generateFiles] agree: the Python ignore file goes with
    the Python Dockerfile, the Node ignore file with the two others.
    For any configuration, collected or not, [nginx.conf] is among the
    targets exactly when the Dockerfile is the one of the single-page
    archetypes. *)
Theorem collected_templates_agree (detection : DetectionResult.t) (projectName : string)
    (w w' : World) (config : CollectedConfig.t) :
  (Collector.collectConfig detection projectName w = (Returned config, w') ->
   (Generator.ignoreCategory config = "python"
    <-> Generator.dockerfile_name
          (Collector.type_value (ProjectConfig.type (CollectedConfig.project config)))
        = "python.Dockerfile"))
  /\ (forall any : CollectedConfig.t,
        In "nginx.conf" (Generator.targets any)
        <-> Generator.dockerfile_name
              (Collector.type_value (ProjectConfig.type (CollectedConfig.project any)))
            = "spa.Dockerfile").
Proof.
  split.
  - intros Hrun. apply collectConfig_wellformed in Hrun as (_ & Hlang & _).
    unfold Generator.ignoreCategory. rewrite Hlang.
    destruct (ProjectConfig.type (CollectedConfig.project config));
      (split; intros H; try reflexivity; discriminate H).
  - intros any. unfold Generator.targets.
    destruct (ProjectConfig.type (CollectedConfig.project any));
      (split; intros H; try reflexivity; try discriminate H;
       try (apply in_app_iff; right; now left);
       try (exfalso; vm_compute in H; intuition discriminate)).
Qed.

Lemma collected_templates_agree_witness :
  exists config w',
    Collector.collectConfig (Spec.static_defaults vue_spa) "demo"
      (mkWorld (removelast Samples.cancelling ++ [Choice "confirm"]) None)
    = (Returned config, w')
    /\ In "nginx.conf" (Generator.targets config)
    /\ Generator.ignoreCategory config <> "python".
Proof.
  eexists _, _. split; [vm_compute; reflexivity |].
  match goal with
  | |- In _ (Generator.targets ?config) /\ _ =>
      destruct (collected_templates_agree (Spec.static_defaults vue_spa) "demo"
                  (mkWorld (removelast Samples.cancelling ++ [Choice "confirm"]) None)
                  (mkWorld []
                     (Some (StoreFile.file_of
                              (GlobalConfig.mk {[ "edge" := Samples.new_profile ]} ∅))))
                  config) as [Hignore Hnginx]
  end.
  split.
  - apply Hnginx. reflexivity.
  - intros Hpython. apply Hignore in Hpython; [discriminate Hpython | reflexivity].
Defined.

(** ** The warnings of [runInit] and the backups *)

Lemma lookup_entry_listed (name : string) (entries : list (string * Fs.node)) (n : Fs.node) :
  Fs.lookup_entry name entries = Some n -> In name (map fst entries).
Proof.
  unfold Fs.lookup_entry. induction entries as [|[k v] entries IH]; [discriminate |].
  cbn [find fst map In]. destruct (String.eqb k name) eqn:Hk.
  - apply String.eqb_eq in Hk. now left.
  - intros H. right. now apply IH.
Qed.

(** The two flags behind the warnings of [runInit], against what
    [generateFiles] then does.  [hasDocker] holds exactly when the
    [Dockerfile] entry of the generation is marked as backed up.
    [hasCI] holds whenever the workflow [deploy.yml] is backed up, but
    it holds for any [.github/workflows] directory: the workflows under
    other names are then neither backed up nor overwritten, every entry
    of that directory beside [deploy.yml] and its backup being left as
    it was. *)
Theorem overwrite_warnings P (templates : string -> string -> option string)
    (d d' : Fs.node) (r : DetectionResult.t) (config : CollectedConfig.t)
    (files : list GeneratedFile.t) :
  Detector.detectProject P d = Ok r ->
  Generator.generateFiles templates config d = (Some files, d') ->
  In (GeneratedFile.mk "Dockerfile" (DetectionResult.hasDocker r)) files
  /\ (In (GeneratedFile.mk ".github/workflows/deploy.yml" true) files ->
      DetectionResult.hasCI r = true)
  /\ forall name, name <> "deploy.yml" -> name <> "deploy.yml.backup" ->
                  Fs.resolve d' [".github"; "workflows"; name]
                  = Fs.resolve d [".github"; "workflows"; name].
Proof.
  intros Hr Hgen.
  apply detectProject_inv in Hr
    as (listing & envKeys & language & version & type & seeded & dp & Hlist & _ & _ & _ & _ & ->).
  cbn [DetectionResult.hasDocker DetectionResult.hasCI].
  apply generateFiles_trace in Hgen as (-> & Hmade & Hframe & _).
  split; [| split].
  - unfold Cli.generateFiles, Cli.writeTemplate. apply in_or_app. left. left. f_equal.
    destruct d as [c|entries]; [discriminate |]. injection Hlist as <-.
    unfold Fs.existsSync. change (Fs.join ["Dockerfile"]) with ["Dockerfile"].
    cbn [Fs.resolve].
    destruct (Fs.lookup_entry "Dockerfile" entries) as [n|] eqn:Hl.
    + symmetry. apply array_includes_In. now apply (lookup_entry_listed _ _ n).
    + symmetry. apply array_includes_not_In. intros Hin.
      destruct (lookup_entry_In _ _ Hin) as [n Hn]. congruence.
  - intros Hin. rewrite List.Forall_forall in Hmade.
    destruct (Hmade _ Hin) as (_ & _ & (c & Hc & _)).
    cbn [GeneratedFile.path] in Hc.
    change (Fs.join [".github/workflows/deploy.yml"])
      with [".github"; "workflows"; "deploy.yml"] in Hc.
    unfold Fs.existsSync. change (Fs.join [".github"; "workflows"]) with [".github"; "workflows"].
    destruct d as [c0|entries]; [discriminate |]. cbn [Fs.resolve] in *.
    destruct (Fs.lookup_entry ".github" entries) as [[c1|es1]|]; try discriminate.
    now destruct (Fs.lookup_entry "workflows" es1) as [[c2|es2]|].
  - intros name Hname Hbackup. apply Hframe.
    unfold Generator.clear, Generator.outputs, Generator.clear_of, Generator.backup_of.
    cbn [forallb].
    repeat match goal with
           | |- context [Fs.join ?l] =>
               let v := eval vm_compute in (Fs.join l) in change (Fs.join l) with v
           end.
    cbn [Disk.apart].
    apply String.eqb_neq in Hname, Hbackup.
    rewrite (String.eqb_sym "deploy.yml"), (String.eqb_sym "deploy.yml.backup").
    rewrite Hname, Hbackup. reflexivity.
Qed.

Lemma overwrite_warnings_witness :
  Fs.resolve
    (snd (Generator.generateFiles (fun category name => Some (Template.placeholder "APP_NAME"))
            Samples.some_config
            (Fs.Dir [("requirements.txt", Fs.File "Flask==2.3");
                     (".github", Fs.Dir [("workflows", Fs.Dir [("ci.yml", Fs.File "on: push")])])])))
    [".github"; "workflows"; "ci.yml"] = Some (Fs.File "on: push").
Proof.
  pose proof (proj2 (proj2 (overwrite_warnings Samples.parse
                              (fun category name => Some (Template.placeholder "APP_NAME"))
                              (Fs.Dir [("requirements.txt", Fs.File "Flask==2.3");
                                       (".github",
                                        Fs.Dir [("workflows",
                                                 Fs.Dir [("ci.yml", Fs.File "on: push")])])])
                              _ _ Samples.some_config _
                              ltac:(vm_compute; reflexivity) ltac:(vm_compute; reflexivity)))
                "ci.yml" ltac:(discriminate) ltac:(discriminate)) as Hkept.
  vm_compute in Hkept. vm_compute. exact Hkept.
Defined.
